(** * Camera acquisition engine: a shallow embedding of the Arducam scripts

    The development follows the Python sources file by file:

    - the pixel tests and frame classifiers of [true_color_test.py],
      [native_color_arducam.py], [arducam_color_force.py] and
      [true_color_arducam.py];
    - the focus control, capture loop and frame buffer of
      [robust_arducam.py] and [arducam_controller.py];
    - the negotiation loop [connect] of [native_color_arducam.py].

    The device ([cv2.VideoCapture]) is a parameter: a driver answers
    each call as a function of its state.  Methods run in a small monad
    of controller state, exceptions and emitted events, so that what a
    method asked of the device, and in which order, is part of its
    outcome.  Definitions come first; the properties follow, with a
    simulated device for concrete runs.

    Frames are numpy arrays of unsigned 8-bit components: a shape and a
    row-major buffer.  Arithmetic on components is written out with its
    wrap-around modulo 256, as numpy performs it on [uint8] scalars. *)

From Stdlib Require Import String Ascii DecimalString ZArith List Bool Lia.
Import ListNotations.
Open Scope Z_scope.

(** ** Unsigned 8-bit components *)

Definition u8 (v : Z) : Prop := 0 <= v < 256.

(** [a - b] and [a + b] on two [numpy.uint8] scalars wrap modulo 256;
    [abs] of an unsigned scalar is the scalar itself. *)
Definition u8_sub (a b : Z) : Z := (a - b) mod 256.
Definition u8_add (a b : Z) : Z := (a + b) mod 256.
Definition u8_abs (a : Z) : Z := a.

(** A pixel as unpacked by [b, g, r = frame[y, x]]. *)
Record Pixel := mkPixel { px_b : Z; px_g : Z; px_r : Z }.

Definition u8_pixel (p : Pixel) : Prop :=
  u8 (px_b p) /\ u8 (px_g p) /\ u8 (px_r p).

(** A pixel with three equal components. *)
Definition gray_pixel (p : Pixel) : Prop :=
  px_b p = px_g p /\ px_g p = px_r p.

(** [diff_rg = abs(r - g)], [diff_rb = abs(r - b)], [diff_gb = abs(g - b)]. *)
Definition diff_rg (p : Pixel) : Z := u8_abs (u8_sub (px_r p) (px_g p)).
Definition diff_rb (p : Pixel) : Z := u8_abs (u8_sub (px_r p) (px_b p)).
Definition diff_gb (p : Pixel) : Z := u8_abs (u8_sub (px_g p) (px_b p)).

(** [diff_rg > T or diff_rb > T or diff_gb > T]. *)
Definition any_diff_gt (T : Z) (p : Pixel) : bool :=
  (T <? diff_rg p) || (T <? diff_rb p) || (T <? diff_gb p).

(** ** Frames: numpy arrays of shape [(h, w)] or [(h, w, c)] *)

Record ndarray := mkArray { shape : list Z; data : list Z }.

Definition dim (f : ndarray) (i : nat) : Z := nth i (shape f) 0.

(** [len(frame.shape) == 3 and frame.shape[2] == 3] *)
Definition is_bgr (f : ndarray) : bool :=
  (length (shape f) =? 3)%nat && (dim f 2 =? 3).

Fixpoint product (l : list Z) : Z :=
  match l with
  | [] => 1
  | x :: r => x * product r
  end.

(** The buffer holds exactly the components the shape announces. *)
Definition wf_frame (f : ndarray) : Prop :=
  Z.of_nat (length (data f)) = product (shape f) /\ Forall u8 (data f).

Definition at_ (f : ndarray) (i : Z) : Z := nth (Z.to_nat i) (data f) 0.

(** [frame[y, x]] on a 3-channel frame, row-major. *)
Definition getpixel (f : ndarray) (y x : Z) : Pixel :=
  let base := (y * dim f 1 + x) * 3 in
  mkPixel (at_ f base) (at_ f (base + 1)) (at_ f (base + 2)).

(** [0 <= x < w and 0 <= y < h] *)
Definition in_bounds (w h x y : Z) : bool :=
  (0 <=? x) && (x <? w) && (0 <=? y) && (y <? h).

(** The number of sample points, given as [(x, y)], that lie inside the
    frame and whose pixel passes [test]. *)
Definition count_points (test : Pixel -> bool) (f : ndarray)
    (w h : Z) (pts : list (Z * Z)) : Z :=
  Z.of_nat (length (filter
    (fun pt => in_bounds w h (fst pt) (snd pt)
               && test (getpixel f (snd pt) (fst pt))) pts)).

(** The pixels the frame is read at: the in-bounds sample points. *)
Definition sampled (w h : Z) (pts : list (Z * Z)) : list (Z * Z) :=
  filter (fun pt => in_bounds w h (fst pt) (snd pt)) pts.

(** The pixels of a 3-channel buffer, in order ([cv2.split] reads the
    same triples plane by plane). *)
Fixpoint pixels (d : list Z) : list Pixel :=
  match d with
  | b :: g :: r :: rest => mkPixel b g r :: pixels rest
  | _ => []
  end.

(** ** true_color_test.py *)

Module TrueColorTest.

(** Lines 58-62: the 3 x 3 grid of sample points. *)
Definition sample_points (w h : Z) : list (Z * Z) :=
  [ (w / 4, h / 4); (w / 2, h / 4); (3 * w / 4, h / 4);
    (w / 4, h / 2); (w / 2, h / 2); (3 * w / 4, h / 2);
    (w / 4, 3 * h / 4); (w / 2, 3 * h / 4); (3 * w / 4, 3 * h / 4) ].

Definition max_diff (p : Pixel) : Z :=
  Z.max (Z.max (diff_rg p) (diff_rb p)) (diff_gb p).

(** [pixel_sum = r + g + b], on [uint8] scalars. *)
Definition pixel_sum (p : Pixel) : Z :=
  u8_add (u8_add (px_r p) (px_g p)) (px_b p).

(** Line 78: [max_diff > 25 and 50 < pixel_sum < 650]. *)
Definition is_color_point (p : Pixel) : bool :=
  (25 <? max_diff p) && ((50 <? pixel_sum p) && (pixel_sum p <? 650)).

Definition color_points (f : ndarray) : Z :=
  let h := dim f 0 in
  let w := dim f 1 in
  count_points is_color_point f w h (sample_points w h).

(** Lines 53-82: whether a frame read by the test is counted as a
    true-colour frame. *)
Definition frame_is_true_color (f : ndarray) : bool :=
  if is_bgr f then 3 <=? color_points f else false.

End TrueColorTest.

(** ** native_color_arducam.py: the classifier *)

Module NativeColorClassifier.

(** Lines 88-92. *)
Definition sample_points (w h : Z) : list (Z * Z) :=
  [ (w / 4, h / 4); (3 * w / 4, h / 4);
    (w / 4, 3 * h / 4); (3 * w / 4, 3 * h / 4);
    (w / 2, h / 2) ].

(** Line 104. *)
Definition pixel_has_color (p : Pixel) : bool := any_diff_gt 10 p.

(** [_has_true_color] together with the list of pixel positions it
    reads from the frame. *)
Definition _has_true_color_reads (f : ndarray) : bool * list (Z * Z) :=
  if negb (is_bgr f) then (false, [])
  else
    let h := dim f 0 in
    let w := dim f 1 in
    let pts := sample_points w h in
    (2 <=? count_points pixel_has_color f w h pts, sampled w h pts).

Definition _has_true_color (f : ndarray) : bool :=
  fst (_has_true_color_reads f).

End NativeColorClassifier.

(** ** arducam_color_force.py: the classifier *)

Module ArducamColorForce.

(** Python's [range(a, b, s)] for a positive step. *)
Definition range_step (a b s : Z) : list Z :=
  map (fun k => a + Z.of_nat k * s) (seq 0 (Z.to_nat ((b - a + s - 1) / s))).

(** Line 100. *)
Definition pixel_has_color (p : Pixel) : bool := any_diff_gt 20 p.

Definition grid (w h : Z) : list (Z * Z) :=
  flat_map (fun y => map (fun x => (x, y))
                       (range_step (w / 4) (3 * w / 4) (w / 8)))
           (range_step (h / 4) (3 * h / 4) (h / 8)).

(** [_check_color]; [None] is the [ValueError] that [range] raises
    for a zero step, on frames less than 8 pixels high or wide. *)
Definition _check_color (f : ndarray) : option bool :=
  if negb (is_bgr f) then Some false
  else
    let h := dim f 0 in
    let w := dim f 1 in
    if (h / 8 =? 0) || (w / 8 =? 0) then None
    else Some (3 <=? count_points pixel_has_color f w h (grid w h)).

End ArducamColorForce.

(** ** true_color_arducam.py: the classifier *)

Inductive ColorVerdict := TrueColor | Grayscale | GrayscaleDisguisedAsColor.

Module TrueColorClassifier.

Definition sum_abs_diff (sel1 sel2 : Pixel -> Z) (ps : list Pixel) : Z :=
  fold_right (fun p acc => Z.abs (sel1 p - sel2 p) + acc) 0 ps.

(** [np.mean(np.abs(a.astype(float) - b.astype(float))) < 5.0]: the
    planes hold integers below 256, so the sum is exact and the mean
    is below 5 exactly when the sum is below five times the count, on
    a plane with at least one entry. *)
Definition mean_below_threshold (sel1 sel2 : Pixel -> Z)
    (ps : list Pixel) : bool :=
  let n := Z.of_nat (length ps) in
  (0 <? n) && (sum_abs_diff sel1 sel2 ps <? 5 * n).

(** Lines 84-104, on frames with at least one pixel and on frames
    that fail the shape test.  On a 3-channel frame without pixels
    [cv2.split] gives no plane and the unpacking at line 90 raises;
    that exception is not modelled (the definition answers false
    there), and no statement below is about such a frame. *)
Definition _is_grayscale_disguised_as_color (f : ndarray) : bool :=
  if negb (is_bgr f) then false
  else
    let ps := pixels (data f) in
    mean_below_threshold px_b px_g ps
    && mean_below_threshold px_b px_r ps
    && mean_below_threshold px_g px_r ps.

(** The three-way decision of [connect], lines 44-52. *)
Definition connect_verdict (f : ndarray) : ColorVerdict :=
  if _is_grayscale_disguised_as_color f then GrayscaleDisguisedAsColor
  else if is_bgr f then TrueColor
  else Grayscale.

End TrueColorClassifier.

(** ** The capture device (cv2.VideoCapture) as an external collaborator *)

Inductive CapProp :=
| CAP_PROP_AUTOFOCUS | CAP_PROP_FOCUS | CAP_PROP_FOURCC
| CAP_PROP_FRAME_WIDTH | CAP_PROP_FRAME_HEIGHT | CAP_PROP_FPS
| CAP_PROP_BUFFERSIZE.

Inductive Backend := CAP_MSMF | CAP_DSHOW | CAP_ANY.

(** The outcome of [ret, frame = cap.read()]: a frame ([ret] true and
    [frame] not [None]), a failed read, or an exception. *)
Inductive ReadResult :=
| ReadFrame (frame : ndarray)
| ReadFailed
| ReadRaised.

(** A driver: what the device answers to each call, as a function of
    its own state.  [drv_set] answers [None] when the call raises;
    property values are integers (focus, sizes, four-character codes). *)
Record Driver (St : Type) := mkDriver {
  drv_open : Z -> Backend -> St -> St;
  drv_isOpened : St -> bool;
  drv_set : CapProp -> Z -> St -> option bool * St;
  drv_get : CapProp -> St -> option Z;
  drv_read : St -> ReadResult * St;
  drv_release : St -> St
}.
Arguments drv_open {St}.
Arguments drv_isOpened {St}.
Arguments drv_set {St}.
Arguments drv_get {St}.
Arguments drv_read {St}.
Arguments drv_release {St}.

(** What a controller does to the outside world, in order. *)
Inductive Event :=
| EvOpen (camera_id : Z) (backend : Backend)
| EvIsOpened (answer : bool)
| EvSet (p : CapProp) (v : Z)
| EvGet (p : CapProp)
| EvRead (r : ReadResult)
| EvRelease
| EvSleep (ms : Z).

(** The fields the controller classes share ([__init__]), with the state
    of the device behind [self.cap]; [cap] is false while [self.cap] is
    [None]. *)
Record Controller (St : Type) := mkController {
  camera_id : Z;
  cap : bool;
  dev : St;
  is_running : bool;
  current_frame : option ndarray;
  current_mode : string
}.
Arguments camera_id {St}.
Arguments cap {St}.
Arguments dev {St}.
Arguments is_running {St}.
Arguments current_frame {St}.
Arguments current_mode {St}.
Arguments mkController {St}.

(** [__init__(self, camera_id)] over a device in state [d]. *)
Definition __init__ {St} (id : Z) (d : St) : Controller St :=
  mkController id false d false None EmptyString.

Definition with_dev {St} (c : Controller St) (d : St) : Controller St :=
  mkController (camera_id c) (cap c) d (is_running c) (current_frame c)
               (current_mode c).
Definition with_cap {St} (c : Controller St) (b : bool) : Controller St :=
  mkController (camera_id c) b (dev c) (is_running c) (current_frame c)
               (current_mode c).
Definition with_is_running {St} (c : Controller St) (b : bool) : Controller St :=
  mkController (camera_id c) (cap c) (dev c) b (current_frame c)
               (current_mode c).
Definition with_current_frame {St} (c : Controller St) (f : option ndarray)
    : Controller St :=
  mkController (camera_id c) (cap c) (dev c) (is_running c) f (current_mode c).
Definition with_current_mode {St} (c : Controller St) (m : string)
    : Controller St :=
  mkController (camera_id c) (cap c) (dev c) (is_running c) (current_frame c) m.

(** ** Methods: state, exceptions and the events emitted *)

Inductive Exc (A : Type) :=
| Ok (a : A)
| Raised.
Arguments Ok {A}.
Arguments Raised {A}.

Record Outcome (St A : Type) := mkOutcome {
  result : Exc A;
  final : Controller St;
  events : list Event
}.
Arguments result {St A}.
Arguments final {St A}.
Arguments events {St A}.
Arguments mkOutcome {St A}.

Definition M (St A : Type) : Type := Controller St -> Outcome St A.

Definition ret {St A} (a : A) : M St A := fun c => mkOutcome (Ok a) c [].

Definition bind {St A B} (m : M St A) (k : A -> M St B) : M St B :=
  fun c =>
    match m c with
    | mkOutcome (Ok a) c1 e1 =>
        match k a c1 with
        | mkOutcome r c2 e2 => mkOutcome r c2 (e1 ++ e2)
        end
    | mkOutcome Raised c1 e1 => mkOutcome Raised c1 e1
    end.

(** [try: m except Exception: handler] *)
Definition try_except {St A} (m : M St A) (handler : M St A) : M St A :=
  fun c =>
    match m c with
    | mkOutcome (Ok a) c1 e1 => mkOutcome (Ok a) c1 e1
    | mkOutcome Raised c1 e1 =>
        match handler c1 with
        | mkOutcome r c2 e2 => mkOutcome r c2 (e1 ++ e2)
        end
    end.

Declare Scope method_scope.
Delimit Scope method_scope with method.
Notation "x <- m ;; k" := (bind m (fun x => k))
  (at level 61, m at next level, right associativity) : method_scope.
Notation "m ;; k" := (bind m (fun _ => k))
  (at level 61, right associativity) : method_scope.
Open Scope method_scope.

Section DeviceCalls.

Context {St : Type} (drv : Driver St).

Definition emit (e : Event) : M St unit :=
  fun c => mkOutcome (Ok tt) c [e].

(** [time.sleep], in milliseconds. *)
Definition sleep (ms : Z) : M St unit := emit (EvSleep ms).

(** [self.cap = cv2.VideoCapture(self.camera_id, backend)] *)
Definition VideoCapture (backend : Backend) : M St unit :=
  fun c =>
    mkOutcome (Ok tt)
              (with_cap (with_dev c (drv_open drv (camera_id c) backend (dev c)))
                        true)
              [EvOpen (camera_id c) backend].

(** [self.cap.isOpened()] *)
Definition isOpened : M St bool :=
  fun c =>
    if cap c then
      let b := drv_isOpened drv (dev c) in
      mkOutcome (Ok b) c [EvIsOpened b]
    else mkOutcome Raised c [].

(** [self.cap and self.cap.isOpened()] *)
Definition cap_and_isOpened : M St bool :=
  fun c => if cap c then isOpened c else mkOutcome (Ok false) c [].

(** [self.cap.set(p, v)] *)
Definition cap_set (p : CapProp) (v : Z) : M St bool :=
  fun c =>
    if cap c then
      let '(r, d) := drv_set drv p v (dev c) in
      mkOutcome (match r with Some b => Ok b | None => Raised end)
                (with_dev c d) [EvSet p v]
    else mkOutcome Raised c [].

(** [self.cap.get(p)] *)
Definition cap_get (p : CapProp) : M St Z :=
  fun c =>
    if cap c then
      mkOutcome (match drv_get drv p (dev c) with
                 | Some v => Ok v
                 | None => Raised
                 end) c [EvGet p]
    else mkOutcome Raised c [].

(** [ret, frame = self.cap.read()] followed by the test
    [ret and frame is not None]: the frame when the test passes. *)
Definition cap_read : M St (option ndarray) :=
  fun c =>
    if cap c then
      let '(r, d) := drv_read drv (dev c) in
      mkOutcome (match r with
                 | ReadFrame f => Ok (Some f)
                 | ReadFailed => Ok None
                 | ReadRaised => Raised
                 end) (with_dev c d) [EvRead r]
    else mkOutcome Raised c [].

(** [self.cap.release()] *)
Definition cap_release : M St unit :=
  fun c =>
    if cap c then
      mkOutcome (Ok tt) (with_dev c (drv_release drv (dev c))) [EvRelease]
    else mkOutcome Raised c [].

End DeviceCalls.

(** ** robust_arducam.py *)

(** How a run of the capture loop ends: the stop flag was seen, the
    failure streak reached the ceiling, the device was not available,
    or the iterations granted to the run were used up. *)
Inductive LoopExit := Stopped | Faulted | Unavailable | OutOfFuel.

(** One iteration's effect on the loop: go on with a new streak or
    [break]. *)
Inductive Step := Continue (consecutive_failures : Z) | Break (e : LoopExit).

Module RobustArducam.
Section Methods.

Context {St : Type} (drv : Driver St).

(** [_configure_focus], lines 82-98. *)
Definition _configure_focus : M St unit :=
  cap_set drv CAP_PROP_AUTOFOCUS 0 ;;
  cap_set drv CAP_PROP_FOCUS 100 ;;
  sleep 100 ;;
  cap_get drv CAP_PROP_AUTOFOCUS ;;
  cap_get drv CAP_PROP_FOCUS ;;
  ret tt.

(** [start_capture]: the thread it starts runs [_capture_loop]. *)
Definition start_capture : M St unit :=
  fun c => mkOutcome (Ok tt) (with_is_running c true) [].

Definition max_failures : Z := 10.

Definition publish (frame : ndarray) : M St unit :=
  fun c => mkOutcome (Ok tt) (with_current_frame c (Some frame)) [].

(** The body of the [try] block, lines 115-135. *)
Definition iteration (consecutive_failures : Z) : M St Step :=
  available <- cap_and_isOpened drv ;;
  if available then
    frame <- cap_read drv ;;
    match frame with
    | Some f =>
        publish f ;;
        sleep 1 ;;
        ret (Continue 0)
    | None =>
        let consecutive_failures := consecutive_failures + 1 in
        if max_failures <=? consecutive_failures then ret (Break Faulted)
        else
          sleep 100 ;;
          sleep 1 ;;
          ret (Continue consecutive_failures)
    end
  else ret (Break Unavailable).

(** One pass through the [try] statement, lines 114-140: an
    exception adds to the streak and the loop goes on. *)
Definition attempt (consecutive_failures : Z) : M St Step :=
  try_except (iteration consecutive_failures)
             (sleep 100 ;;
              ret (Continue (consecutive_failures + 1))).

(** [_capture_loop], lines 108-140; [fuel] bounds the number of
    iterations observed. *)
Fixpoint loop (fuel : nat) (consecutive_failures : Z) : M St LoopExit :=
  match fuel with
  | O => ret OutOfFuel
  | S fuel' =>
      fun c =>
        if negb (is_running c) then ret Stopped c
        else
          (s <- attempt consecutive_failures ;;
           match s with
           | Continue n => loop fuel' n
           | Break e => ret e
           end) c
  end.

Definition _capture_loop (fuel : nat) : M St LoopExit := loop fuel 0.

(** [get_frame], lines 142-147: [(True, copy)] or [(False, None)]. *)
Definition get_frame (c : Controller St) : bool * option ndarray :=
  match current_frame c with
  | Some f => (true, Some f)
  | None => (false, None)
  end.

(** [set_focus], lines 149-167. *)
Definition set_focus (focus_value : Z) : M St bool :=
  available <- cap_and_isOpened drv ;;
  if available then
    try_except
      (cap_set drv CAP_PROP_AUTOFOCUS 0 ;;
       result <- cap_set drv CAP_PROP_FOCUS focus_value ;;
       sleep 100 ;;
       cap_get drv CAP_PROP_FOCUS ;;
       ret result)
      (ret false)
  else ret false.

(** [stop], lines 169-177; once the loop has ended the thread is no
    longer alive and there is nothing to join. *)
Definition stop : M St unit :=
  fun c =>
    let c := with_is_running c false in
    if cap c then cap_release drv c else ret tt c.

End Methods.
End RobustArducam.

(** ** arducam_controller.py *)

Module ArducamController.
Section Methods.

Context {St : Type} (drv : Driver St).

(** [get_frame], lines 285-291. *)
Definition get_frame (c : Controller St) : bool * option ndarray :=
  match current_frame c with
  | Some f => (true, Some f)
  | None => (false, None)
  end.

(** [set_focus], lines 293-314. *)
Definition set_focus (focus_value : Z) : M St bool :=
  available <- cap_and_isOpened drv ;;
  if negb available then ret false
  else
    cap_set drv CAP_PROP_AUTOFOCUS 0 ;;
    result <- cap_set drv CAP_PROP_FOCUS focus_value ;;
    if result then
      sleep 100 ;;
      cap_get drv CAP_PROP_FOCUS ;;
      ret result
    else ret result.

End Methods.
End ArducamController.

(** ** true_color_arducam.py *)

Module TrueColorArducam.
Section Methods.

Context {St : Type} (drv : Driver St).

(** [set_focus], lines 197-210. *)
Definition set_focus (focus_value : Z) : M St bool :=
  available <- cap_and_isOpened drv ;;
  if available then
    try_except
      (cap_set drv CAP_PROP_AUTOFOCUS 0 ;;
       result <- cap_set drv CAP_PROP_FOCUS focus_value ;;
       sleep 100 ;;
       cap_get drv CAP_PROP_FOCUS ;;
       ret result)
      (ret false)
  else ret false.

End Methods.
End TrueColorArducam.

(** ** native_color_arducam.py: negotiation *)

Definition ord (c : ascii) : Z := Z.of_nat (nat_of_ascii c).

(** [cv2.VideoWriter_fourcc(c1, c2, c3, c4)] *)
Definition VideoWriter_fourcc (c1 c2 c3 c4 : ascii) : Z :=
  Z.lor (Z.lor (Z.lor (ord c1) (Z.shiftl (ord c2) 8))
               (Z.shiftl (ord c3) 16))
        (Z.shiftl (ord c4) 24).

(** [str(n)] for an integer. *)
Definition str (n : Z) : string := NilZero.string_of_int (Z.to_int n).

(** An entry of [strategies]: [(mode_name, width, height, fourcc)]. *)
Record Strategy := mkStrategy {
  mode_name : string;
  width : Z;
  height : Z;
  fourcc : Z
}.

Module NativeColorArducam.

Definition MJPG : Z := VideoWriter_fourcc "M" "J" "P" "G".
Definition YUY2 : Z := VideoWriter_fourcc "Y" "U" "Y" "2".

(** Lines 27-35. *)
Definition strategies : list Strategy :=
  [ mkStrategy "4656x3496 (16MP)" 4656 3496 MJPG;
    mkStrategy "3840x2160 (4K)" 3840 2160 MJPG;
    mkStrategy "1920x1080 (FHD)" 1920 1080 MJPG;
    mkStrategy "1280x720 (HD)" 1280 720 MJPG;
    mkStrategy "640x480 (VGA)" 640 480 MJPG;
    mkStrategy "640x480 YUV" 640 480 YUY2;
    mkStrategy "320x240" 320 240 MJPG ].

Section Methods.

Context {St : Type} (drv : Driver St).

(** [_configure_focus], lines 109-121. *)
Definition _configure_focus : M St unit :=
  cap_set drv CAP_PROP_AUTOFOCUS 0 ;;
  cap_set drv CAP_PROP_FOCUS 100 ;;
  sleep 100 ;;
  cap_get drv CAP_PROP_AUTOFOCUS ;;
  cap_get drv CAP_PROP_FOCUS ;;
  ret tt.

(** Lines 57-62: [for i in range(n)], counting the frames that were
    read and have true colour. *)
Fixpoint probe (n : nat) (color_frames : Z) : M St Z :=
  match n with
  | O => ret color_frames
  | S n' =>
      frame <- cap_read drv ;;
      match frame with
      | Some f =>
          if NativeColorClassifier._has_true_color f
          then probe n' (color_frames + 1)
          else probe n' color_frames
      | None => probe n' color_frames
      end
  end.

Definition set_current_mode (m : string) : M St unit :=
  fun c => mkOutcome (Ok tt) (with_current_mode c m) [].

(** The body of the [for] loop over [strategies], lines 38-76: true
    when it returns [True] from [connect], false when the loop goes
    on to the next entry. *)
Definition try_strategy (s : Strategy) : M St bool :=
  VideoCapture drv CAP_MSMF ;;
  opened <- isOpened drv ;;
  if opened then
    cap_set drv CAP_PROP_FOURCC (fourcc s) ;;
    sleep 100 ;;
    cap_set drv CAP_PROP_FRAME_WIDTH (width s) ;;
    cap_set drv CAP_PROP_FRAME_HEIGHT (height s) ;;
    cap_set drv CAP_PROP_FPS 30 ;;
    cap_set drv CAP_PROP_BUFFERSIZE 1 ;;
    sleep 1000 ;;
    color_frames <- probe 5 0 ;;
    if 3 <=? color_frames then
      actual_w <- cap_get drv CAP_PROP_FRAME_WIDTH ;;
      actual_h <- cap_get drv CAP_PROP_FRAME_HEIGHT ;;
      set_current_mode
        (mode_name s ++ " (" ++ str actual_w ++ "x" ++ str actual_h ++ ")") ;;
      _configure_focus ;;
      ret true
    else
      cap_release drv ;;
      ret false
  else
    sleep 500 ;;
    ret false.

(** [connect] over a list of strategies, lines 37-79. *)
Fixpoint connect_with (l : list Strategy) : M St bool :=
  match l with
  | [] => ret false
  | s :: rest =>
      accepted <- try_strategy s ;;
      if accepted then ret true else connect_with rest
  end.

Definition connect : M St bool := connect_with strategies.

(** [set_focus], lines 158-171. *)
Definition set_focus (focus_value : Z) : M St bool :=
  available <- cap_and_isOpened drv ;;
  if available then
    try_except
      (cap_set drv CAP_PROP_AUTOFOCUS 0 ;;
       result <- cap_set drv CAP_PROP_FOCUS focus_value ;;
       sleep 100 ;;
       cap_get drv CAP_PROP_FOCUS ;;
       ret result)
      (ret false)
  else ret false.

End Methods.
End NativeColorArducam.

(** ** The rules as the specification words them *)

Module Spec.

(** "max(pairwise diffs) > T_diff AND the component sum lies strictly
    between a low and high bound", on the components as numbers. *)
Definition max_abs_diff (p : Pixel) : Z :=
  Z.max (Z.max (Z.abs (px_r p - px_g p)) (Z.abs (px_r p - px_b p)))
        (Z.abs (px_g p - px_b p)).

Definition component_sum (p : Pixel) : Z := px_r p + px_g p + px_b p.

Definition colorful (T_diff low high : Z) (p : Pixel) : bool :=
  (T_diff <? max_abs_diff p)
  && ((low <? component_sum p) && (component_sum p <? high)).

(** The probe frames that were read, and those among them with the
    TrueColor verdict. *)
Definition successfully_read (rs : list ReadResult) : Z :=
  Z.of_nat (length (filter
    (fun r => match r with ReadFrame _ => true | _ => false end) rs)).

Definition true_color_count (rs : list ReadResult) : Z :=
  Z.of_nat (length (filter
    (fun r => match r with
              | ReadFrame f => NativeColorClassifier._has_true_color f
              | _ => false
              end) rs)).

(** "the count of TrueColor verdicts meets a majority threshold (>50%)
    of successfully-read probe frames" *)
Definition majority_of_read (rs : list ReadResult) : bool :=
  successfully_read rs <? 2 * true_color_count rs.

(** "focus match means read-back within a small epsilon of requested
    value", on integer property values. *)
Definition focus_matches (requested readback : Z) : bool :=
  requested =? readback.

End Spec.

(** ** Projections of an event list *)

Definition reads (l : list Event) : list ReadResult :=
  flat_map (fun e => match e with EvRead r => [r] | _ => [] end) l.

Definition writes (l : list Event) : list (CapProp * Z) :=
  flat_map (fun e => match e with EvSet p v => [(p, v)] | _ => [] end) l.

Definition releases (l : list Event) : nat :=
  length (filter (fun e => match e with EvRelease => true | _ => false end) l).

Definition opens (l : list Event) : nat :=
  length (filter (fun e => match e with EvOpen _ _ => true | _ => false end) l).

Definition successful_opens (l : list Event) : nat :=
  length (filter (fun e => match e with EvIsOpened true => true | _ => false end) l).

(** The frames among the outcomes of a run of reads. *)
Definition frames_of (rs : list ReadResult) : list ndarray :=
  flat_map (fun r => match r with ReadFrame f => [f] | _ => [] end) rs.

(** The frame a buffer holds after a run of publications over [init]. *)
Definition latest (init : option ndarray) (published : list ndarray)
    : option ndarray :=
  fold_left (fun _ f => Some f) published init.

(** ** A simulated device *)

(** A device that fails its first opens, clamps focus to a limit while
    reporting success, remembers the frame size it was asked for, and
    answers reads from a script. *)
Record Sim := mkSim {
  sim_opened : bool;
  sim_failing_opens : nat;
  sim_focus_limit : Z;
  sim_autofocus : Z;
  sim_focus : Z;
  sim_size : Z * Z;
  sim_script : list ReadResult
}.

Definition sim_open (_ : Z) (_ : Backend) (d : Sim) : Sim :=
  match sim_failing_opens d with
  | O => mkSim true O (sim_focus_limit d) (sim_autofocus d) (sim_focus d)
               (sim_size d) (sim_script d)
  | S k => mkSim false k (sim_focus_limit d) (sim_autofocus d) (sim_focus d)
                 (sim_size d) (sim_script d)
  end.

Definition sim_set (p : CapProp) (v : Z) (d : Sim) : option bool * Sim :=
  match p with
  | CAP_PROP_AUTOFOCUS =>
      (Some true, mkSim (sim_opened d) (sim_failing_opens d)
                        (sim_focus_limit d) v (sim_focus d) (sim_size d)
                        (sim_script d))
  | CAP_PROP_FOCUS =>
      (Some true, mkSim (sim_opened d) (sim_failing_opens d)
                        (sim_focus_limit d) (sim_autofocus d)
                        (Z.min v (sim_focus_limit d)) (sim_size d)
                        (sim_script d))
  | CAP_PROP_FRAME_WIDTH =>
      (Some true, mkSim (sim_opened d) (sim_failing_opens d)
                        (sim_focus_limit d) (sim_autofocus d) (sim_focus d)
                        (v, snd (sim_size d)) (sim_script d))
  | CAP_PROP_FRAME_HEIGHT =>
      (Some true, mkSim (sim_opened d) (sim_failing_opens d)
                        (sim_focus_limit d) (sim_autofocus d) (sim_focus d)
                        (fst (sim_size d), v) (sim_script d))
  | _ => (Some true, d)
  end.

Definition sim_get (p : CapProp) (d : Sim) : option Z :=
  match p with
  | CAP_PROP_AUTOFOCUS => Some (sim_autofocus d)
  | CAP_PROP_FOCUS => Some (sim_focus d)
  | CAP_PROP_FRAME_WIDTH => Some (fst (sim_size d))
  | CAP_PROP_FRAME_HEIGHT => Some (snd (sim_size d))
  | _ => Some 0
  end.

Definition sim_read (d : Sim) : ReadResult * Sim :=
  match sim_script d with
  | [] => (ReadFailed, d)
  | r :: rest =>
      (r, mkSim (sim_opened d) (sim_failing_opens d) (sim_focus_limit d)
                (sim_autofocus d) (sim_focus d) (sim_size d) rest)
  end.

Definition sim_release (d : Sim) : Sim :=
  mkSim false (sim_failing_opens d) (sim_focus_limit d) (sim_autofocus d)
        (sim_focus d) (sim_size d) (sim_script d).

Definition sim : Driver Sim :=
  mkDriver Sim sim_open sim_opened sim_set sim_get sim_read sim_release.

(** The same device behind a driver that refuses every focus write:
    the call answers false and changes nothing. *)
Definition refusing : Driver Sim :=
  mkDriver Sim sim_open sim_opened
    (fun p v d =>
       match p with
       | CAP_PROP_FOCUS => (Some false, d)
       | _ => sim_set p v d
       end)
    sim_get sim_read sim_release.

(** A 2 x 2 frame of one BGR colour, and a 2 x 2 single-channel frame. *)
Definition solid (b g r : Z) : ndarray :=
  mkArray [2; 2; 3] [b; g; r; b; g; r; b; g; r; b; g; r].

Definition mono (v : Z) : ndarray := mkArray [2; 2] [v; v; v; v].

Definition red_frame : ndarray := solid 0 0 200.
Definition gray_frame : ndarray := solid 128 128 128.

(** An opened controller over the simulated device. *)
Definition sim_session (limit : Z) (script : list ReadResult)
    : Controller Sim :=
  mkController 1 true (mkSim true O limit 1 0 (0, 0) script) true None
               EmptyString.

(** A controller fresh from [__init__] over a simulated device whose
    first [k] opens fail. *)
Definition sim_fresh (k : nat) (script : list ReadResult) : Controller Sim :=
  __init__ 1 (mkSim false k 255 1 0 (0, 0) script).

(** The last four strategies of [connect], and a device script for
    them: five gray frames, then four red frames and a gray one. *)
Definition hd_720p : Strategy :=
  mkStrategy "1280x720 (HD)" 1280 720 NativeColorArducam.MJPG.
Definition vga : Strategy :=
  mkStrategy "640x480 (VGA)" 640 480 NativeColorArducam.MJPG.
Definition yuv : Strategy :=
  mkStrategy "640x480 YUV" 640 480 NativeColorArducam.YUY2.
Definition small : Strategy :=
  mkStrategy "320x240" 320 240 NativeColorArducam.MJPG.

Definition gray_then_red : list ReadResult :=
  repeat (ReadFrame gray_frame) 5
  ++ repeat (ReadFrame red_frame) 4 ++ [ReadFrame gray_frame].

(** The device keeps failing its reads for the next [n] iterations of
    a capture loop: it is open, and [read] answers without a frame and
    without raising. *)
Fixpoint fails_next {St} (drv : Driver St) (n : nat) (d : St) : Prop :=
  match n with
  | O => True
  | S k =>
      drv_isOpened drv d = true
      /\ fst (drv_read drv d) = ReadFailed
      /\ fails_next drv k (snd (drv_read drv d))
  end.

(** The strategies of a list are tried in order from controller [c] and
    each one is given up (the loop goes on), leaving controller [c'];
    [ev] are the events of these attempts. *)
Inductive Rejects {St} (drv : Driver St)
  : list Strategy -> Controller St -> Controller St -> list Event -> Prop :=
| Rejects_nil (c : Controller St) : Rejects drv [] c c []
| Rejects_cons (s : Strategy) (rest : list Strategy)
    (c c' : Controller St) (ev : list Event) :
    result (NativeColorArducam.try_strategy drv s c) = Ok false ->
    Rejects drv rest (final (NativeColorArducam.try_strategy drv s c)) c' ev ->
    Rejects drv (s :: rest) c c'
            (events (NativeColorArducam.try_strategy drv s c) ++ ev).

(** The writes [set_focus] issues: autofocus off, then, unless that
    call raised, the focus value. *)
Definition focus_writes (autofocus_answer : option bool) (focus_value : Z)
    : list (CapProp * Z) :=
  (CAP_PROP_AUTOFOCUS, 0)
    :: match autofocus_answer with
       | Some _ => [(CAP_PROP_FOCUS, focus_value)]
       | None => []
       end.

(** ** A small logic of outcomes *)

(** [post o Q R]: the outcome [o] satisfies [Q] if it is a value and
    [R] if it is an exception. *)
Definition post {St A} (o : Outcome St A)
    (Q : A -> Controller St -> list Event -> Prop)
    (R : Controller St -> list Event -> Prop) : Prop :=
  match result o with
  | Ok a => Q a (final o) (events o)
  | Raised => R (final o) (events o)
  end.

(** What [probe n] establishes from a count of [acc]: the events are
    [n] reads and the count has grown by the true-colour frames among
    them. *)
Definition probed {St} (n : nat) (acc : Z)
    (k : Z) (c : Controller St) (ev : list Event) : Prop :=
  cap c = true /\ ev = map EvRead (reads ev)
  /\ length (reads ev) = n
  /\ k = acc + Spec.true_color_count (reads ev).

Definition probe_raised {St} (c : Controller St) (ev : list Event) : Prop :=
  cap c = true /\ ev = map EvRead (reads ev).

(** * The rest of the controllers *)

(** An exception raised by the method itself. *)
Definition raise_error {St A} : M St A :=
  fun c => mkOutcome Raised c [].

Definition set_is_running {St} (b : bool) : M St unit :=
  fun c => mkOutcome (Ok tt) (with_is_running c b) [].

(** [self.cap = None] *)
Definition clear_cap {St} : M St unit :=
  fun c => mkOutcome (Ok tt) (with_cap c false) [].

(** ** robust_arducam.py: connect and the key loop of main *)

Module RobustConnect.
Section Methods.

Context {St : Type} (drv : Driver St).

(** Strategies 1 and 2 of [connect], lines 24-62: the MSMF backend at a
    given frame size, then a test frame. *)
Definition connect_msmf (w h : Z) : M St bool :=
  VideoCapture drv CAP_MSMF ;;
  opened <- isOpened drv ;;
  if opened then
    cap_set drv CAP_PROP_FRAME_WIDTH w ;;
    cap_set drv CAP_PROP_FRAME_HEIGHT h ;;
    cap_set drv CAP_PROP_FPS 30 ;;
    cap_set drv CAP_PROP_BUFFERSIZE 1 ;;
    frame <- cap_read drv ;;
    match frame with
    | Some _ =>
        RobustArducam._configure_focus drv ;;
        ret true
    | None =>
        cap_release drv ;;
        ret false
    end
  else ret false.

(** Strategy 3, lines 64-77: any backend, default settings. *)
Definition connect_auto : M St bool :=
  VideoCapture drv CAP_ANY ;;
  opened <- isOpened drv ;;
  if opened then
    frame <- cap_read drv ;;
    match frame with
    | Some _ =>
        RobustArducam._configure_focus drv ;;
        ret true
    | None =>
        cap_release drv ;;
        ret false
    end
  else ret false.

(** [connect], lines 20-80. *)
Definition connect : M St bool :=
  connected <- connect_msmf 320 240 ;;
  if connected then ret true
  else
    connected <- connect_msmf 640 480 ;;
    if connected then ret true
    else
      connected <- connect_auto ;;
      if connected then ret true else ret false.

(** What a key does in the loop of [main], lines 213-224. *)
Inductive KeyEffect := Quit | Refocus (current_focus : Z) | Ignored.

(** [key = cv2.waitKey(1) & 0xFF] and the chain of comparisons with
    [ord('q')], [ord('a')], [ord('d')] and [ord('s')]. *)
Definition on_key (waitKey : Z) (current_focus : Z) : KeyEffect :=
  let key := Z.land waitKey 255 in
  if key =? ord "q" then Quit
  else if key =? ord "a" then Refocus (Z.max 0 (current_focus - 10))
  else if key =? ord "d" then Refocus (Z.min 255 (current_focus + 10))
  else if key =? ord "s" then Refocus 100
  else Ignored.

(** The [while True] loop of [main], lines 198-227, over the answers
    [keys] of the successive calls of [cv2.waitKey] (-1, no key, once
    they are used up); [fuel] bounds the passes observed.  A pass
    without a frame waits half a second and reads no key.  The result
    is the last value of [current_focus]. *)
Fixpoint main_loop (fuel : nat) (keys : list Z) (current_focus : Z)
    : M St Z :=
  match fuel with
  | O => ret current_focus
  | S fuel' =>
      fun c =>
        if fst (RobustArducam.get_frame c) then
          match on_key (List.hd (-1) keys) current_focus with
          | Quit => ret current_focus c
          | Refocus v =>
              (RobustArducam.set_focus drv v ;;
               main_loop fuel' (List.tl keys) v) c
          | Ignored => main_loop fuel' (List.tl keys) current_focus c
          end
        else (sleep 500 ;; main_loop fuel' keys current_focus) c
  end.

End Methods.
End RobustConnect.

(** ** arducam_controller.py: capture and disconnection *)

Module ArducamControllerCapture.
Section Methods.

Context {St : Type} (drv : Driver St).

(** [start_capture], lines 251-266. *)
Definition start_capture : M St bool :=
  fun c =>
    if is_running c then ret true c
    else
      (available <- cap_and_isOpened drv ;;
       if negb available then ret false
       else
         set_is_running true ;;
         ret true) c.

(** [_capture_loop], lines 268-283; [fuel] bounds the number of
    iterations observed. *)
Fixpoint loop (fuel : nat) : M St LoopExit :=
  match fuel with
  | O => ret OutOfFuel
  | S fuel' =>
      fun c =>
        if negb (is_running c) then ret Stopped c
        else
          (available <- cap_and_isOpened drv ;;
           if available then
             frame <- cap_read drv ;;
             match frame with
             | Some f => RobustArducam.publish f
             | None => sleep 10
             end ;;
             sleep 1 ;;
             loop fuel'
           else ret Unavailable) c
  end.

Definition _capture_loop (fuel : nat) : M St LoopExit := loop fuel.

(** [stop_capture], lines 345-350; the join emits nothing. *)
Definition stop_capture : M St unit := set_is_running false.

(** [disconnect], lines 352-358. *)
Definition disconnect : M St unit :=
  stop_capture ;;
  fun c =>
    if cap c then (cap_release drv ;; clear_cap) c
    else ret tt c.

End Methods.
End ArducamControllerCapture.

(** ** native_color_arducam.py: capture *)

Module NativeColorCapture.
Section Methods.

Context {St : Type} (drv : Driver St).

(** The body of the [try] block, lines 135-145: true to go on, false
    to [break]. *)
Definition iteration : M St bool :=
  available <- cap_and_isOpened drv ;;
  if available then
    frame <- cap_read drv ;;
    match frame with
    | Some f => RobustArducam.publish f
    | None => sleep 10
    end ;;
    sleep 1 ;;
    ret true
  else ret false.

(** [_capture_loop], lines 131-149. *)
Fixpoint loop (fuel : nat) : M St LoopExit :=
  match fuel with
  | O => ret OutOfFuel
  | S fuel' =>
      fun c =>
        if negb (is_running c) then ret Stopped c
        else
          (go_on <- try_except iteration (sleep 100 ;; ret true) ;;
           if go_on then loop fuel' else ret Unavailable) c
  end.

Definition _capture_loop (fuel : nat) : M St LoopExit := loop fuel.

End Methods.
End NativeColorCapture.

(** ** arducam_color_force.py: the controller *)

Module ArducamColorForceController.

(** Lines 26-31: the (backend, fourcc) pairs. *)
Definition backends_formats : list (Backend * Z) :=
  [ (CAP_MSMF, VideoWriter_fourcc "Y" "U" "Y" "2");
    (CAP_MSMF, VideoWriter_fourcc "M" "J" "P" "G");
    (CAP_DSHOW, VideoWriter_fourcc "Y" "U" "Y" "2");
    (CAP_DSHOW, VideoWriter_fourcc "M" "J" "P" "G") ].

Section Methods.

Context {St : Type} (drv : Driver St).

(** [self._check_color(frame)] as called: its [ValueError] goes up. *)
Definition check_color (frame : ndarray) : M St bool :=
  match ArducamColorForce._check_color frame with
  | Some b => ret b
  | None => raise_error
  end.

(** The body of the [for] loop of [connect], lines 34-80: true when it
    returns [True], false when the loop goes on. *)
Definition try_pair (backend : Backend) (fourcc : Z) : M St bool :=
  VideoCapture drv backend ;;
  opened <- isOpened drv ;;
  if negb opened then ret false
  else
    cap_set drv CAP_PROP_FOURCC fourcc ;;
    sleep 500 ;;
    cap_set drv CAP_PROP_FRAME_WIDTH 1280 ;;
    cap_set drv CAP_PROP_FRAME_HEIGHT 720 ;;
    cap_set drv CAP_PROP_FPS 30 ;;
    cap_set drv CAP_PROP_BUFFERSIZE 1 ;;
    sleep 2000 ;;
    frame <- cap_read drv ;;
    match frame with
    | Some f =>
        color <- check_color f ;;
        if color then
          cap_set drv CAP_PROP_AUTOFOCUS 1 ;;
          sleep 500 ;;
          cap_get drv CAP_PROP_AUTOFOCUS ;;
          cap_get drv CAP_PROP_FOCUS ;;
          ret true
        else
          cap_release drv ;;
          ret false
    | None =>
        cap_release drv ;;
        ret false
    end.

(** [connect] over a list of pairs, lines 33-83. *)
Fixpoint connect_with (l : list (Backend * Z)) : M St bool :=
  match l with
  | [] => ret false
  | (backend, fourcc) :: rest =>
      connected <- try_pair backend fourcc ;;
      if connected then ret true else connect_with rest
  end.

Definition connect : M St bool := connect_with backends_formats.

(** [_capture_loop], lines 113-123: a closed device does not end it. *)
Fixpoint loop (fuel : nat) : M St LoopExit :=
  match fuel with
  | O => ret OutOfFuel
  | S fuel' =>
      fun c =>
        if negb (is_running c) then ret Stopped c
        else
          (available <- cap_and_isOpened drv ;;
           (if available then
              frame <- cap_read drv ;;
              match frame with
              | Some f => RobustArducam.publish f
              | None => sleep 10
              end
            else ret tt) ;;
           sleep 1 ;;
           loop fuel') c
  end.

Definition _capture_loop (fuel : nat) : M St LoopExit := loop fuel.

End Methods.
End ArducamColorForceController.

(** A frame of [h] rows and [w] columns filled with one BGR pixel. *)
Definition filled (h w : nat) (p : Pixel) : ndarray :=
  mkArray [Z.of_nat h; Z.of_nat w; 3]
          (concat (repeat [px_b p; px_g p; px_r p] (h * w))).

(** ** Notions used to state what the rest of the code does *)

(** What one strategy of [connect] in [robust_arducam.py] leaves
    behind: connected, with one frame read, the handle kept and the
    focus configured; or not, with the handle released if it was
    opened, no frame read and the focus untouched. *)
Definition attempted {St} (connected : bool) (c : Controller St)
    (ev : list Event) : Prop :=
  cap c = true /\ opens ev = 1%nat
  /\ if connected
     then releases ev = 0%nat /\ successful_opens ev = 1%nat
          /\ (exists f, frames_of (reads ev) = [f])
          /\ exists pre,
               writes ev
               = pre ++ [(CAP_PROP_AUTOFOCUS, 0); (CAP_PROP_FOCUS, 100)]
     else releases ev = successful_opens ev
          /\ frames_of (reads ev) = []
          /\ forall v, ~ In (CAP_PROP_AUTOFOCUS, v) (writes ev)
                       /\ ~ In (CAP_PROP_FOCUS, v) (writes ev).

(** The same after up to [n] strategies. *)
Definition negotiated {St} (n : nat) (connected : bool) (c : Controller St)
    (ev : list Event) : Prop :=
  cap c = true
  /\ if connected
     then (1 <= opens ev <= n)%nat
          /\ successful_opens ev = S (releases ev)
          /\ (exists f, frames_of (reads ev) = [f])
          /\ exists pre,
               writes ev
               = pre ++ [(CAP_PROP_AUTOFOCUS, 0); (CAP_PROP_FOCUS, 100)]
     else opens ev = n
          /\ releases ev = successful_opens ev
          /\ frames_of (reads ev) = []
          /\ forall v, ~ In (CAP_PROP_AUTOFOCUS, v) (writes ev)
                       /\ ~ In (CAP_PROP_FOCUS, v) (writes ev).

(** A write that [main] may cause: autofocus off, or a focus value
    within the range of the control. *)
Definition safe_write (w : CapProp * Z) : Prop :=
  w = (CAP_PROP_AUTOFOCUS, 0)
  \/ (fst w = CAP_PROP_FOCUS /\ 0 <= snd w <= 255).

(** The streak of reads without a frame, one read later. *)
Definition streak_step (k : nat) (r : ReadResult) : nat :=
  match r with ReadFrame _ => O | _ => S k end.

(** The events of [n] passes over a closed device. *)
Fixpoint polling (n : nat) : list Event :=
  match n with
  | O => []
  | S n' => EvIsOpened false :: EvSleep 1 :: polling n'
  end.

Definition no_focus_write (ev : list Event) : Prop :=
  forall v, ~ In (CAP_PROP_FOCUS, v) (writes ev).

(** What [connect] of [arducam_color_force.py] has done after trying
    [n] pairs. *)
Definition forced {St} (n : nat) (connected : bool) (c : Controller St)
    (ev : list Event) : Prop :=
  no_focus_write ev
  /\ if connected
     then (1 <= opens ev <= n)%nat
          /\ successful_opens ev = S (releases ev)
          /\ exists pre, writes ev = pre ++ [(CAP_PROP_AUTOFOCUS, 1)]
     else opens ev = n /\ releases ev = successful_opens ev.

Definition force_raised {St} (c : Controller St) (ev : list Event) : Prop :=
  no_focus_write ev /\ successful_opens ev = S (releases ev).

(** The difference computed for the minuend [a] and the subtrahend [s]
    exceeds [T]: either [a] is larger by more than [T], or [s] is
    larger by less than [256 - T]. *)
Definition difference_counts (T a s : Z) : Prop :=
  a - s > T \/ 0 < s - a < 256 - T.

(** Channels that differ by at most 4 at every pixel. *)
Definition nearly_gray (p : Pixel) : Prop :=
  Z.abs (px_b p - px_g p) <= 4
  /\ Z.abs (px_b p - px_r p) <= 4
  /\ Z.abs (px_g p - px_r p) <= 4.

(** The writes of one pass over a strategy, when it runs to the end. *)
Definition strategy_writes (s : Strategy) : list (CapProp * Z) :=
  [ (CAP_PROP_FOURCC, fourcc s); (CAP_PROP_FRAME_WIDTH, width s);
    (CAP_PROP_FRAME_HEIGHT, height s); (CAP_PROP_FPS, 30);
    (CAP_PROP_BUFFERSIZE, 1);
    (CAP_PROP_AUTOFOCUS, 0); (CAP_PROP_FOCUS, 100) ].


(** ** true_color_test.py: the whole test *)

(** The frames of a list of reads that the test counts as true
    colour. *)
Definition true_color_frames (rs : list ReadResult) : Z :=
  Z.of_nat (length (filter
    (fun r => match r with
              | ReadFrame f => TrueColorTest.frame_is_true_color f
              | _ => false
              end) rs)).

Module TrueColorTestRun.

(** Lines 15-20. *)
Definition formats : list (string * Z) :=
  [ ("MJPEG"%string, VideoWriter_fourcc "M" "J" "P" "G");
    ("YUY2"%string, VideoWriter_fourcc "Y" "U" "Y" "2");
    ("YUYV"%string, VideoWriter_fourcc "Y" "U" "Y" "V");
    ("UYVY"%string, VideoWriter_fourcc "U" "Y" "V" "Y") ].

Section Methods.

Context {St : Type} (drv : Driver St).

(** [cap = cv2.VideoCapture(1, cv2.CAP_MSMF)], line 25. *)
Definition open_camera : M St unit :=
  fun c =>
    mkOutcome (Ok tt)
              (with_cap (with_dev c (drv_open drv 1 CAP_MSMF (dev c))) true)
              [EvOpen 1 CAP_MSMF].

(** The loop [for i in range(n)], lines 47-97, from the counts
    [total_frames] and [true_color_frames]; [keys] are the answers of
    the successive calls of [cv2.waitKey] (-1, no key, once they are
    used up), and a [q] ends the loop.  The result is the two counts
    and the keys left. *)
Fixpoint read_frames (n : nat) (keys : list Z) (total_frames tcf : Z)
    : M St (Z * Z * list Z) :=
  match n with
  | O => ret (total_frames, tcf, keys)
  | S n' =>
      frame <- cap_read drv ;;
      match frame with
      | Some f =>
          let total_frames := total_frames + 1 in
          let tcf :=
            if TrueColorTest.frame_is_true_color f then tcf + 1 else tcf in
          if Z.land (List.hd (-1) keys) 255 =? ord "q"
          then ret (total_frames, tcf, List.tl keys)
          else read_frames n' (List.tl keys) total_frames tcf
      | None =>
          sleep 100 ;;
          read_frames n' keys total_frames tcf
      end
  end.

(** The body of the loop over [formats], lines 23-112: true when the
    test returns [True].  [color_ratio >= 0.7] compares the quotient of
    two counts of at most 30 with 0.7; both are the doubles nearest to
    the exact values, so the test holds exactly when
    [7 * total_frames <= 10 * true_color_frames]. *)
Definition test_format (fourcc : Z) (keys : list Z)
    : M St (bool * list Z) :=
  open_camera ;;
  opened <- isOpened drv ;;
  if negb opened then ret (false, keys)
  else
    cap_set drv CAP_PROP_FOURCC fourcc ;;
    sleep 500 ;;
    cap_set drv CAP_PROP_FRAME_WIDTH 1280 ;;
    cap_set drv CAP_PROP_FRAME_HEIGHT 720 ;;
    cap_set drv CAP_PROP_FPS 30 ;;
    sleep 2000 ;;
    counts <- read_frames 30 keys 0 0 ;;
    cap_release drv ;;
    if 0 <? fst (fst counts) then
      if 7 * fst (fst counts) <=? 10 * snd (fst counts)
      then ret (true, snd counts)
      else ret (false, snd counts)
    else ret (false, snd counts).

(** [test_true_color] over a list of formats. *)
Fixpoint test_with (l : list (string * Z)) (keys : list Z) : M St bool :=
  match l with
  | [] => ret false
  | (_, fourcc) :: rest =>
      r <- test_format fourcc keys ;;
      if fst r then ret true else test_with rest (snd r)
  end.

Definition test_true_color (keys : list Z) : M St bool :=
  test_with formats keys.

End Methods.
End TrueColorTestRun.

(** What [read_frames] adds to the counts: the frames read and the
    true-colour frames among them, in at most [n] reads, with no
    other call to the device than [read]. *)
Definition frames_counted {St} (n : nat) (total_frames tcf : Z)
    (counts : Z * Z * list Z) (c : Controller St) (ev : list Event) : Prop :=
  cap c = true
  /\ opens ev = 0%nat /\ successful_opens ev = 0%nat /\ releases ev = 0%nat
  /\ (length (reads ev) <= n)%nat
  /\ fst (fst counts) = total_frames + Spec.successfully_read (reads ev)
  /\ snd (fst counts) = tcf + true_color_frames (reads ev).

Definition frames_raised {St} (c : Controller St) (ev : list Event) : Prop :=
  cap c = true
  /\ opens ev = 0%nat /\ successful_opens ev = 0%nat /\ releases ev = 0%nat.

(** The outcome of the test of one format. *)
Definition format_tested {St} (r : bool * list Z) (c : Controller St)
    (ev : list Event) : Prop :=
  opens ev = 1%nat
  /\ releases ev = successful_opens ev
  /\ (length (reads ev) <= 30)%nat
  /\ fst r = (0 <? Spec.successfully_read (reads ev))
             && (7 * Spec.successfully_read (reads ev)
                 <=? 10 * true_color_frames (reads ev)).

(** A connected controller that holds a frame, over a device whose
    reads give nothing more. *)
Definition sim_showing (f : ndarray) : Controller Sim :=
  mkController 1 true (mkSim true O 255 1 0 (0, 0) []) true (Some f)
               EmptyString.

(** * Properties *)

(** ** The model at work *)

Example wrapped_subtraction : u8_sub 0 255 = 1 /\ u8_sub 255 0 = 255.
Proof. split; reflexivity. Qed.

Example wrapped_sum : TrueColorTest.pixel_sum (mkPixel 255 255 250) = 248.
Proof. reflexivity. Qed.

Example fourcc_codes :
  NativeColorArducam.MJPG = 1196444237 /\ NativeColorArducam.YUY2 = 844715353.
Proof. split; reflexivity. Qed.

Example range_step_quarters :
  ArducamColorForce.range_step 4 12 2 = [4; 6; 8; 10]
  /\ ArducamColorForce.range_step 60 180 30 = [60; 90; 120; 150].
Proof. split; reflexivity. Qed.

Example red_and_gray_frames :
  NativeColorClassifier._has_true_color red_frame = true
  /\ NativeColorClassifier._has_true_color gray_frame = false
  /\ TrueColorTest.frame_is_true_color red_frame = true
  /\ TrueColorClassifier.connect_verdict red_frame = TrueColor
  /\ TrueColorClassifier.connect_verdict gray_frame
     = GrayscaleDisguisedAsColor
  /\ TrueColorClassifier.connect_verdict (mono 128) = Grayscale.
Proof. repeat split; reflexivity. Qed.

(** [_check_color] raises on a frame less than 8 pixels high, and
    counts the grid points of a larger one. *)
Example check_color_on_small_and_large_frames :
  ArducamColorForce._check_color red_frame = None
  /\ ArducamColorForce._check_color
       (mkArray [16; 16; 3]
                (concat (repeat [0; 0; 200] (16 * 16)%nat))) = Some true.
Proof. split; reflexivity. Qed.

(** ** Arithmetic on components *)

Lemma u8_sub_exact (a b : Z) : u8 a -> u8 b -> b <= a -> u8_sub a b = a - b.
Proof.
  unfold u8, u8_sub. intros Ha Hb Hle.
  apply Z.mod_small. lia.
Qed.

Lemma u8_sub_wraps (a b : Z) :
  u8 a -> u8 b -> a < b -> u8_sub a b = 256 - (b - a).
Proof.
  unfold u8, u8_sub. intros Ha Hb Hlt.
  replace (a - b) with (256 - (b - a) + (-1) * 256) by lia.
  rewrite Z.mod_add by lia.
  apply Z.mod_small. lia.
Qed.

Lemma u8_sub_diag (a : Z) : u8_sub a a = 0.
Proof. unfold u8_sub. now rewrite Z.sub_diag. Qed.

Lemma u8_add_exact (a b : Z) : 0 <= a + b < 256 -> u8_add a b = a + b.
Proof. unfold u8_add. intros H. now apply Z.mod_small. Qed.

(** The subtraction the code performs for a channel pair comes out
    below a threshold [T] as soon as the subtrahend exceeds the minuend
    by more than [256 - T]. *)
Lemma u8_sub_wraps_below (a b T : Z) :
  u8 a -> u8 b -> T <= 256 -> b - a > 256 - T ->
  u8_abs (u8_sub a b) = 256 - (b - a) /\ u8_abs (u8_sub a b) < T.
Proof.
  intros Ha Hb HT Hgap. unfold u8_abs.
  assert (Hlt : a < b) by (unfold u8 in *; lia).
  rewrite (u8_sub_wraps a b Ha Hb Hlt). lia.
Qed.

Lemma any_diff_gt_max (T : Z) (p : Pixel) :
  any_diff_gt T p = (T <? TrueColorTest.max_diff p).
Proof.
  unfold any_diff_gt, TrueColorTest.max_diff.
  destruct (T <? diff_rg p) eqn:E1, (T <? diff_rb p) eqn:E2,
           (T <? diff_gb p) eqn:E3; simpl; symmetry;
    rewrite ?Z.ltb_lt, ?Z.ltb_ge in *; lia.
Qed.

Lemma diffs_exact (p : Pixel) :
  u8_pixel p -> px_b p <= px_g p -> px_g p <= px_r p ->
  TrueColorTest.max_diff p = Spec.max_abs_diff p.
Proof.
  intros (Hb & Hg & Hr) Hbg Hgr.
  unfold TrueColorTest.max_diff, Spec.max_abs_diff, diff_rg, diff_rb, diff_gb,
    u8_abs.
  rewrite !u8_sub_exact by (assumption || lia).
  rewrite !Z.abs_eq by lia. reflexivity.
Qed.

(** A pixel whose components add up to at most 50 is never a colour
    point of the test: such a sum does not wrap. *)
Lemma near_black_is_not_color_point (p : Pixel) :
  u8_pixel p -> Spec.component_sum p <= 50 ->
  TrueColorTest.is_color_point p = false.
Proof.
  intros (Hb & Hg & Hr) Hsum. unfold Spec.component_sum, u8 in *.
  unfold TrueColorTest.is_color_point, TrueColorTest.pixel_sum.
  rewrite (u8_add_exact (px_r p) (px_g p)) by lia.
  rewrite u8_add_exact by lia.
  replace (50 <? px_r p + px_g p + px_b p) with false
    by (symmetry; apply Z.ltb_ge; lia).
  now rewrite andb_false_r.
Qed.

(** ** C4: the per-pixel rule *)

(** C4, as the code has it.  Where the 8-bit arithmetic does not wrap
    (components ordered [b <= g <= r]; for the sum, a total of at most
    255), the test of [test_true_color] counts a pixel exactly when the
    largest pairwise absolute difference exceeds 25 and the component sum
    lies strictly between 50 and 650; [_has_true_color] and
    [_check_color] count it exactly when that difference exceeds 10,
    resp. 20, whatever the sum. *)
Theorem colorful_rule_without_wrap (p : Pixel) :
  u8_pixel p -> px_b p <= px_g p -> px_g p <= px_r p ->
  (Spec.component_sum p <= 255 ->
   TrueColorTest.is_color_point p = Spec.colorful 25 50 650 p)
  /\ NativeColorClassifier.pixel_has_color p = (10 <? Spec.max_abs_diff p)
  /\ ArducamColorForce.pixel_has_color p = (20 <? Spec.max_abs_diff p).
Proof.
  intros Hp Hbg Hgr.
  pose proof (diffs_exact p Hp Hbg Hgr) as Hmax.
  destruct Hp as (Hb & Hg & Hr).
  repeat split.
  - intros Hsum. unfold Spec.component_sum, u8 in *.
    unfold TrueColorTest.is_color_point, Spec.colorful,
      TrueColorTest.pixel_sum, Spec.component_sum.
    rewrite Hmax.
    rewrite (u8_add_exact (px_r p) (px_g p)) by lia.
    rewrite u8_add_exact by lia. reflexivity.
  - unfold NativeColorClassifier.pixel_has_color.
    now rewrite any_diff_gt_max, Hmax.
  - unfold ArducamColorForce.pixel_has_color.
    now rewrite any_diff_gt_max, Hmax.
Qed.

Lemma colorful_rule_without_wrap_witness :
  let p := mkPixel 10 40 120 in
  TrueColorTest.is_color_point p = Spec.colorful 25 50 650 p
  /\ NativeColorClassifier.pixel_has_color p = (10 <? Spec.max_abs_diff p)
  /\ ArducamColorForce.pixel_has_color p = (20 <? Spec.max_abs_diff p).
Proof.
  destruct (colorful_rule_without_wrap (mkPixel 10 40 120))
    as (Hsum & Hnative & Hforce).
  - unfold u8_pixel, u8; simpl; lia.
  - simpl; lia.
  - simpl; lia.
  - assert (H255 : Spec.component_sum (mkPixel 10 40 120) <= 255)
      by (vm_compute; discriminate).
    exact (conj (Hsum H255) (conj Hnative Hforce)).
Defined.

(** C4 as stated fails.  By design: [_has_true_color] and [_check_color]
    count the near-black pixel (r, g, b) = (30, 0, 0), whose components
    add up to 30.  Through the wrap-around: the test of
    [test_true_color] counts the near-white pixel (250, 255, 255), whose
    components add up to 760. *)
Lemma colorful_rule_counterexample :
  NativeColorClassifier.pixel_has_color (mkPixel 0 0 30) = true
  /\ ArducamColorForce.pixel_has_color (mkPixel 0 0 30) = true
  /\ Spec.colorful 10 50 650 (mkPixel 0 0 30) = false
  /\ Spec.colorful 20 50 650 (mkPixel 0 0 30) = false
  /\ TrueColorTest.is_color_point (mkPixel 255 255 250) = true
  /\ Spec.colorful 25 50 650 (mkPixel 255 255 250) = false.
Proof. repeat split; reflexivity. Qed.

(** ** C9: differences modulo 256 *)

(** C9, as the code has it.  Each difference is computed as
    [(a - s) mod 256] for the pairs (r, g), (r, b), (g, b).  When, for
    every pair, the two channels are equal or the subtracted one is
    larger by more than [256 - T], all three computed differences are
    below [T] and the pixel is not counted, by any of the three
    classifiers. *)
Theorem wrapped_differences_hide_color (p : Pixel) (T : Z) :
  u8_pixel p -> 0 < T <= 256 ->
  (px_r p = px_g p \/ px_g p - px_r p > 256 - T) ->
  (px_r p = px_b p \/ px_b p - px_r p > 256 - T) ->
  (px_g p = px_b p \/ px_b p - px_g p > 256 - T) ->
  diff_rg p < T /\ diff_rb p < T /\ diff_gb p < T
  /\ any_diff_gt T p = false
  /\ (T <= 25 -> TrueColorTest.is_color_point p = false).
Proof.
  intros (Hb & Hg & Hr) HT Hrg Hrb Hgb.
  assert (D1 : diff_rg p < T).
  { unfold diff_rg. destruct Hrg as [E | G].
    - rewrite E, u8_sub_diag. apply HT.
    - apply u8_sub_wraps_below; solve [assumption | apply HT]. }
  assert (D2 : diff_rb p < T).
  { unfold diff_rb. destruct Hrb as [E | G].
    - rewrite E, u8_sub_diag. apply HT.
    - apply u8_sub_wraps_below; solve [assumption | apply HT]. }
  assert (D3 : diff_gb p < T).
  { unfold diff_gb. destruct Hgb as [E | G].
    - rewrite E, u8_sub_diag. apply HT.
    - apply u8_sub_wraps_below; solve [assumption | apply HT]. }
  assert (A : forall T', T <= T' -> any_diff_gt T' p = false).
  { intros T' HT'. unfold any_diff_gt.
    rewrite !orb_false_iff, !Z.ltb_ge. lia. }
  repeat split; try assumption.
  - apply A; lia.
  - intros H25. unfold TrueColorTest.is_color_point.
    rewrite <- any_diff_gt_max, (A 25 H25). reflexivity.
Qed.

Lemma wrapped_differences_hide_color_witness :
  let p := mkPixel 255 0 0 in
  diff_rg p < 10 /\ diff_rb p < 10 /\ diff_gb p < 10
  /\ any_diff_gt 10 p = false
  /\ TrueColorTest.is_color_point p = false.
Proof.
  destruct (wrapped_differences_hide_color (mkPixel 255 0 0) 10)
    as (Hrg & Hrb & Hgb & Hany & Hpoint).
  - unfold u8_pixel, u8; simpl; lia.
  - lia.
  - left; reflexivity.
  - right; simpl; lia.
  - right; simpl; lia.
  - assert (H25 : 10 <= 25) by (vm_compute; discriminate).
    exact (conj Hrg (conj Hrb (conj Hgb (conj Hany (Hpoint H25))))).
Defined.

(** C9 as stated fails on saturated red, (r, g, b) = (255, 0, 0): red
    and green differ by 255, more than 256 minus any of the thresholds,
    yet the difference is computed as 255 and every classifier counts
    the pixel. *)
Lemma saturated_red_is_counted :
  Z.abs (px_r (mkPixel 0 0 255) - px_g (mkPixel 0 0 255)) > 256 - 10
  /\ diff_rg (mkPixel 0 0 255) = 255
  /\ NativeColorClassifier.pixel_has_color (mkPixel 0 0 255) = true
  /\ ArducamColorForce.pixel_has_color (mkPixel 0 0 255) = true
  /\ TrueColorTest.is_color_point (mkPixel 0 0 255) = true.
Proof. repeat split; reflexivity. Qed.

(** ** C7 and C8: blank frames and single-channel frames *)

Lemma gray_pixel_not_counted (T : Z) (p : Pixel) :
  gray_pixel p -> 0 <= T -> any_diff_gt T p = false.
Proof.
  intros (Ebg & Egr) HT.
  unfold any_diff_gt, diff_rg, diff_rb, diff_gb, u8_abs.
  rewrite <- Egr, Ebg, !u8_sub_diag.
  replace (T <? 0) with false by (symmetry; apply Z.ltb_ge; exact HT).
  reflexivity.
Qed.

Lemma gray_pixel_not_color_point (p : Pixel) :
  gray_pixel p -> TrueColorTest.is_color_point p = false.
Proof.
  intros Hg. unfold TrueColorTest.is_color_point.
  rewrite <- any_diff_gt_max, gray_pixel_not_counted by (assumption || lia).
  reflexivity.
Qed.

Lemma count_points_none (test : Pixel -> bool) (f : ndarray) (w h : Z)
    (pts : list (Z * Z)) :
  (forall x y, in_bounds w h x y = true -> test (getpixel f y x) = false) ->
  count_points test f w h pts = 0.
Proof.
  intros Hnone. unfold count_points.
  induction pts as [| [x y] pts IH]; simpl.
  - reflexivity.
  - destruct (in_bounds w h x y) eqn:Hin; simpl.
    + rewrite (Hnone x y Hin). exact IH.
    + exact IH.
Qed.

Lemma is_bgr_shape (f : ndarray) :
  is_bgr f = true ->
  shape f = [dim f 0; dim f 1; 3].
Proof.
  unfold is_bgr, dim. intros H.
  apply andb_true_iff in H. destruct H as [Hlen H3].
  apply Nat.eqb_eq in Hlen. apply Z.eqb_eq in H3.
  destruct (shape f) as [| a [| b [| c [| d l]]]]; simpl in *;
    try discriminate.
  now subst c.
Qed.

(** In a frame whose buffer holds one value throughout, every pixel
    inside the frame has three equal components. *)
Lemma uniform_getpixel (f : ndarray) (v x y : Z) :
  is_bgr f = true -> wf_frame f -> Forall (eq v) (data f) ->
  in_bounds (dim f 1) (dim f 0) x y = true ->
  getpixel f y x = mkPixel v v v.
Proof.
  intros Hbgr [Hlen _] Hall Hin.
  rewrite (is_bgr_shape f Hbgr) in Hlen. simpl in Hlen.
  unfold in_bounds in Hin.
  rewrite !andb_true_iff, !Z.leb_le, !Z.ltb_lt in Hin.
  destruct Hin as [[[Hx0 Hxw] Hy0] Hyh].
  assert (Hbase : 0 <= (y * dim f 1 + x) * 3
                  /\ (y * dim f 1 + x) * 3 + 2 < Z.of_nat (length (data f))).
  { rewrite Hlen. nia. }
  assert (Hnth : forall i, 0 <= i < Z.of_nat (length (data f)) -> at_ f i = v).
  { intros i Hi. unfold at_.
    rewrite Forall_forall in Hall. symmetry. apply Hall.
    apply nth_In. lia. }
  unfold getpixel.
  rewrite !Hnth by lia. reflexivity.
Qed.

Lemma uniform_count_points (test : Pixel -> bool) (f : ndarray) (v : Z)
    (pts : list (Z * Z)) :
  is_bgr f = true -> wf_frame f -> Forall (eq v) (data f) ->
  test (mkPixel v v v) = false ->
  count_points test f (dim f 1) (dim f 0) pts = 0.
Proof.
  intros Hbgr Hwf Hall Htest.
  apply count_points_none. intros x y Hin.
  now rewrite (uniform_getpixel f v x y Hbgr Hwf Hall Hin).
Qed.

Lemma pixels_uniform (v : Z) (d : list Z) :
  Forall (eq v) d -> Forall gray_pixel (pixels d).
Proof.
  assert (H : forall n d, (length d <= n)%nat ->
                          Forall (eq v) d -> Forall gray_pixel (pixels d)).
  { induction n as [| n IH]; intros l Hlen Hall.
    - destruct l; [constructor | simpl in Hlen; lia].
    - destruct l as [| b [| g [| r rest]]]; simpl; try constructor.
      + inversion Hall as [| ? ? Hb Hall1]; subst.
        inversion Hall1 as [| ? ? Hg Hall2]; subst.
        inversion Hall2 as [| ? ? Hr Hall3]; subst.
        split; reflexivity.
      + apply IH.
        * simpl in Hlen. lia.
        * inversion Hall as [| ? ? _ Hall1]; subst.
          inversion Hall1 as [| ? ? _ Hall2]; subst.
          now inversion Hall2. }
  intros Hall. now apply (H (length d) d).
Qed.

Lemma sum_abs_diff_gray (sel1 sel2 : Pixel -> Z) (ps : list Pixel) :
  (forall p, gray_pixel p -> sel1 p = sel2 p) ->
  Forall gray_pixel ps ->
  TrueColorClassifier.sum_abs_diff sel1 sel2 ps = 0.
Proof.
  intros Hsel Hall. induction Hall as [| p ps Hp _ IH]; simpl.
  - reflexivity.
  - rewrite IH, (Hsel p Hp), Z.sub_diag. reflexivity.
Qed.

Lemma pixels_nonempty (d : list Z) :
  (3 <= length d)%nat -> (0 < length (pixels d))%nat.
Proof.
  destruct d as [| b [| g [| r rest]]]; simpl; lia.
Qed.

Lemma uniform_is_disguised (f : ndarray) (v : Z) :
  is_bgr f = true -> wf_frame f -> Forall (eq v) (data f) ->
  1 <= dim f 0 -> 1 <= dim f 1 ->
  TrueColorClassifier._is_grayscale_disguised_as_color f = true.
Proof.
  intros Hbgr [Hlen Hu8] Hall Hh Hw.
  unfold TrueColorClassifier._is_grayscale_disguised_as_color.
  rewrite Hbgr. simpl.
  pose proof (pixels_uniform v (data f) Hall) as Hgray.
  assert (Hn : (0 < length (pixels (data f)))%nat).
  { apply pixels_nonempty.
    rewrite (is_bgr_shape f Hbgr) in Hlen. simpl in Hlen. nia. }
  unfold TrueColorClassifier.mean_below_threshold.
  rewrite !sum_abs_diff_gray; try assumption.
  - replace (0 <? Z.of_nat (length (pixels (data f)))) with true
      by (symmetry; apply Z.ltb_lt; lia).
    replace (0 <? 5 * Z.of_nat (length (pixels (data f)))) with true
      by (symmetry; apply Z.ltb_lt; lia).
    reflexivity.
  - intros p (Ebg & Egr). exact Egr.
  - intros p (Ebg & Egr). congruence.
  - intros p (Ebg & Egr). exact Ebg.
Qed.

(** C7: an all-black or all-white frame, with one channel or three and
    at least one row and one column, is never classified as true colour:
    not by the frame test of [test_true_color], not by
    [_has_true_color], not by [_check_color], and not by the three-way
    decision of [true_color_arducam.py]. *)
Theorem blank_frame_never_true_color (f : ndarray) (v : Z) :
  wf_frame f -> v = 0 \/ v = 255 -> Forall (eq v) (data f) ->
  1 <= dim f 0 -> 1 <= dim f 1 ->
  TrueColorTest.frame_is_true_color f = false
  /\ NativeColorClassifier._has_true_color f = false
  /\ ArducamColorForce._check_color f <> Some true
  /\ TrueColorClassifier.connect_verdict f <> TrueColor.
Proof.
  intros Hwf Hv Hall Hh Hw.
  assert (Hgray : gray_pixel (mkPixel v v v)) by (split; reflexivity).
  destruct (is_bgr f) eqn:Hbgr.
  - repeat split.
    + unfold TrueColorTest.frame_is_true_color, TrueColorTest.color_points.
      rewrite Hbgr.
      rewrite (uniform_count_points _ f v) by
        (first [assumption | now apply gray_pixel_not_color_point]).
      reflexivity.
    + unfold NativeColorClassifier._has_true_color,
        NativeColorClassifier._has_true_color_reads.
      rewrite Hbgr. simpl.
      rewrite (uniform_count_points _ f v) by
        (first [assumption | apply gray_pixel_not_counted; [assumption | lia]]).
      reflexivity.
    + unfold ArducamColorForce._check_color. rewrite Hbgr. simpl.
      destruct ((dim f 0 / 8 =? 0) || (dim f 1 / 8 =? 0)).
      * discriminate.
      * rewrite (uniform_count_points _ f v) by
          (first [assumption | apply gray_pixel_not_counted; [assumption | lia]]).
        discriminate.
    + unfold TrueColorClassifier.connect_verdict.
      rewrite (uniform_is_disguised f v) by assumption.
      discriminate.
  - repeat split.
    + unfold TrueColorTest.frame_is_true_color. now rewrite Hbgr.
    + unfold NativeColorClassifier._has_true_color,
        NativeColorClassifier._has_true_color_reads. now rewrite Hbgr.
    + unfold ArducamColorForce._check_color. rewrite Hbgr. discriminate.
    + unfold TrueColorClassifier.connect_verdict,
        TrueColorClassifier._is_grayscale_disguised_as_color.
      rewrite Hbgr. discriminate.
Qed.

Lemma blank_frame_never_true_color_witness :
  TrueColorTest.frame_is_true_color (solid 255 255 255) = false
  /\ NativeColorClassifier._has_true_color (solid 255 255 255) = false
  /\ ArducamColorForce._check_color (solid 255 255 255) <> Some true
  /\ TrueColorClassifier.connect_verdict (solid 255 255 255) <> TrueColor.
Proof.
  apply (blank_frame_never_true_color (solid 255 255 255) 255).
  - split; [reflexivity | repeat constructor; unfold u8; lia].
  - right; reflexivity.
  - repeat constructor.
  - vm_compute; discriminate.
  - vm_compute; discriminate.
Defined.

(** C8: a frame with one channel, of shape [(h, w)] or [(h, w, 1)] and
    any content, gets the Grayscale verdict: [_has_true_color] answers
    false having read no pixel, [_is_grayscale_disguised_as_color]
    answers false, the three-way decision is Grayscale, and the other
    two classifiers do not count it as colour. *)
Theorem single_channel_is_grayscale (f : ndarray) :
  length (shape f) = 2%nat \/ dim f 2 = 1 ->
  NativeColorClassifier._has_true_color_reads f = (false, [])
  /\ TrueColorClassifier._is_grayscale_disguised_as_color f = false
  /\ TrueColorClassifier.connect_verdict f = Grayscale
  /\ TrueColorTest.frame_is_true_color f = false
  /\ ArducamColorForce._check_color f = Some false.
Proof.
  intros Hone.
  assert (Hbgr : is_bgr f = false).
  { unfold is_bgr. destruct Hone as [H2 | H1].
    - rewrite H2. reflexivity.
    - rewrite H1. apply andb_false_r. }
  unfold NativeColorClassifier._has_true_color_reads,
    TrueColorClassifier.connect_verdict,
    TrueColorClassifier._is_grayscale_disguised_as_color,
    TrueColorTest.frame_is_true_color, ArducamColorForce._check_color.
  rewrite Hbgr. simpl. repeat split; reflexivity.
Qed.

Lemma single_channel_is_grayscale_witness :
  NativeColorClassifier._has_true_color_reads (mono 77) = (false, [])
  /\ TrueColorClassifier._is_grayscale_disguised_as_color (mono 77) = false
  /\ TrueColorClassifier.connect_verdict (mono 77) = Grayscale
  /\ TrueColorTest.frame_is_true_color (mono 77) = false
  /\ ArducamColorForce._check_color (mono 77) = Some false.
Proof.
  apply (single_channel_is_grayscale (mono 77)).
  left; reflexivity.
Defined.

(** ** Events and outcomes *)

Lemma reads_app (a b : list Event) : reads (a ++ b) = reads a ++ reads b.
Proof. apply flat_map_app. Qed.
Lemma releases_app (a b : list Event) :
  releases (a ++ b) = (releases a + releases b)%nat.
Proof. unfold releases. now rewrite filter_app, length_app. Qed.

Lemma opens_app (a b : list Event) :
  opens (a ++ b) = (opens a + opens b)%nat.
Proof. unfold opens. now rewrite filter_app, length_app. Qed.

Lemma successful_opens_app (a b : list Event) :
  successful_opens (a ++ b) = (successful_opens a + successful_opens b)%nat.
Proof. unfold successful_opens. now rewrite filter_app, length_app. Qed.

Lemma reads_map_EvRead (rs : list ReadResult) : reads (map EvRead rs) = rs.
Proof.
  induction rs as [| r rs IH]; simpl; [reflexivity | now rewrite IH].
Qed.

Lemma releases_map_EvRead (rs : list ReadResult) :
  releases (map EvRead rs) = 0%nat.
Proof. induction rs as [| r rs IH]; simpl; [reflexivity | exact IH]. Qed.

Lemma opens_map_EvRead (rs : list ReadResult) : opens (map EvRead rs) = 0%nat.
Proof. induction rs as [| r rs IH]; simpl; [reflexivity | exact IH]. Qed.

Lemma successful_opens_map_EvRead (rs : list ReadResult) :
  successful_opens (map EvRead rs) = 0%nat.
Proof. induction rs as [| r rs IH]; simpl; [reflexivity | exact IH]. Qed.

Lemma true_color_count_frame (f : ndarray) (rs : list ReadResult) :
  Spec.true_color_count (ReadFrame f :: rs)
  = (if NativeColorClassifier._has_true_color f then 1 else 0)
    + Spec.true_color_count rs.
Proof.
  unfold Spec.true_color_count. simpl.
  destruct (NativeColorClassifier._has_true_color f); simpl length; lia.
Qed.

Lemma true_color_count_le_read (rs : list ReadResult) :
  0 <= Spec.true_color_count rs <= Spec.successfully_read rs.
Proof.
  unfold Spec.true_color_count, Spec.successfully_read.
  induction rs as [| [f | |] rs IH]; simpl; try lia.
  destruct (NativeColorClassifier._has_true_color f); simpl length; lia.
Qed.

Lemma writes_app (a b : list Event) : writes (a ++ b) = writes a ++ writes b.
Proof. apply flat_map_app. Qed.

Lemma frames_of_app (a b : list ReadResult) :
  frames_of (a ++ b) = frames_of a ++ frames_of b.
Proof. apply flat_map_app. Qed.

Lemma latest_app (init : option ndarray) (a b : list ndarray) :
  latest init (a ++ b) = latest (latest init a) b.
Proof. apply fold_left_app. Qed.

Lemma latest_last (init : option ndarray) (fs : list ndarray) (f : ndarray) :
  latest init (fs ++ [f]) = Some f.
Proof. now rewrite latest_app. Qed.

Lemma bind_outcome {St A B} (m : M St A) (k : A -> M St B)
    (c : Controller St) :
  bind m k c
  = match result (m c) with
    | Ok a =>
        mkOutcome (result (k a (final (m c)))) (final (k a (final (m c))))
                  (events (m c) ++ events (k a (final (m c))))
    | Raised => mkOutcome Raised (final (m c)) (events (m c))
    end.
Proof.
  unfold bind. destruct (m c) as [[a |] c1 e1]; simpl.
  - now destruct (k a c1).
  - reflexivity.
Qed.

Lemma post_result {St A} (o : Outcome St A) Q R (a : A) :
  post o Q R -> result o = Ok a -> Q a (final o) (events o).
Proof. unfold post. intros H Hres. now rewrite Hres in H. Qed.

Section OutcomeLogic.

Context {St : Type} (drv : Driver St).
Context {A : Type}.
Variable Q : A -> Controller St -> list Event -> Prop.
Variable R : Controller St -> list Event -> Prop.

Lemma post_ret (a : A) (c : Controller St) :
  Q a c [] -> post (ret a c) Q R.
Proof. exact (fun H => H). Qed.

Lemma post_bind {B} (m : M St B) (k : B -> M St A) (c : Controller St) :
  post (m c)
       (fun b c1 e1 =>
          post (k b c1) (fun a c2 e2 => Q a c2 (e1 ++ e2))
               (fun c2 e2 => R c2 (e1 ++ e2)))
       R ->
  post (bind m k c) Q R.
Proof.
  unfold post, bind. destruct (m c) as [[b |] c1 e1]; simpl.
  - destruct (k b c1) as [[a |] c2 e2]; simpl; exact (fun H => H).
  - exact (fun H => H).
Qed.

Lemma post_try_except (m h : M St A) (c : Controller St) :
  post (m c) Q
       (fun c1 e1 =>
          post (h c1) (fun a c2 e2 => Q a c2 (e1 ++ e2))
               (fun c2 e2 => R c2 (e1 ++ e2))) ->
  post (try_except m h c) Q R.
Proof.
  unfold post, try_except. destruct (m c) as [[a |] c1 e1]; simpl.
  - exact (fun H => H).
  - destruct (h c1) as [[a |] c2 e2]; simpl; exact (fun H => H).
Qed.

Lemma post_conseq (o : Outcome St A)
    (Q' : A -> Controller St -> list Event -> Prop)
    (R' : Controller St -> list Event -> Prop) :
  post o Q' R' ->
  (forall a c e, Q' a c e -> Q a c e) ->
  (forall c e, R' c e -> R c e) ->
  post o Q R.
Proof.
  unfold post. destruct (result o); intros H HQ HR; auto.
Qed.

End OutcomeLogic.

Section DeviceCallRules.

Context {St : Type} (drv : Driver St).

Lemma post_sleep (ms : Z) (c : Controller St) Q R :
  Q tt c [EvSleep ms] -> post (sleep ms c) Q R.
Proof. exact (fun H => H). Qed.

Lemma post_VideoCapture (backend : Backend) (c : Controller St) Q R :
  Q tt (with_cap (with_dev c (drv_open drv (camera_id c) backend (dev c)))
                 true)
    [EvOpen (camera_id c) backend] ->
  post (VideoCapture drv backend c) Q R.
Proof. exact (fun H => H). Qed.

Lemma post_isOpened (c : Controller St) Q R :
  cap c = true ->
  Q (drv_isOpened drv (dev c)) c [EvIsOpened (drv_isOpened drv (dev c))] ->
  post (isOpened drv c) Q R.
Proof. unfold post, isOpened. intros ->. exact (fun H => H). Qed.

Lemma post_cap_set (p : CapProp) (v : Z) (c : Controller St) Q R :
  cap c = true ->
  (forall b d, drv_set drv p v (dev c) = (Some b, d) ->
               Q b (with_dev c d) [EvSet p v]) ->
  (forall d, drv_set drv p v (dev c) = (None, d) ->
             R (with_dev c d) [EvSet p v]) ->
  post (cap_set drv p v c) Q R.
Proof.
  unfold post, cap_set. intros -> HQ HR.
  destruct (drv_set drv p v (dev c)) as [[b |] d]; simpl; auto.
Qed.

Lemma post_cap_get (p : CapProp) (c : Controller St) Q R :
  cap c = true ->
  (forall v, drv_get drv p (dev c) = Some v -> Q v c [EvGet p]) ->
  (drv_get drv p (dev c) = None -> R c [EvGet p]) ->
  post (cap_get drv p c) Q R.
Proof.
  unfold post, cap_get. intros -> HQ HR.
  destruct (drv_get drv p (dev c)); simpl; auto.
Qed.

Lemma post_cap_read (c : Controller St) Q R :
  cap c = true ->
  (forall f d, drv_read drv (dev c) = (ReadFrame f, d) ->
               Q (Some f) (with_dev c d) [EvRead (ReadFrame f)]) ->
  (forall d, drv_read drv (dev c) = (ReadFailed, d) ->
             Q None (with_dev c d) [EvRead ReadFailed]) ->
  (forall d, drv_read drv (dev c) = (ReadRaised, d) ->
             R (with_dev c d) [EvRead ReadRaised]) ->
  post (cap_read drv c) Q R.
Proof.
  unfold post, cap_read. intros -> HQ1 HQ2 HR.
  destruct (drv_read drv (dev c)) as [[f | |] d]; simpl; auto.
Qed.

Lemma post_cap_release (c : Controller St) Q R :
  cap c = true ->
  Q tt (with_dev c (drv_release drv (dev c))) [EvRelease] ->
  post (cap_release drv c) Q R.
Proof. unfold post, cap_release. intros ->. exact (fun H => H). Qed.

End DeviceCallRules.

(** Generates the conditions of a method body, one device call at a
    time; [cap] stays true along the way. *)
Ltac cap_holds := solve [simpl; assumption | reflexivity].

Ltac method_step :=
  cbv beta;
  lazymatch goal with
  | |- post (bind _ _ _) _ _ => apply post_bind
  | |- post (ret _ _) _ _ => apply post_ret
  | |- post (try_except _ _ _) _ _ => apply post_try_except
  | |- post (sleep _ _) _ _ => apply post_sleep
  | |- post (VideoCapture _ _ _) _ _ => apply post_VideoCapture
  | |- post (isOpened _ _) _ _ => apply post_isOpened; [cap_holds |]
  | |- post (cap_set _ _ _ _) _ _ =>
      apply post_cap_set; [cap_holds | intros ? ? _ | intros ? _]
  | |- post (cap_get _ _ _) _ _ =>
      apply post_cap_get; [cap_holds | intros ? _ | intros _]
  | |- post (cap_release _ _) _ _ => apply post_cap_release; [cap_holds |]
  | |- post ((if ?b then _ else _) _) _ _ => destruct b eqn:?
  end.


(** ** C1 and C10: focus control *)

Ltac unfold_set_focus :=
  unfold RobustArducam.set_focus, ArducamController.set_focus,
    TrueColorArducam.set_focus, bind, try_except, cap_and_isOpened,
    isOpened, cap_set, cap_get, sleep, emit, ret.

Section FocusControl.

Context {St : Type} (drv : Driver St).

(** C1, as the code has it.  On an open device whose calls do not
    raise, [set_focus] turns autofocus off and writes the value; what
    it returns is the success flag the driver gave to the focus write,
    whatever the value read back, and the device is left in the state
    that write produced.  [robust_arducam.py] then always waits 100 ms
    and reads the focus property back; [arducam_controller.py] does so
    only when the write was reported successful. *)
Theorem set_focus_returns_write_flag
    (c : Controller St) (focus_value : Z) (af flag : bool) (d1 d2 : St)
    (actual_focus : Z) :
  cap c = true ->
  drv_isOpened drv (dev c) = true ->
  drv_set drv CAP_PROP_AUTOFOCUS 0 (dev c) = (Some af, d1) ->
  drv_set drv CAP_PROP_FOCUS focus_value d1 = (Some flag, d2) ->
  drv_get drv CAP_PROP_FOCUS d2 = Some actual_focus ->
  let o := RobustArducam.set_focus drv focus_value c in
  let o' := ArducamController.set_focus drv focus_value c in
  result o = Ok flag
  /\ events o = [EvIsOpened true; EvSet CAP_PROP_AUTOFOCUS 0;
                 EvSet CAP_PROP_FOCUS focus_value; EvSleep 100;
                 EvGet CAP_PROP_FOCUS]
  /\ dev (final o) = d2
  /\ result o' = Ok flag
  /\ events o' = [EvIsOpened true; EvSet CAP_PROP_AUTOFOCUS 0;
                  EvSet CAP_PROP_FOCUS focus_value]
                 ++ (if flag then [EvSleep 100; EvGet CAP_PROP_FOCUS]
                     else [])
  /\ dev (final o') = d2.
Proof.
  intros Hcap Hopen Haf Hfocus Hget.
  unfold_set_focus. simpl.
  rewrite Hcap, Hopen. simpl. rewrite Hcap, Haf. simpl.
  rewrite Hcap, Hfocus. simpl. rewrite Hcap, Hget. simpl.
  repeat split; try reflexivity.
  - destruct flag; simpl; [rewrite Hcap, Hget |]; reflexivity.
  - destruct flag; simpl; [rewrite Hcap, Hget |]; reflexivity.
  - destruct flag; simpl; [rewrite Hcap, Hget |]; reflexivity.
Qed.

(** C10: on an open device every [set_focus] first writes
    autofocus = 0, whatever the state of the session, and then, unless
    that call raised, the focus value; it writes nothing else. *)
Theorem set_focus_disables_autofocus_first
    (c : Controller St) (focus_value : Z) :
  cap c = true ->
  drv_isOpened drv (dev c) = true ->
  let expected :=
    focus_writes (fst (drv_set drv CAP_PROP_AUTOFOCUS 0 (dev c)))
                 focus_value in
  writes (events (RobustArducam.set_focus drv focus_value c)) = expected
  /\ writes (events (ArducamController.set_focus drv focus_value c))
     = expected
  /\ writes (events (TrueColorArducam.set_focus drv focus_value c))
     = expected.
Proof.
  intros Hcap Hopen.
  unfold_set_focus. simpl.
  rewrite Hcap, Hopen. simpl. rewrite Hcap.
  destruct (drv_set drv CAP_PROP_AUTOFOCUS 0 (dev c)) as [[af |] d1];
    simpl; [| repeat split; reflexivity].
  rewrite Hcap.
  destruct (drv_set drv CAP_PROP_FOCUS focus_value d1) as [[flag |] d2];
    simpl; [| repeat split; reflexivity].
  rewrite Hcap.
  destruct (drv_get drv CAP_PROP_FOCUS d2); simpl;
    repeat split; try reflexivity;
    destruct flag; simpl; rewrite ?Hcap; simpl;
    try destruct (drv_get drv CAP_PROP_FOCUS d2); reflexivity.
Qed.

End FocusControl.

Lemma set_focus_returns_write_flag_witness :
  let o := RobustArducam.set_focus sim 200 (sim_session 100 []) in
  let o' := ArducamController.set_focus sim 200 (sim_session 100 []) in
  let r := RobustArducam.set_focus refusing 200 (sim_session 100 []) in
  let r' := ArducamController.set_focus refusing 200 (sim_session 100 []) in
  (result o = Ok true
   /\ events o = [EvIsOpened true; EvSet CAP_PROP_AUTOFOCUS 0;
                  EvSet CAP_PROP_FOCUS 200; EvSleep 100;
                  EvGet CAP_PROP_FOCUS]
   /\ dev (final o) = mkSim true O 100 0 100 (0, 0) []
   /\ result o' = Ok true
   /\ events o' = [EvIsOpened true; EvSet CAP_PROP_AUTOFOCUS 0;
                   EvSet CAP_PROP_FOCUS 200; EvSleep 100;
                   EvGet CAP_PROP_FOCUS]
   /\ dev (final o') = mkSim true O 100 0 100 (0, 0) [])
  /\ (result r = Ok false
      /\ events r = [EvIsOpened true; EvSet CAP_PROP_AUTOFOCUS 0;
                     EvSet CAP_PROP_FOCUS 200; EvSleep 100;
                     EvGet CAP_PROP_FOCUS]
      /\ dev (final r) = mkSim true O 100 0 0 (0, 0) []
      /\ result r' = Ok false
      /\ events r' = [EvIsOpened true; EvSet CAP_PROP_AUTOFOCUS 0;
                      EvSet CAP_PROP_FOCUS 200]
      /\ dev (final r') = mkSim true O 100 0 0 (0, 0) []).
Proof.
  split.
  - apply (set_focus_returns_write_flag sim (sim_session 100 []) 200
             true true (mkSim true O 100 0 0 (0, 0) [])
             (mkSim true O 100 0 100 (0, 0) []) 100);
      reflexivity.
  - apply (set_focus_returns_write_flag refusing (sim_session 100 []) 200
             true false (mkSim true O 100 0 0 (0, 0) [])
             (mkSim true O 100 0 0 (0, 0) []) 0);
      reflexivity.
Defined.

(** C1 as stated fails on a device that clamps focus to 100 and reports
    success: asked for 200, [set_focus] answers true although the value
    read back, 100, does not match. *)
Lemma clamped_focus_reports_success :
  let o := RobustArducam.set_focus sim 200 (sim_session 100 []) in
  let o' := ArducamController.set_focus sim 200 (sim_session 100 []) in
  result o = Ok true
  /\ result o' = Ok true
  /\ drv_get sim CAP_PROP_FOCUS (dev (final o)) = Some 100
  /\ Spec.focus_matches 200 100 = false.
Proof. repeat split; reflexivity. Qed.

Lemma set_focus_disables_autofocus_first_witness :
  let expected := [(CAP_PROP_AUTOFOCUS, 0); (CAP_PROP_FOCUS, 150)] in
  writes (events (RobustArducam.set_focus sim 150 (sim_session 255 [])))
  = expected
  /\ writes (events (ArducamController.set_focus sim 150
                       (sim_session 255 []))) = expected
  /\ writes (events (TrueColorArducam.set_focus sim 150
                       (sim_session 255 []))) = expected.
Proof.
  apply (set_focus_disables_autofocus_first sim (sim_session 255 []) 150);
    reflexivity.
Defined.

(** ** C3 and C6: the capture loop and the frame buffer *)

Ltac unfold_attempt :=
  unfold RobustArducam.attempt, RobustArducam.iteration,
    RobustArducam.publish, try_except, bind, cap_and_isOpened, isOpened,
    cap_read, sleep, emit, ret.

Section CaptureLoop.

Context {St : Type} (drv : Driver St).

Lemma loop_unfold (fuel : nat) (cf : Z) (c : Controller St) :
  RobustArducam.loop drv (S fuel) cf c =
  if negb (is_running c) then ret Stopped c
  else (s <- RobustArducam.attempt drv cf ;;
        match s with
        | Continue n => RobustArducam.loop drv fuel n
        | Break e => ret e
        end) c.
Proof. reflexivity. Qed.

(** One pass never raises, never releases the device, and leaves in
    the buffer the frame it read, if it read one. *)
Lemma attempt_frame (cf : Z) (c : Controller St) :
  let o := RobustArducam.attempt drv cf c in
  result o <> Raised
  /\ releases (events o) = 0%nat
  /\ current_frame (final o)
     = latest (current_frame c) (frames_of (reads (events o)))
  /\ is_running (final o) = is_running c
  /\ cap (final o) = cap c.
Proof.
  unfold_attempt. simpl.
  destruct (cap c) eqn:Hcap; simpl.
  - destruct (drv_isOpened drv (dev c)); simpl.
    + rewrite Hcap.
      destruct (drv_read drv (dev c)) as [[f | |] d]; simpl.
      * repeat split; try reflexivity; try discriminate. assumption.
      * destruct (RobustArducam.max_failures <=? cf + 1); simpl;
          repeat split; try reflexivity; try discriminate; assumption.
      * repeat split; try reflexivity; try discriminate. assumption.
    + repeat split; try reflexivity; try discriminate. assumption.
  - repeat split; try reflexivity; try discriminate. assumption.
Qed.

Lemma loop_invariant (fuel : nat) :
  forall (cf : Z) (c : Controller St),
    let o := RobustArducam.loop drv fuel cf c in
    result o <> Raised
    /\ releases (events o) = 0%nat
    /\ current_frame (final o)
       = latest (current_frame c) (frames_of (reads (events o)))
    /\ cap (final o) = cap c.
Proof.
  induction fuel as [| fuel IH]; intros cf c.
  - simpl. repeat split; try reflexivity. discriminate.
  - cbv zeta. rewrite loop_unfold.
    destruct (is_running c); simpl.
    + destruct (attempt_frame cf c) as (Hok & Hrel & Hframe & _ & Hcap).
      rewrite bind_outcome.
      destruct (result (RobustArducam.attempt drv cf c))
        as [[n | e] |] eqn:Hres; simpl.
      * destruct (IH n (final (RobustArducam.attempt drv cf c)))
          as (Hok' & Hrel' & Hframe' & Hcap').
        rewrite releases_app, reads_app, frames_of_app, latest_app.
        rewrite Hrel, Hrel', Hframe', Hframe, Hcap', Hcap.
        repeat split; try reflexivity. assumption.
      * rewrite app_nil_r. repeat split; try assumption. discriminate.
      * contradiction.
    + repeat split; try reflexivity. discriminate.
Qed.

(** A pass over a device that is open and fails its read. *)
Lemma attempt_failed_read (cf : Z) (c : Controller St) :
  cap c = true ->
  drv_isOpened drv (dev c) = true ->
  fst (drv_read drv (dev c)) = ReadFailed ->
  RobustArducam.attempt drv cf c
  = if RobustArducam.max_failures <=? cf + 1
    then mkOutcome (Ok (Break Faulted))
           (with_dev c (snd (drv_read drv (dev c))))
           [EvIsOpened true; EvRead ReadFailed]
    else mkOutcome (Ok (Continue (cf + 1)))
           (with_dev c (snd (drv_read drv (dev c))))
           [EvIsOpened true; EvRead ReadFailed; EvSleep 100; EvSleep 1].
Proof.
  intros Hcap Hopen Hread.
  unfold_attempt. rewrite Hcap, Hopen. simpl. rewrite Hcap.
  destruct (drv_read drv (dev c)) as [r d].
  simpl in Hread. subst r. simpl.
  now destruct (RobustArducam.max_failures <=? cf + 1).
Qed.

Lemma loop_faults (n : nat) :
  forall (fuel : nat) (cf : Z) (c : Controller St),
    is_running c = true -> cap c = true ->
    (1 <= n)%nat -> cf + Z.of_nat n = RobustArducam.max_failures ->
    fails_next drv n (dev c) -> (n <= fuel)%nat ->
    let o := RobustArducam.loop drv fuel cf c in
    result o = Ok Faulted
    /\ reads (events o) = repeat ReadFailed n
    /\ cap (final o) = true.
Proof.
  induction n as [| n IH]; intros fuel cf c Hrun Hcap Hn Hsum Hfail Hfuel.
  - lia.
  - destruct fuel as [| fuel]; [lia |].
    destruct Hfail as (Hopen & Hread & Hnext).
    cbv zeta. rewrite loop_unfold. rewrite Hrun. simpl.
    rewrite bind_outcome, (attempt_failed_read cf c Hcap Hopen Hread).
    destruct (RobustArducam.max_failures <=? cf + 1) eqn:Hceil; simpl.
    + apply Z.leb_le in Hceil.
      assert (n = 0%nat) by lia. subst n. simpl.
      repeat split; try reflexivity. assumption.
    + apply Z.leb_gt in Hceil.
      destruct (IH fuel (cf + 1) (with_dev c (snd (drv_read drv (dev c)))))
        as (Hres & Hreads & Hcap'); try assumption; try lia.
      rewrite Hres, Hcap', Hreads.
      repeat split; reflexivity.
Qed.

Lemma stop_releases (c : Controller St) :
  cap c = true ->
  let o := RobustArducam.stop drv c in
  result o = Ok tt
  /\ events o = [EvRelease]
  /\ dev (final o) = drv_release drv (dev c)
  /\ is_running (final o) = false
  /\ cap (final o) = true.
Proof.
  intros Hcap. unfold RobustArducam.stop, cap_release. simpl.
  rewrite Hcap. simpl. rewrite Hcap. repeat split; reflexivity.
Qed.

(** C3, as the code has it.  When the streak stands at [cf] and the
    next [10 - cf] reads fail, the loop stops iterating after exactly
    these reads, with the streak at the ceiling, and does not release
    the device; the release is done by [stop], once for each call. *)
Theorem streak_at_ceiling_stops_loop
    (fuel : nat) (cf : Z) (c : Controller St) :
  is_running c = true -> cap c = true ->
  0 <= cf < RobustArducam.max_failures ->
  fails_next drv (Z.to_nat (RobustArducam.max_failures - cf)) (dev c) ->
  (Z.to_nat (RobustArducam.max_failures - cf) <= fuel)%nat ->
  let o := RobustArducam.loop drv fuel cf c in
  let o1 := RobustArducam.stop drv (final o) in
  let o2 := RobustArducam.stop drv (final o1) in
  result o = Ok Faulted
  /\ reads (events o)
     = repeat ReadFailed (Z.to_nat (RobustArducam.max_failures - cf))
  /\ releases (events o) = 0%nat
  /\ events o1 = [EvRelease]
  /\ dev (final o1) = drv_release drv (dev (final o))
  /\ events o2 = [EvRelease].
Proof.
  intros Hrun Hcap Hcf Hfail Hfuel.
  destruct (loop_faults (Z.to_nat (RobustArducam.max_failures - cf))
              fuel cf c) as (Hres & Hreads & Hcap');
    try assumption; try lia.
  destruct (loop_invariant fuel cf c) as (_ & Hrel & _ & _).
  destruct (stop_releases (final (RobustArducam.loop drv fuel cf c)) Hcap')
    as (_ & Hev1 & Hdev1 & _ & Hcap1).
  destruct (stop_releases _ Hcap1) as (_ & Hev2 & _).
  cbv zeta. repeat split; assumption.
Qed.

(** C6: whatever the loop does, the buffer afterwards holds the last
    of the frames it read, and [get_frame] hands that frame out;
    before anything has been published [get_frame] answers
    [(False, None)]. *)
Theorem buffer_holds_latest_frame
    (fuel : nat) (cf : Z) (c : Controller St)
    (earlier : list ndarray) (nth_frame : ndarray) :
  frames_of (reads (events (RobustArducam.loop drv fuel cf c)))
  = earlier ++ [nth_frame] ->
  let c' := final (RobustArducam.loop drv fuel cf c) in
  current_frame c' = Some nth_frame
  /\ RobustArducam.get_frame c' = (true, Some nth_frame)
  /\ ArducamController.get_frame c' = (true, Some nth_frame)
  /\ (forall id d,
        RobustArducam.get_frame (@__init__ St id d) = (false, None)
        /\ ArducamController.get_frame (@__init__ St id d) = (false, None)).
Proof.
  intros Hpublished.
  destruct (loop_invariant fuel cf c) as (_ & _ & Hframe & _).
  rewrite Hpublished, latest_last in Hframe.
  cbv zeta. unfold RobustArducam.get_frame, ArducamController.get_frame.
  rewrite Hframe. repeat split; reflexivity.
Qed.

End CaptureLoop.

Lemma streak_at_ceiling_stops_loop_witness :
  let o := RobustArducam.loop sim 12 0 (sim_session 255 []) in
  let o1 := RobustArducam.stop sim (final o) in
  let o2 := RobustArducam.stop sim (final o1) in
  result o = Ok Faulted
  /\ reads (events o) = repeat ReadFailed 10
  /\ releases (events o) = 0%nat
  /\ events o1 = [EvRelease]
  /\ dev (final o1) = drv_release sim (dev (final o))
  /\ events o2 = [EvRelease].
Proof.
  apply (streak_at_ceiling_stops_loop sim 12 0 (sim_session 255 [])).
  - reflexivity.
  - reflexivity.
  - unfold RobustArducam.max_failures; lia.
  - simpl; repeat split; reflexivity.
  - vm_compute; lia.
Defined.

(** C3 as stated fails on a device whose reads all fail: the loop ends
    faulted after ten reads without a release, the device is still
    open, and two calls of [stop] release it twice. *)
Lemma faulted_loop_leaves_device_open :
  let o := RobustArducam._capture_loop sim 10 (sim_session 255 []) in
  let o1 := RobustArducam.stop sim (final o) in
  let o2 := RobustArducam.stop sim (final o1) in
  result o = Ok Faulted
  /\ releases (events o) = 0%nat
  /\ drv_isOpened sim (dev (final o)) = true
  /\ releases (events o ++ events o1 ++ events o2) = 2%nat.
Proof. repeat split; reflexivity. Qed.

(** Reads that raise add to the streak without the ceiling being
    checked: after twelve of them the loop is still running. *)
Remark raised_reads_pass_the_ceiling :
  result (RobustArducam._capture_loop sim 12
            (sim_session 255 (repeat ReadRaised 12))) = Ok OutOfFuel.
Proof. reflexivity. Qed.

Lemma buffer_holds_latest_frame_witness :
  let script := [ReadFrame red_frame; ReadFailed; ReadFrame gray_frame] in
  let c' := final (RobustArducam.loop sim 3 0 (sim_session 255 script)) in
  current_frame c' = Some gray_frame
  /\ RobustArducam.get_frame c' = (true, Some gray_frame)
  /\ ArducamController.get_frame c' = (true, Some gray_frame)
  /\ (forall id d,
        RobustArducam.get_frame (@__init__ Sim id d) = (false, None)
        /\ ArducamController.get_frame (@__init__ Sim id d) = (false, None)).
Proof.
  apply (buffer_holds_latest_frame sim 3 0
           (sim_session 255
              [ReadFrame red_frame; ReadFailed; ReadFrame gray_frame])
           [red_frame] gray_frame).
  reflexivity.
Defined.

(** ** C2 and C5: negotiation *)

Section Negotiation.

Context {St : Type} (drv : Driver St).

Lemma probed_step (n : nat) (acc acc' k : Z) (r : ReadResult)
    (c : Controller St) (ev : list Event) :
  acc' = acc + Spec.true_color_count [r] ->
  probed n acc' k c ev -> probed (S n) acc k c ([EvRead r] ++ ev).
Proof.
  intros Hacc (Hcap & Hev & Hlen & Hk). unfold probed. simpl.
  rewrite <- Hev, Hlen. repeat split; try assumption; try reflexivity.
  subst k acc'. unfold Spec.true_color_count. simpl.
  destruct r as [f | |]; simpl;
    try destruct (NativeColorClassifier._has_true_color f); simpl length;
    lia.
Qed.

Lemma probe_post (n : nat) :
  forall (acc : Z) (c : Controller St),
    cap c = true ->
    post (NativeColorArducam.probe drv n acc c) (probed n acc) probe_raised.
Proof.
  induction n as [| n IH]; intros acc c Hcap.
  - apply post_ret. unfold probed, Spec.true_color_count. simpl.
    repeat split; try assumption; lia.
  - simpl NativeColorArducam.probe.
    apply post_bind.
    apply post_cap_read; [assumption | intros f d _ | intros d _ | intros d _].
    + destruct (NativeColorClassifier._has_true_color f) eqn:Hcolor.
      * eapply post_conseq; [apply (IH (acc + 1)); exact Hcap | |].
        -- intros k c' ev. apply probed_step.
           unfold Spec.true_color_count. simpl. now rewrite Hcolor.
        -- intros c' ev (Hc & Hev). split; [assumption |].
           simpl. now rewrite <- Hev.
      * eapply post_conseq; [apply (IH acc); exact Hcap | |].
        -- intros k c' ev. apply probed_step.
           unfold Spec.true_color_count. simpl. rewrite Hcolor. simpl. lia.
        -- intros c' ev (Hc & Hev). split; [assumption |].
           simpl. now rewrite <- Hev.
    + eapply post_conseq; [apply (IH acc); exact Hcap | |].
      * intros k c' ev. apply probed_step.
        unfold Spec.true_color_count. simpl. lia.
      * intros c' ev (Hc & Hev). split; [assumption |].
        simpl. now rewrite <- Hev.
    + split; [assumption | reflexivity].
Qed.

Lemma post_set_current_mode (m : string) (c : Controller St) Q R :
  Q tt (with_current_mode c m) [] ->
  post (NativeColorArducam.set_current_mode m c) Q R.
Proof. exact (fun H => H). Qed.

Ltac count_events Hev :=
  rewrite ?opens_app, ?releases_app, ?successful_opens_app, ?reads_app;
  rewrite Hev;
  rewrite ?opens_map_EvRead, ?releases_map_EvRead,
    ?successful_opens_map_EvRead, ?reads_map_EvRead;
  simpl; rewrite ?app_nil_r.

(** What one pass over a strategy does. *)
Lemma try_strategy_post (s : Strategy) (c : Controller St) :
  post (NativeColorArducam.try_strategy drv s c)
    (fun accepted c' ev =>
       opens ev = 1%nat /\ cap c' = true
       /\ accepted = (3 <=? Spec.true_color_count (reads ev))
       /\ length (reads ev) = (5 * successful_opens ev)%nat
       /\ releases ev = (if accepted then 0 else successful_opens ev)%nat
       /\ (accepted = true ->
           exists w h,
             current_mode c'
             = (mode_name s ++ " (" ++ str w ++ "x" ++ str h ++ ")")%string))
    (fun c' ev => opens ev = 1%nat /\ cap c' = true).
Proof.
  unfold NativeColorArducam.try_strategy,
    NativeColorArducam._configure_focus.
  repeat method_step; try (split; reflexivity).
  - eapply post_conseq; [apply probe_post; reflexivity | |]; cbv beta.
    + intros k cP eP (HcapP & Hev & Hlen & Hk). simpl in Hk.
      destruct (3 <=? k) eqn:Hthree.
      * repeat method_step;
          try (split; [count_events Hev; reflexivity | assumption]).
        apply post_set_current_mode.
        repeat method_step;
          try (split; [count_events Hev; reflexivity | assumption]).
        count_events Hev. rewrite <- Hk, Hthree, Hlen.
        repeat split; try reflexivity; try assumption.
        intros _. eexists _, _. reflexivity.
      * repeat method_step.
        count_events Hev. rewrite <- Hk, Hthree, Hlen.
        repeat split; try reflexivity; try assumption.
        intros Habs; discriminate.
    + intros cP eP (HcapP & Hev).
      split; [count_events Hev; reflexivity | assumption].
  - repeat split; try reflexivity. intros Habs; discriminate.
Qed.

Lemma connect_with_rejected (s : Strategy) (rest : list Strategy)
    (c : Controller St) :
  result (NativeColorArducam.try_strategy drv s c) = Ok false ->
  let o := NativeColorArducam.try_strategy drv s c in
  let o' := NativeColorArducam.connect_with drv rest (final o) in
  NativeColorArducam.connect_with drv (s :: rest) c
  = mkOutcome (result o') (final o') (events o ++ events o').
Proof.
  intros Hres. simpl NativeColorArducam.connect_with.
  rewrite bind_outcome, Hres. reflexivity.
Qed.

Lemma connect_with_accepted (s : Strategy) (rest : list Strategy)
    (c : Controller St) :
  result (NativeColorArducam.try_strategy drv s c) = Ok true ->
  let o := NativeColorArducam.try_strategy drv s c in
  NativeColorArducam.connect_with drv (s :: rest) c
  = mkOutcome (Ok true) (final o) (events o ++ []).
Proof.
  intros Hres. simpl NativeColorArducam.connect_with.
  rewrite bind_outcome, Hres. reflexivity.
Qed.

(** Strategies that are all given up: [connect] answers false, has
    opened the device once per strategy and has released it as often
    as it found it opened. *)
Lemma rejects_all (l : list Strategy) (c c' : Controller St)
    (ev : list Event) :
  Rejects drv l c c' ev ->
  NativeColorArducam.connect_with drv l c = mkOutcome (Ok false) c' ev
  /\ opens ev = length l
  /\ releases ev = successful_opens ev.
Proof.
  induction 1 as [c | s rest c c' ev Hres Hrest (IHrun & IHopens & IHrel)].
  - repeat split; reflexivity.
  - pose proof (post_result _ _ _ false (try_strategy_post s c) Hres)
      as (Hopens & _ & _ & _ & Hrel & _).
    cbv beta in Hopens, Hrel.
    rewrite (connect_with_rejected s rest c Hres). cbv zeta.
    rewrite IHrun. simpl result. simpl final. simpl events.
    rewrite opens_app, releases_app, successful_opens_app.
    rewrite Hopens, Hrel, IHopens, IHrel.
    repeat split; reflexivity.
Qed.

Lemma connect_with_after_rejected (pre rest : list Strategy)
    (c c' : Controller St) (ev : list Event) :
  Rejects drv pre c c' ev ->
  let o := NativeColorArducam.connect_with drv rest c' in
  NativeColorArducam.connect_with drv (pre ++ rest) c
  = mkOutcome (result o) (final o) (ev ++ events o).
Proof.
  induction 1 as [c | s pre c c' ev Hres Hrest IH]; cbv zeta.
  - simpl. now destruct (NativeColorArducam.connect_with drv rest c).
  - rewrite <- app_comm_cons.
    rewrite (connect_with_rejected s (pre ++ rest) c Hres). cbv zeta.
    rewrite IH. simpl. now rewrite app_assoc.
Qed.

(** C2, as the code has it.  A strategy on which the device opens is
    probed with exactly five reads; it is accepted exactly when at
    least three of them, that is more than half of the five reads
    attempted, gave a frame with true colour.  With no frame read it is
    given up, and a strategy that is given up has been released if it
    was opened and is followed by the rest of the list. *)
Theorem probe_needs_three_of_five
    (s : Strategy) (rest : list Strategy) (c : Controller St)
    (accepted : bool) :
  result (NativeColorArducam.try_strategy drv s c) = Ok accepted ->
  let o := NativeColorArducam.try_strategy drv s c in
  let rs := reads (events o) in
  length rs = (5 * successful_opens (events o))%nat
  /\ (accepted = true <-> 3 <= Spec.true_color_count rs)
  /\ (accepted = true <-> 5 < 2 * Spec.true_color_count rs)
  /\ (Spec.successfully_read rs = 0 -> accepted = false)
  /\ (accepted = false ->
      releases (events o) = successful_opens (events o)
      /\ let o' := NativeColorArducam.connect_with drv rest (final o) in
         NativeColorArducam.connect_with drv (s :: rest) c
         = mkOutcome (result o') (final o') (events o ++ events o')).
Proof.
  intros Hres.
  pose proof (post_result _ _ _ accepted (try_strategy_post s c) Hres)
    as (_ & _ & Hacc & Hlen & Hrel & _).
  cbv beta in Hacc, Hlen, Hrel. cbv zeta.
  pose proof (true_color_count_le_read
                (reads (events (NativeColorArducam.try_strategy drv s c))))
    as Hle.
  assert (Hthree : accepted = true
                   <-> 3 <= Spec.true_color_count
                              (reads (events
                                (NativeColorArducam.try_strategy drv s c)))).
  { rewrite Hacc. apply Z.leb_le. }
  repeat split.
  - exact Hlen.
  - apply Hthree.
  - apply Hthree.
  - intros H. apply Hthree in H. lia.
  - intros H. apply Hthree. lia.
  - intros Hzero. destruct accepted; [| reflexivity].
    assert (3 <= Spec.true_color_count
                   (reads (events (NativeColorArducam.try_strategy drv s c))))
      by now apply Hthree.
    lia.
  - subst accepted. rewrite H in Hrel. exact Hrel.
  - subst accepted. rewrite H in Hres.
    apply (connect_with_rejected s rest c Hres).
Qed.

(** C5, as the code has it.  When the first strategies of the list are
    given up and the next one shows true colour in at least three of
    its five probe reads, the negotiation answers true with that
    strategy recorded as the mode and its device handle open and
    unreleased, having opened the device once per strategy up to that
    one and never for a later one.  When every strategy is given up it
    answers false, without raising, and every handle that was opened
    has been released.  [connect] is this negotiation over its seven
    strategies. *)
Theorem negotiation_takes_first_accepted
    (pre : list Strategy) (c c1 : Controller St) (ev : list Event) :
  Rejects drv pre c c1 ev ->
  (NativeColorArducam.connect_with drv pre c = mkOutcome (Ok false) c1 ev
   /\ opens ev = length pre
   /\ releases ev = successful_opens ev)
  /\ (pre = NativeColorArducam.strategies ->
      NativeColorArducam.connect drv c = mkOutcome (Ok false) c1 ev
      /\ opens ev = 7%nat)
  /\ forall (s : Strategy) (later : list Strategy),
       result (NativeColorArducam.try_strategy drv s c1) <> Raised ->
       3 <= Spec.true_color_count
              (reads (events (NativeColorArducam.try_strategy drv s c1))) ->
       let o := NativeColorArducam.connect_with drv (pre ++ s :: later) c in
       let accepted := NativeColorArducam.try_strategy drv s c1 in
       (result o = Ok true
        /\ final o = final accepted
        /\ events o = ev ++ events accepted
        /\ opens (events o) = S (length pre)
        /\ cap (final o) = true
        /\ releases (events accepted) = 0%nat
        /\ exists w h,
             current_mode (final o)
             = (mode_name s ++ " (" ++ str w ++ "x" ++ str h ++ ")")%string)
       /\ (NativeColorArducam.strategies = pre ++ s :: later ->
           NativeColorArducam.connect drv c = o
           /\ (opens (events (NativeColorArducam.connect drv c)) <= 7)%nat).
Proof.
  intros Hrej.
  split; [exact (rejects_all pre c c1 ev Hrej) |].
  split.
  { intros ->. destruct (rejects_all _ c c1 ev Hrej) as (Hrun & Hopens & _).
    split; [exact Hrun | exact Hopens]. }
  intros s later Hok Hcount.
  destruct (rejects_all pre c c1 ev Hrej) as (_ & Hopens & _).
  destruct (result (NativeColorArducam.try_strategy drv s c1))
    as [b |] eqn:Hres; [| contradiction].
  pose proof (post_result _ _ _ b (try_strategy_post s c1) Hres)
    as (Hopen1 & Hcap & Hacc & _ & Hrel & Hmode).
  cbv beta in Hopen1, Hcap, Hacc, Hrel, Hmode.
  destruct b;
    [| apply Z.leb_le in Hcount; rewrite Hcount in Hacc; discriminate].
  cbv zeta.
  assert (Hopened :
            opens (events (NativeColorArducam.connect_with drv
                             (pre ++ s :: later) c)) = S (length pre)).
  { rewrite (connect_with_after_rejected pre (s :: later) c c1 ev Hrej).
    cbv zeta.
    rewrite (connect_with_accepted s later c1 Hres). cbv zeta.
    simpl events. rewrite app_nil_r, opens_app, Hopens, Hopen1. lia. }
  split.
  - rewrite (connect_with_after_rejected pre (s :: later) c c1 ev Hrej).
    cbv zeta.
    rewrite (connect_with_accepted s later c1 Hres). cbv zeta.
    simpl result. simpl final. simpl events. rewrite app_nil_r.
    rewrite opens_app, Hopens, Hopen1.
    repeat split; try assumption; try reflexivity.
    + lia.
    + now apply Hmode.
  - intros Hlist. unfold NativeColorArducam.connect. rewrite Hlist.
    split; [reflexivity |].
    rewrite Hopened.
    apply (f_equal (@length Strategy)) in Hlist.
    rewrite length_app in Hlist. simpl in Hlist. lia.
Qed.

End Negotiation.

Lemma probe_needs_three_of_five_witness :
  let o := NativeColorArducam.try_strategy sim yuv
             (sim_fresh 0 (repeat (ReadFrame red_frame) 4
                           ++ [ReadFrame gray_frame])) in
  result o = Ok true
  /\ length (reads (events o)) = 5%nat
  /\ 3 <= Spec.true_color_count (reads (events o)).
Proof.
  pose proof (probe_needs_three_of_five sim yuv []
                (sim_fresh 0 (repeat (ReadFrame red_frame) 4
                              ++ [ReadFrame gray_frame]))
                true eq_refl) as (Hlen & Hthree & _).
  split; [reflexivity | split; [exact Hlen | now apply Hthree]].
Defined.

(** C2 as stated fails on a device that delivers two frames, both with
    true colour, and fails the other three reads: two of the two frames
    read, more than half, have true colour, yet the strategy is given
    up. *)
Lemma two_of_two_read_is_rejected :
  let o := NativeColorArducam.try_strategy sim yuv
             (sim_fresh 0 [ReadFrame red_frame; ReadFrame red_frame]) in
  result o = Ok false
  /\ reads (events o)
     = [ReadFrame red_frame; ReadFrame red_frame;
        ReadFailed; ReadFailed; ReadFailed]
  /\ Spec.successfully_read (reads (events o)) = 2
  /\ Spec.true_color_count (reads (events o)) = 2
  /\ Spec.majority_of_read (reads (events o)) = true.
Proof. repeat split; reflexivity. Qed.

(** On the strategies of [connect]: the device fails its first open,
    shows gray through the second strategy and colour in four of the
    five probe frames of the third. *)
Lemma negotiation_takes_first_accepted_witness :
  let c := sim_fresh 1 gray_then_red in
  let o := NativeColorArducam.connect sim c in
  result (NativeColorArducam.connect_with sim
            (firstn 2 NativeColorArducam.strategies) c) = Ok false
  /\ result o = Ok true
  /\ opens (events o) = 3%nat
  /\ cap (final o) = true
  /\ current_mode (final o) = "1920x1080 (FHD) (1920x1080)"%string
  /\ result (NativeColorArducam.connect sim (sim_fresh 0 [])) = Ok false.
Proof.
  eassert (Hall : Rejects sim NativeColorArducam.strategies
                    (sim_fresh 0 []) _ _).
  { do 7 (eapply Rejects_cons; [reflexivity |]). apply Rejects_nil. }
  pose proof (negotiation_takes_first_accepted sim
                NativeColorArducam.strategies (sim_fresh 0 []) _ _ Hall)
    as (_ & Hnone & _).
  destruct (Hnone eq_refl) as (Hnone' & _).
  eassert (Hrej : Rejects sim (firstn 2 NativeColorArducam.strategies)
                    (sim_fresh 1 gray_then_red) _ _).
  { eapply Rejects_cons; [reflexivity |].
    eapply Rejects_cons; [reflexivity |].
    apply Rejects_nil. }
  pose proof (negotiation_takes_first_accepted sim
                (firstn 2 NativeColorArducam.strategies)
                (sim_fresh 1 gray_then_red) _ _ Hrej)
    as ((Hfail & _) & _ & Hnext).
  destruct (Hnext (mkStrategy "1920x1080 (FHD)" 1920 1080
                     NativeColorArducam.MJPG)
                  (skipn 3 NativeColorArducam.strategies))
    as ((Hres & _ & _ & Hopens & Hcap & _) & Hconnect).
  - vm_compute. discriminate.
  - vm_compute. discriminate.
  - destruct (Hconnect eq_refl) as (Hsame & _).
    cbv zeta. rewrite Hfail, Hsame.
    split; [reflexivity |].
    split; [exact Hres |].
    split; [exact Hopens |].
    split; [exact Hcap |].
    split; [vm_compute; reflexivity |].
    rewrite Hnone'. reflexivity.
Defined.

(** C5 as stated fails on a device that fails its first open and then
    delivers two frames, both with true colour, and nothing more: the
    second strategy of [connect] has true colour in two of the two
    frames read, a majority of them, yet it is given up, the five
    strategies after it are tried as well, and [connect] answers
    false. *)
Lemma majority_candidate_is_passed_over :
  let c := sim_fresh 1 [ReadFrame red_frame; ReadFrame red_frame] in
  let first :=
    NativeColorArducam.try_strategy sim
      (nth 0 NativeColorArducam.strategies small) c in
  let second :=
    NativeColorArducam.try_strategy sim
      (nth 1 NativeColorArducam.strategies small) (final first) in
  let o := NativeColorArducam.connect sim c in
  (result first = Ok false /\ successful_opens (events first) = 0%nat)
  /\ (Spec.successfully_read (reads (events second)) = 2
      /\ Spec.true_color_count (reads (events second)) = 2
      /\ Spec.majority_of_read (reads (events second)) = true
      /\ result second = Ok false)
  /\ result o = Ok false
  /\ opens (events o) = 7%nat
  /\ releases (events o) = successful_opens (events o).
Proof. vm_compute. repeat split; reflexivity. Qed.

(** The scenario on the strategies of [connect] themselves: the device
    fails one open, shows gray through the next strategy and colour in
    the third; the mode recorded is that of the third. *)
Example negotiation_scenario :
  let o := NativeColorArducam.connect_with sim [hd_720p; vga; yuv; small]
             (sim_fresh 1 gray_then_red) in
  result o = Ok true
  /\ current_mode (final o) = "640x480 YUV (640x480)"%string
  /\ opens (events o) = 3%nat
  /\ releases (events o) = 1%nat.
Proof. repeat split; reflexivity. Qed.

(** * Properties of the rest of the code *)

(** ** More rules for the logic of outcomes *)

Lemma writes_map_EvRead (rs : list ReadResult) : writes (map EvRead rs) = [].
Proof. induction rs as [| r rs IH]; simpl; [reflexivity | exact IH]. Qed.

Section MoreRules.

Context {St : Type} (drv : Driver St).
Lemma post_cap_and_isOpened (c : Controller St) Q R :
  (cap c = true ->
   Q (drv_isOpened drv (dev c)) c [EvIsOpened (drv_isOpened drv (dev c))]) ->
  (cap c = false -> Q false c []) ->
  post (cap_and_isOpened drv c) Q R.
Proof.
  unfold post, cap_and_isOpened, isOpened. intros Hopen Hnone.
  destruct (cap c); simpl; auto.
Qed.
Lemma post_raise_error {A} (c : Controller St)
    (Q : A -> Controller St -> list Event -> Prop) R :
  R c [] -> post (@raise_error St A c) Q R.
Proof. exact (fun H => H). Qed.
Lemma post_publish (f : ndarray) (c : Controller St) Q R :
  Q tt (with_current_frame c (Some f)) [] ->
  post (RobustArducam.publish f c) Q R.
Proof. exact (fun H => H). Qed.
Lemma post_set_is_running (b : bool) (c : Controller St) Q R :
  Q tt (with_is_running c b) [] -> post (set_is_running b c) Q R.
Proof. exact (fun H => H). Qed.
Lemma post_clear_cap (c : Controller St) Q R :
  Q tt (with_cap c false) [] -> post (clear_cap c) Q R.
Proof. exact (fun H => H). Qed.
End MoreRules.

Ltac body_step :=
  cbv beta iota;
  lazymatch goal with
  | |- post (bind _ _ _) _ _ => apply post_bind
  | |- post (ret _ _) _ _ => apply post_ret
  | |- post (try_except _ _ _) _ _ => apply post_try_except
  | |- post (sleep _ _) _ _ => apply post_sleep
  | |- post (raise_error _) _ _ => apply post_raise_error
  | |- post (RobustArducam.publish _ _) _ _ => apply post_publish
  | |- post (set_is_running _ _) _ _ => apply post_set_is_running
  | |- post (clear_cap _) _ _ => apply post_clear_cap
  | |- post (VideoCapture _ _ _) _ _ => apply post_VideoCapture
  | |- post (isOpened _ _) _ _ => apply post_isOpened; [cap_holds |]
  | |- post (cap_and_isOpened _ _) _ _ =>
      apply post_cap_and_isOpened; intros ?
  | |- post (cap_set _ _ _ _) _ _ =>
      apply post_cap_set; [cap_holds | intros ? ? _ | intros ? _]
  | |- post (cap_get _ _ _) _ _ =>
      apply post_cap_get; [cap_holds | intros ? _ | intros _]
  | |- post (cap_read _ _) _ _ =>
      apply post_cap_read;
      [cap_holds | intros ? ? _ | intros ? _ | intros ? _]
  | |- post (cap_release _ _) _ _ => apply post_cap_release; [cap_holds |]
  | |- post ((if negb ?b then _ else _) _) _ _ =>
      destruct b eqn:?; cbn [negb]
  | |- post ((if ?b then _ else _) _) _ _ => destruct b eqn:?
  end.

(** ** robust_arducam.py: connect *)

Section RobustConnect.

Context {St : Type} (drv : Driver St).

Ltac no_focus_write :=
  intros ?; split; simpl; intros Hin;
  repeat (destruct Hin as [Hin | Hin]; [discriminate Hin |]); exact Hin.

Ltac attempted_goal :=
  unfold attempted; simpl;
  repeat match goal with
    | |- _ /\ _ => split
    | |- _ = _ => reflexivity
    | |- exists f, [?x] = [f] => exists x; reflexivity
    | |- exists pre, ?l = pre ++ ?tail =>
        exists (firstn (length l - length tail) l); reflexivity
    | |- forall v, _ => no_focus_write
    end.

Lemma connect_msmf_post (w h : Z) (c : Controller St) :
  post (RobustConnect.connect_msmf drv w h c) attempted (fun _ _ => True).
Proof.
  unfold RobustConnect.connect_msmf, RobustArducam._configure_focus.
  repeat body_step; try exact I; attempted_goal. 
Qed.

Lemma connect_auto_post (c : Controller St) :
  post (RobustConnect.connect_auto drv c) attempted (fun _ _ => True).
Proof.
  unfold RobustConnect.connect_auto, RobustArducam._configure_focus.
  repeat body_step; try exact I; attempted_goal.
Qed.


Lemma negotiated_last (b : bool) (c : Controller St) (ev : list Event) :
  attempted b c ev -> negotiated 1 b c (ev ++ []).
Proof.
  rewrite app_nil_r. unfold attempted, negotiated.
  intros (Hcap & Hopens & H). split; [assumption |].
  destruct b.
  - destruct H as (Hrel & Hsucc & Hframe & Hwrites).
    rewrite Hopens, Hsucc, Hrel. repeat split; try assumption; lia.
  - destruct H as (Hrel & Hframe & Hwrites). repeat split; try assumption;
      apply Hwrites.
Qed.

Lemma negotiated_next (n : nat) (b : bool) (c1 c2 : Controller St)
    (e1 e2 : list Event) :
  attempted false c1 e1 -> negotiated n b c2 e2 ->
  negotiated (S n) b c2 (e1 ++ e2).
Proof.
  unfold attempted, negotiated.
  intros (_ & Hopens1 & Hrel1 & Hframe1 & Hwrites1) (Hcap & H).
  split; [assumption |].
  rewrite opens_app, releases_app, successful_opens_app, reads_app,
    frames_of_app, writes_app, Hopens1, Hrel1, Hframe1.
  destruct b.
  - destruct H as (Hopens & Hsucc & Hframe & pre & Hwrites).
    rewrite Hsucc, Hwrites. repeat split; try lia; try assumption.
    exists (writes e1 ++ pre). now rewrite app_assoc.
  - destruct H as (Hopens & Hrel & Hframe & Hwrites).
    rewrite Hopens, Hrel, Hframe. repeat split; try reflexivity.
    + intros Hin. apply in_app_or in Hin.
      destruct Hin as [Hin | Hin];
        [apply (Hwrites1 v) in Hin | apply (Hwrites v) in Hin]; exact Hin.
    + intros Hin. apply in_app_or in Hin.
      destruct Hin as [Hin | Hin];
        [apply (Hwrites1 v) in Hin | apply (Hwrites v) in Hin]; exact Hin.
Qed.

Lemma connect_post (c : Controller St) :
  post (RobustConnect.connect drv c) (negotiated 3) (fun _ _ => True).
Proof.
  unfold RobustConnect.connect.
  apply post_bind.
  eapply post_conseq; [apply connect_msmf_post | | trivial].
  intros [|] c1 e1 H1; cbv beta.
  { apply post_ret. apply negotiated_last in H1.
    unfold negotiated in *. destruct H1 as (Hc & Ho & H). 
    split; [assumption | split; [lia | assumption]]. }
  apply post_bind.
  eapply post_conseq; [apply connect_msmf_post | | trivial].
  intros [|] c2 e2 H2; cbv beta.
  { apply post_ret. apply negotiated_last in H2.
    pose proof (negotiated_next 1 true c1 c2 e1 _ H1 H2) as H.
    unfold negotiated in *. destruct H as (Hc & Ho & H).
    split; [assumption | split; [lia | assumption]]. }
  apply post_bind.
  eapply post_conseq; [apply connect_auto_post | | trivial].
  intros b c3 e3 H3; cbv beta.
  assert (H : negotiated 3 b c3 (e1 ++ e2 ++ e3 ++ [])).
  { apply negotiated_next with c1; [assumption |].
    apply negotiated_next with c2; [assumption |].
    now apply negotiated_last. }
  destruct b; apply post_ret; exact H.
Qed.

(** When [connect] of [robust_arducam.py] answers false it has tried
    its three strategies, released every handle it found opened, read
    no frame and left autofocus and focus untouched. *)
Theorem robust_connect_gives_up_released (c : Controller St) :
  result (RobustConnect.connect drv c) = Ok false ->
  let ev := events (RobustConnect.connect drv c) in
  opens ev = 3%nat
  /\ releases ev = successful_opens ev
  /\ frames_of (reads ev) = []
  /\ forall v, ~ In (CAP_PROP_AUTOFOCUS, v) (writes ev)
               /\ ~ In (CAP_PROP_FOCUS, v) (writes ev).
Proof.
  intros Hres.
  exact (proj2 (post_result _ _ _ false (connect_post c) Hres)).
Qed.

(** When [connect] of [robust_arducam.py] answers true it has opened
    the device at most three times, keeps exactly one handle that it
    has not released, has read exactly one frame, and its last two
    writes are autofocus off and focus 100. *)
Theorem robust_connect_keeps_one_handle (c : Controller St) :
  result (RobustConnect.connect drv c) = Ok true ->
  let ev := events (RobustConnect.connect drv c) in
  (1 <= opens ev <= 3)%nat
  /\ successful_opens ev = S (releases ev)
  /\ (exists f, frames_of (reads ev) = [f])
  /\ exists pre,
       writes ev = pre ++ [(CAP_PROP_AUTOFOCUS, 0); (CAP_PROP_FOCUS, 100)].
Proof.
  intros Hres.
  exact (proj2 (post_result _ _ _ true (connect_post c) Hres)).
Qed.

End RobustConnect.
(** ** robust_arducam.py: the key loop of main *)

Section MainLoop.

Context {St : Type} (drv : Driver St).

Lemma on_key_in_range (waitKey f v : Z) :
  0 <= f <= 255 ->
  RobustConnect.on_key waitKey f = RobustConnect.Refocus v ->
  0 <= v <= 255.
Proof.
  intros Hf. unfold RobustConnect.on_key. cbv zeta.
  destruct (Z.land waitKey 255 =? ord "q"); [discriminate |].
  destruct (Z.land waitKey 255 =? ord "a"); [intros [= <-]; lia |].
  destruct (Z.land waitKey 255 =? ord "d"); [intros [= <-]; lia |].
  destruct (Z.land waitKey 255 =? ord "s"); [intros [= <-]; lia |].
  discriminate.
Qed.

Lemma set_focus_safe (v : Z) (c : Controller St) :
  0 <= v <= 255 ->
  post (RobustArducam.set_focus drv v c)
       (fun _ _ ev => Forall safe_write (writes ev))
       (fun _ _ => False).
Proof.
  intros Hv. unfold RobustArducam.set_focus.
  assert (Haf : safe_write (CAP_PROP_AUTOFOCUS, 0)) by (now left).
  assert (Hfocus : safe_write (CAP_PROP_FOCUS, v)) by (right; split; [reflexivity | exact Hv]).
  repeat body_step; simpl;
    repeat first [apply Forall_nil | apply Forall_cons; [assumption |]].
Qed.

Lemma main_loop_post (fuel : nat) :
  forall (keys : list Z) (f : Z) (c : Controller St),
    0 <= f <= 255 ->
    post (RobustConnect.main_loop drv fuel keys f c)
         (fun f' _ ev => 0 <= f' <= 255 /\ Forall safe_write (writes ev))
         (fun _ _ => False).
Proof.
  induction fuel as [| fuel IH]; intros keys f c Hf.
  - apply post_ret. split; [exact Hf | constructor].
  - simpl RobustConnect.main_loop.
    destruct (fst (RobustArducam.get_frame c)).
    + destruct (RobustConnect.on_key (List.hd (-1) keys) f) as [| v |] eqn:Hkey.
      * apply post_ret. split; [exact Hf | constructor].
      * pose proof (on_key_in_range _ _ _ Hf Hkey) as Hv.
        apply post_bind.
        eapply post_conseq; [apply (set_focus_safe v c Hv) | | trivial].
        intros b1 c1 e1 H1. cbv beta in H1 |- *.
        eapply post_conseq; [apply (IH (List.tl keys) v c1 Hv) | | trivial].
        intros f' c2 e2 (Hf' & H2). cbv beta.
        split; [exact Hf' |]. rewrite writes_app. now apply Forall_app.
      * apply IH. exact Hf.
    + apply post_bind. apply post_sleep. cbv beta.
      eapply post_conseq; [apply (IH keys f c Hf) | | trivial].
      intros f' c2 e2 H. exact H.
Qed.

(** In the loop of [main] the focus value never leaves the range
    0..255 when it starts inside it (it starts at 100): the loop ends
    without raising on a value in the range, every focus write it has
    caused carries a value in the range, every autofocus write is 0 and
    nothing else is written.  An idle [waitKey] (-1) is no key. *)
Theorem main_loop_focus_in_range
    (fuel : nat) (keys : list Z) (f : Z) (c : Controller St) :
  0 <= f <= 255 ->
  let o := RobustConnect.main_loop drv fuel keys f c in
  (exists f', result o = Ok f' /\ 0 <= f' <= 255)
  /\ Forall safe_write (writes (events o))
  /\ RobustConnect.on_key (-1) f = RobustConnect.Ignored.
Proof.
  intros Hf. cbv zeta.
  pose proof (main_loop_post fuel keys f c Hf) as H.
  unfold post in H.
  destruct (result (RobustConnect.main_loop drv fuel keys f c)) as [f' |];
    [| contradiction].
  destruct H as (Hf' & Hw).
  split; [exists f'; split; [reflexivity | exact Hf'] |].
  split; [exact Hw | reflexivity].
Qed.

End MainLoop.

(** ** robust_arducam.py: when the loop faults *)

Lemma trailing_run (rs : list ReadResult) :
  exists earlier run,
    rs = earlier ++ run
    /\ frames_of run = []
    /\ fold_left streak_step rs O = length run.
Proof.
  induction rs as [| r rs IH] using rev_ind.
  - exists [], []. repeat split.
  - rewrite fold_left_app. simpl.
    destruct IH as (earlier & run & Hsplit & Hnone & Hlen).
    destruct r as [f | |].
    + exists (rs ++ [ReadFrame f]), []. rewrite app_nil_r. repeat split.
    + exists earlier, (run ++ [ReadFailed]).
      rewrite frames_of_app, Hnone, length_app, Hlen, Hsplit, app_assoc.
      simpl. repeat split. lia.
    + exists earlier, (run ++ [ReadRaised]).
      rewrite frames_of_app, Hnone, length_app, Hlen, Hsplit, app_assoc.
      simpl. repeat split. lia.
Qed.

Section RobustStreak.

Context {St : Type} (drv : Driver St).

Lemma attempt_streak (cf : Z) (c : Controller St) (k : nat) :
  cf <= Z.of_nat k ->
  let o := RobustArducam.attempt drv cf c in
  let k' := fold_left streak_step (reads (events o)) k in
  match result o with
  | Ok (Continue n) => n <= Z.of_nat k'
  | Ok (Break Faulted) => (10 <= k')%nat
  | _ => True
  end.
Proof.
  intros Hk. unfold_attempt. simpl.
  destruct (cap c) eqn:Hcap; simpl; [| exact I].
  destruct (drv_isOpened drv (dev c)); simpl; [| exact I].
  rewrite Hcap.
  destruct (drv_read drv (dev c)) as [[f | |] d]; simpl.
  - lia.
  - destruct (RobustArducam.max_failures <=? cf + 1) eqn:Hceil; simpl.
    + apply Z.leb_le in Hceil. unfold RobustArducam.max_failures in Hceil. lia.
    + lia.
  - lia.
Qed.

Lemma loop_streak (fuel : nat) :
  forall (cf : Z) (c : Controller St) (k : nat),
    cf <= Z.of_nat k ->
    result (RobustArducam.loop drv fuel cf c) = Ok Faulted ->
    (10 <= fold_left streak_step
             (reads (events (RobustArducam.loop drv fuel cf c))) k)%nat.
Proof.
  induction fuel as [| fuel IH]; intros cf c k Hk.
  - simpl. discriminate.
  - rewrite loop_unfold.
    destruct (is_running c); simpl; [| discriminate].
    pose proof (attempt_streak cf c k Hk) as Hatt. cbv zeta in Hatt.
    rewrite bind_outcome.
    destruct (result (RobustArducam.attempt drv cf c))
      as [[n | e] |]; simpl.
    + intros Hres. rewrite reads_app, fold_left_app.
      apply (IH n _ _ Hatt Hres).
    + intros [= ->]. now rewrite app_nil_r.
    + discriminate.
Qed.

(** The loop of [robust_arducam.py] ends faulted only after a run of
    at least ten reads that gave no frame: the reads it has made end
    with such a run. *)
Theorem faulted_after_ten_reads_without_frame
    (fuel : nat) (c : Controller St) :
  result (RobustArducam._capture_loop drv fuel c) = Ok Faulted ->
  exists earlier run,
    reads (events (RobustArducam._capture_loop drv fuel c)) = earlier ++ run
    /\ frames_of run = []
    /\ (10 <= length run)%nat.
Proof.
  intros Hres.
  pose proof (loop_streak fuel 0 c 0 (Z.le_refl 0) Hres) as Hten.
  destruct (trailing_run
              (reads (events (RobustArducam._capture_loop drv fuel c))))
    as (earlier & run & Hsplit & Hnone & Hlen).
  unfold RobustArducam._capture_loop in *.
  exists earlier, run. rewrite Hlen in Hten.
  split; [exact Hsplit | split; [exact Hnone | exact Hten]].
Qed.

(** After [stop], on a driver whose [release] closes the handle, the
    loop ends at its first test of the flag without a device call, and
    [set_focus] answers false after asking [isOpened], writing
    nothing. *)
Theorem stopped_controller_leaves_device_alone
    (fuel : nat) (cf v : Z) (c : Controller St) :
  cap c = true ->
  drv_isOpened drv (drv_release drv (dev c)) = false ->
  let c' := final (RobustArducam.stop drv c) in
  RobustArducam.loop drv (S fuel) cf c' = mkOutcome (Ok Stopped) c' []
  /\ RobustArducam.set_focus drv v c'
     = mkOutcome (Ok false) c' [EvIsOpened false].
Proof.
  intros Hcap Hclosed. cbv zeta.
  assert (Hstop : final (RobustArducam.stop drv c)
                  = with_dev (with_is_running c false)
                             (drv_release drv (dev c))).
  { unfold RobustArducam.stop, cap_release. simpl. now rewrite Hcap. }
  rewrite Hstop. split.
  - reflexivity.
  - unfold RobustArducam.set_focus, bind, cap_and_isOpened, isOpened, ret.
    simpl. rewrite Hcap, Hclosed. reflexivity.
Qed.

End RobustStreak.

(** ** arducam_controller.py: capture and disconnection *)

Section ControllerLifecycle.

Context {St : Type} (drv : Driver St).

(** [disconnect] releases the handle at most once however often it is
    called: it forgets the handle, so that a second call, [set_focus]
    and [start_capture] then do nothing to the device; the frame
    buffer keeps its last frame. *)
Theorem disconnect_forgets_handle (v : Z) (c : Controller St) :
  let o := ArducamControllerCapture.disconnect drv c in
  let c' := final o in
  events o = (if cap c then [EvRelease] else [])
  /\ cap c' = false /\ is_running c' = false
  /\ ArducamController.get_frame c' = ArducamController.get_frame c
  /\ ArducamControllerCapture.disconnect drv c' = mkOutcome (Ok tt) c' []
  /\ ArducamController.set_focus drv v c' = mkOutcome (Ok false) c' []
  /\ ArducamControllerCapture.start_capture drv c'
     = mkOutcome (Ok false) c' [].
Proof.
  cbv zeta.
  unfold ArducamControllerCapture.disconnect,
    ArducamControllerCapture.stop_capture,
    ArducamControllerCapture.start_capture, ArducamController.set_focus,
    ArducamController.get_frame, set_is_running, clear_cap, cap_release,
    cap_and_isOpened, bind, ret.
  simpl. destruct c as [id [|] d run fr mode]; simpl; repeat split.
Qed.

Lemma controller_loop_unfold (fuel : nat) (c : Controller St) :
  ArducamControllerCapture.loop drv (S fuel) c =
  if negb (is_running c) then ret Stopped c
  else
    (available <- cap_and_isOpened drv ;;
     if available then
       frame <- cap_read drv ;;
       match frame with
       | Some f => RobustArducam.publish f
       | None => sleep 10
       end ;;
       sleep 1 ;;
       ArducamControllerCapture.loop drv fuel
     else ret Unavailable) c.
Proof. reflexivity. Qed.

Lemma controller_loop_post (fuel : nat) :
  forall (c : Controller St),
    post (ArducamControllerCapture.loop drv fuel c)
         (fun e c' ev =>
            e <> Faulted /\ releases ev = 0%nat
            /\ current_frame c'
               = latest (current_frame c) (frames_of (reads ev)))
         (fun c' ev =>
            releases ev = 0%nat
            /\ exists earlier, ev = earlier ++ [EvRead ReadRaised]).
Proof.
  induction fuel as [| fuel IH]; intros c.
  - apply post_ret. repeat split. discriminate.
  - rewrite controller_loop_unfold.
    destruct (is_running c); simpl;
      [| apply post_ret; repeat split; discriminate].
    repeat body_step; try (repeat split; discriminate).
    + eapply post_conseq; [apply IH | |]; cbv beta.
      * intros e c' ev (He & Hrel & Hframe).
        rewrite !releases_app, Hrel, Hframe.
        rewrite !reads_app, !frames_of_app, latest_app.
        repeat split; try assumption; reflexivity.
      * intros c' ev (Hrel & earlier & Hev). split.
        -- rewrite !releases_app, Hrel. reflexivity.
        -- rewrite Hev. eexists. rewrite !app_assoc. reflexivity.
    + eapply post_conseq; [apply IH | |]; cbv beta.
      * intros e c' ev (He & Hrel & Hframe).
        rewrite !releases_app, Hrel, Hframe.
        rewrite !reads_app, !frames_of_app, latest_app.
        repeat split; try assumption; reflexivity.
      * intros c' ev (Hrel & earlier & Hev). split.
        -- rewrite !releases_app, Hrel. reflexivity.
        -- rewrite Hev. eexists. rewrite !app_assoc. reflexivity.
    + split; [reflexivity |].
      match goal with
      | |- exists e, ?a ++ ?b = e ++ ?b => exists a; reflexivity
      end.
Qed.

(** A run of the loop that returns has made no read that raised. *)
Lemma controller_loop_returns_without_raise (fuel : nat) :
  forall (c : Controller St),
    post (ArducamControllerCapture.loop drv fuel c)
         (fun _ _ ev => ~ In ReadRaised (reads ev))
         (fun _ _ => True).
Proof.
  induction fuel as [| fuel IH]; intros c.
  - apply post_ret. intros [].
  - rewrite controller_loop_unfold.
    destruct (is_running c); simpl; [| apply post_ret; intros []].
    repeat body_step; try exact I; try (simpl; intros []).
    + eapply post_conseq; [apply IH | | trivial]; cbv beta.
      intros e c' ev Hno. simpl. intros [Habs | Hin]; [discriminate |].
      now apply Hno.
    + eapply post_conseq; [apply IH | | trivial]; cbv beta.
      intros e c' ev Hno. simpl. intros [Habs | Hin]; [discriminate |].
      now apply Hno.
Qed.

(** A read that raises at once: the loop does nothing more. *)
Lemma controller_loop_raise_at_once (fuel : nat) (c : Controller St) :
  is_running c = true -> cap c = true ->
  drv_isOpened drv (dev c) = true ->
  fst (drv_read drv (dev c)) = ReadRaised ->
  let o := ArducamControllerCapture.loop drv (S fuel) c in
  result o = Raised
  /\ events o = [EvIsOpened true; EvRead ReadRaised].
Proof.
  intros Hrun Hcap Hopen Hread. cbv zeta.
  rewrite controller_loop_unfold, Hrun. simpl.
  destruct (drv_read drv (dev c)) as [r d] eqn:Hrd.
  simpl in Hread. subst r.
  unfold bind, cap_and_isOpened, isOpened, cap_read, sleep, emit, ret.
  rewrite Hcap, Hopen. simpl. rewrite Hcap, Hrd. simpl.
  split; reflexivity.
Qed.

Lemma controller_loop_keeps_failing (n : nat) :
  forall (c : Controller St),
    is_running c = true -> cap c = true ->
    fails_next drv n (dev c) ->
    let o := ArducamControllerCapture.loop drv n c in
    result o = Ok OutOfFuel
    /\ reads (events o) = repeat ReadFailed n.
Proof.
  induction n as [| n IH]; intros c Hrun Hcap Hfail.
  - simpl. split; reflexivity.
  - destruct Hfail as (Hopen & Hread & Hnext).
    cbv zeta. rewrite controller_loop_unfold, Hrun. simpl.
    destruct (drv_read drv (dev c)) as [r d] eqn:Hrd.
    simpl in Hread, Hnext. subst r.
    destruct (IH (with_dev c d) Hrun Hcap Hnext) as (Hres & Hreads).
    unfold bind, cap_and_isOpened, isOpened, cap_read, sleep, emit, ret.
    rewrite Hcap, Hopen. simpl. rewrite Hcap, Hrd. simpl.
    destruct (ArducamControllerCapture.loop drv n (with_dev c d))
      as [res c' ev]. simpl in Hres, Hreads. subst res. simpl.
    rewrite Hreads. split; reflexivity.
Qed.

(** The loop of [arducam_controller.py] has no ceiling on failed reads:
    however many reads fail in a row, it is still running after
    them. *)
Theorem controller_loop_has_no_ceiling (n : nat) (c : Controller St) :
  is_running c = true -> cap c = true ->
  fails_next drv n (dev c) ->
  let o := ArducamControllerCapture._capture_loop drv n c in
  result o = Ok OutOfFuel
  /\ reads (events o) = repeat ReadFailed n.
Proof.
  intros Hrun Hcap Hfail.
  exact (controller_loop_keeps_failing n c Hrun Hcap Hfail).
Qed.

(** The loop of [arducam_controller.py] never ends faulted and never
    releases the device.  It has no handler: it ends with an exception
    exactly when it has made a read that raised, and that read is then
    the last thing it did; a read that raises on the first pass ends it
    after that one read.  When it does not raise the buffer holds the
    last frame it read. *)
Theorem controller_loop_dies_by_raising_read
    (fuel : nat) (c : Controller St) :
  let o := ArducamControllerCapture._capture_loop drv fuel c in
  result o <> Ok Faulted
  /\ releases (events o) = 0%nat
  /\ (result o = Raised <-> In ReadRaised (reads (events o)))
  /\ (result o = Raised ->
      exists earlier, events o = earlier ++ [EvRead ReadRaised])
  /\ (result o <> Raised ->
      current_frame (final o)
      = latest (current_frame c) (frames_of (reads (events o))))
  /\ (is_running c = true -> cap c = true ->
      drv_isOpened drv (dev c) = true ->
      fst (drv_read drv (dev c)) = ReadRaised ->
      let o1 := ArducamControllerCapture._capture_loop drv (S fuel) c in
      result o1 = Raised
      /\ events o1 = [EvIsOpened true; EvRead ReadRaised]).
Proof.
  cbv zeta. unfold ArducamControllerCapture._capture_loop.
  pose proof (controller_loop_post fuel c) as H. unfold post in H.
  pose proof (controller_loop_returns_without_raise fuel c) as Hno.
  unfold post in Hno.
  destruct (result (ArducamControllerCapture.loop drv fuel c)) as [e |].
  - destruct H as (He & Hrel & Hframe).
    split; [intros [= ->]; now apply He |].
    split; [exact Hrel |].
    split; [split; [discriminate | intros Hin; now elim Hno] |].
    split; [discriminate |].
    split; [intros _; exact Hframe |].
    apply controller_loop_raise_at_once.
  - destruct H as (Hrel & earlier & Hlast).
    split; [discriminate |].
    split; [exact Hrel |].
    split.
    { split; [intros _ | reflexivity].
      rewrite Hlast, reads_app, in_app_iff. right. simpl. now left. }
    split; [intros _; now exists earlier |].
    split; [intros Habs; now elim Habs |].
    apply controller_loop_raise_at_once.
Qed.

End ControllerLifecycle.
(** ** native_color_arducam.py and arducam_color_force.py: capture *)

Section OtherLoops.

Context {St : Type} (drv : Driver St).




Lemma force_loop_unfold (fuel : nat) (c : Controller St) :
  ArducamColorForceController.loop drv (S fuel) c =
  if negb (is_running c) then ret Stopped c
  else
    (available <- cap_and_isOpened drv ;;
     (if available then
        frame <- cap_read drv ;;
        match frame with
        | Some f => RobustArducam.publish f
        | None => sleep 10
        end
      else ret tt) ;;
     sleep 1 ;;
     ArducamColorForceController.loop drv fuel) c.
Proof. reflexivity. Qed.

(** The loop of [arducam_color_force.py] is not ended by a closed
    device: while the flag is set it keeps asking [isOpened] and
    sleeping a millisecond, without reading and without releasing. *)
Theorem force_loop_polls_closed_device (fuel : nat) (c : Controller St) :
  is_running c = true -> cap c = true ->
  drv_isOpened drv (dev c) = false ->
  ArducamColorForceController._capture_loop drv fuel c
  = mkOutcome (Ok OutOfFuel) c (polling fuel).
Proof.
  intros Hrun Hcap Hclosed.
  unfold ArducamColorForceController._capture_loop.
  induction fuel as [| fuel IH].
  - reflexivity.
  - rewrite force_loop_unfold, Hrun. simpl.
    unfold bind, cap_and_isOpened, isOpened, sleep, emit, ret.
    rewrite Hcap, Hclosed. simpl. rewrite IH. reflexivity.
Qed.

End OtherLoops.

(** ** arducam_color_force.py: connect *)

Lemma no_focus_write_app (a b : list Event) :
  no_focus_write a -> no_focus_write b -> no_focus_write (a ++ b).
Proof.
  unfold no_focus_write. intros Ha Hb v Hin.
  rewrite writes_app in Hin. apply in_app_or in Hin.
  destruct Hin as [Hin | Hin]; [apply (Ha v Hin) | apply (Hb v Hin)].
Qed.

Section ForceConnect.

Context {St : Type} (drv : Driver St).

Ltac no_focus :=
  unfold no_focus_write; simpl; intros ? Hin;
  repeat (destruct Hin as [Hin | Hin]; [discriminate Hin |]); exact Hin.

Ltac forced_goal :=
  unfold forced, force_raised; simpl;
  repeat match goal with
    | |- _ /\ _ => split
    | |- (_ <= _)%nat => unfold opens; simpl; lia
    | |- _ = _ => reflexivity
    | |- no_focus_write _ => no_focus
    | |- exists pre, ?l = pre ++ ?tail =>
        exists (firstn (length l - length tail) l); reflexivity
    end.

Lemma try_pair_post (backend : Backend) (fourcc : Z) (c : Controller St) :
  post (ArducamColorForceController.try_pair drv backend fourcc c)
       (fun connected c' ev => cap c' = true /\ forced 1 connected c' ev)
       (fun c' ev => cap c' = true /\ opens ev = 1%nat /\ force_raised c' ev).
Proof.
  unfold ArducamColorForceController.try_pair,
    ArducamColorForceController.check_color.
  repeat body_step; try solve [forced_goal].
  all: match goal with
       | |- context [ArducamColorForce._check_color ?f] =>
           destruct (ArducamColorForce._check_color f) as [[|] |]
       end;
    repeat body_step; forced_goal.
Qed.

Lemma connect_with_post (l : list (Backend * Z)) :
  forall (c : Controller St),
    post (ArducamColorForceController.connect_with drv l c)
         (forced (length l)) force_raised.
Proof.
  induction l as [| [backend fourcc] rest IH]; intros c.
  - apply post_ret. forced_goal.
  - simpl ArducamColorForceController.connect_with.
    apply post_bind.
    eapply post_conseq; [apply try_pair_post | |]; cbv beta.
    + intros [|] c1 e1 (Hcap & Hnf & H1).
      * apply post_ret. rewrite app_nil_r. split; [exact Hnf |].
        destruct H1 as (Hopens & Hsucc & Hw). simpl length.
        split; [lia | split; assumption].
      * destruct H1 as (Hopens1 & Hrel1).
        eapply post_conseq; [apply IH | |]; cbv beta.
        -- intros b c2 e2 (Hnf2 & H2).
           split; [now apply no_focus_write_app |].
           rewrite opens_app, releases_app, successful_opens_app, writes_app,
             Hopens1, Hrel1. simpl length.
           destruct b.
           ++ destruct H2 as (Hopens & Hsucc & pre & Hw).
              rewrite Hsucc, Hw. split; [lia | split; [lia |]].
              exists (writes e1 ++ pre). now rewrite app_assoc.
           ++ destruct H2 as (Hopens & Hrel). rewrite Hopens, Hrel.
              split; reflexivity.
        -- intros c2 e2 (Hnf2 & Hleak).
           split; [now apply no_focus_write_app |].
           rewrite releases_app, successful_opens_app, Hrel1, Hleak. lia.
    + intros c1 e1 (_ & _ & H). exact H.
Qed.

(** [connect] of [arducam_color_force.py] never writes the focus
    property.  When it answers true, its last write has switched
    autofocus on and it keeps the one handle it has not released; when
    it answers false it has opened the device once per pair and
    released every handle it found opened. *)
Theorem force_connect_enables_autofocus
    (connected : bool) (c : Controller St) :
  result (ArducamColorForceController.connect drv c) = Ok connected ->
  let ev := events (ArducamColorForceController.connect drv c) in
  no_focus_write ev
  /\ if connected
     then (1 <= opens ev <= 4)%nat
          /\ successful_opens ev = S (releases ev)
          /\ exists pre, writes ev = pre ++ [(CAP_PROP_AUTOFOCUS, 1)]
     else opens ev = 4%nat /\ releases ev = successful_opens ev.
Proof.
  intros Hres.
  exact (post_result _ _ _ connected
           (connect_with_post ArducamColorForceController.backends_formats c)
           Hres).
Qed.

(** An exception ends [connect] of [arducam_color_force.py] with the
    handle of the pair at hand still open: it has found the device
    opened once more often than it has released it.  The [ValueError]
    of [_check_color] on a frame less than 8 pixels high or wide is
    such an exception. *)
Theorem force_connect_exception_keeps_handle (c : Controller St) :
  result (ArducamColorForceController.connect drv c) = Raised ->
  let ev := events (ArducamColorForceController.connect drv c) in
  successful_opens ev = S (releases ev).
Proof.
  intros Hres.
  pose proof (connect_with_post
                ArducamColorForceController.backends_formats c) as H.
  unfold post in H. fold (ArducamColorForceController.connect drv c) in H.
  rewrite Hres in H. exact (proj2 H).
Qed.

End ForceConnect.

(** ** The classifiers on whole frames *)

Lemma difference_counts_exact (T a s : Z) :
  u8 a -> u8 s -> 0 <= T < 256 ->
  (T <? u8_abs (u8_sub a s)) = true <-> difference_counts T a s.
Proof.
  intros Ha Hs HT. unfold difference_counts, u8_abs.
  rewrite Z.ltb_lt.
  destruct (Z_lt_ge_dec a s) as [Hlt | Hge].
  - rewrite (u8_sub_wraps a s Ha Hs Hlt). unfold u8 in *. lia.
  - rewrite (u8_sub_exact a s Ha Hs) by lia. unfold u8 in *. lia.
Qed.

(** The pixel test of [_has_true_color] and [_check_color], in terms
    of the components as numbers: a pixel is counted exactly when, for
    one of the pairs (r, g), (r, b), (g, b), the first exceeds the
    second by more than the threshold or the second exceeds the first
    by less than 256 minus the threshold. *)
Theorem pixel_test_exact (T : Z) (p : Pixel) :
  u8_pixel p -> 0 <= T < 256 ->
  any_diff_gt T p = true
  <-> difference_counts T (px_r p) (px_g p)
      \/ difference_counts T (px_r p) (px_b p)
      \/ difference_counts T (px_g p) (px_b p).
Proof.
  intros (Hb & Hg & Hr) HT.
  unfold any_diff_gt, diff_rg, diff_rb, diff_gb.
  rewrite !orb_true_iff, !difference_counts_exact by assumption.
  tauto.
Qed.

Lemma quarter_points (n : Z) :
  1 <= n ->
  0 <= n / 4 < n /\ 0 <= n / 2 < n /\ 0 <= 3 * n / 4 < n.
Proof.
  intros Hn.
  repeat split; try (apply Z.div_pos; lia);
    apply Z.div_lt_upper_bound; lia.
Qed.

Lemma in_bounds_true (w h x y : Z) :
  0 <= x < w -> 0 <= y < h -> in_bounds w h x y = true.
Proof.
  intros Hx Hy. unfold in_bounds.
  rewrite !andb_true_iff, !Z.leb_le, !Z.ltb_lt. lia.
Qed.

Lemma in_bounds_empty (w h x y : Z) :
  w <= 0 \/ h <= 0 -> 0 <= x -> 0 <= y -> in_bounds w h x y = false.
Proof.
  intros Hempty Hx Hy. unfold in_bounds.
  destruct (x <? w) eqn:Hxw; destruct (y <? h) eqn:Hyh;
    rewrite ?andb_false_r; try reflexivity.
  apply Z.ltb_lt in Hxw, Hyh. lia.
Qed.

Lemma native_points_in_bounds (w h : Z) :
  1 <= w -> 1 <= h ->
  sampled w h (NativeColorClassifier.sample_points w h)
  = NativeColorClassifier.sample_points w h.
Proof.
  intros Hw Hh.
  destruct (quarter_points w Hw) as (W4 & W2 & W34).
  destruct (quarter_points h Hh) as (H4 & H2 & H34).
  unfold sampled, NativeColorClassifier.sample_points. simpl.
  rewrite !in_bounds_true by assumption. reflexivity.
Qed.

Lemma test_points_in_bounds (w h : Z) :
  1 <= w -> 1 <= h ->
  sampled w h (TrueColorTest.sample_points w h)
  = TrueColorTest.sample_points w h.
Proof.
  intros Hw Hh.
  destruct (quarter_points w Hw) as (W4 & W2 & W34).
  destruct (quarter_points h Hh) as (H4 & H2 & H34).
  unfold sampled, TrueColorTest.sample_points. simpl.
  rewrite !in_bounds_true by assumption. reflexivity.
Qed.

(** On a 3-channel frame with at least one row and one column
    [_has_true_color] reads all five of its sample points, which lie
    inside the frame, and the nine points of [test_true_color] lie
    inside it too; on a frame without rows or without columns it reads
    no pixel and answers false. *)
Theorem sample_points_inside_frame (f : ndarray) :
  is_bgr f = true -> 0 <= dim f 0 -> 0 <= dim f 1 ->
  let h := dim f 0 in
  let w := dim f 1 in
  if (1 <=? h) && (1 <=? w)
  then snd (NativeColorClassifier._has_true_color_reads f)
       = NativeColorClassifier.sample_points w h
       /\ sampled w h (TrueColorTest.sample_points w h)
          = TrueColorTest.sample_points w h
  else NativeColorClassifier._has_true_color_reads f = (false, [])
       /\ TrueColorTest.frame_is_true_color f = false.
Proof.
  intros Hbgr Hh0 Hw0. cbv zeta.
  unfold NativeColorClassifier._has_true_color_reads,
    TrueColorTest.frame_is_true_color, TrueColorTest.color_points.
  rewrite Hbgr. cbn [negb snd].
  destruct ((1 <=? dim f 0) && (1 <=? dim f 1)) eqn:Hdims.
  - apply andb_true_iff in Hdims. destruct Hdims as [Hh Hw].
    apply Z.leb_le in Hh, Hw.
    split; [now apply native_points_in_bounds
           | now apply test_points_in_bounds].
  - assert (Hempty : dim f 1 <= 0 \/ dim f 0 <= 0).
    { apply andb_false_iff in Hdims.
      destruct Hdims as [H | H]; apply Z.leb_gt in H; lia. }
    assert (Hout : forall x y, 0 <= x -> 0 <= y ->
                     in_bounds (dim f 1) (dim f 0) x y = false)
      by (intros; now apply in_bounds_empty).
    assert (Hq : forall n, 0 <= n ->
                   0 <= n / 4 /\ 0 <= n / 2 /\ 0 <= 3 * n / 4)
      by (intros; repeat split; apply Z.div_pos; lia).
    destruct (Hq _ Hh0) as (H4 & H2 & H34).
    destruct (Hq _ Hw0) as (W4 & W2 & W34).
    unfold count_points, sampled, NativeColorClassifier.sample_points,
      TrueColorTest.sample_points.
    simpl. rewrite !Hout by assumption. simpl. split; reflexivity.
Qed.

(** ** true_color_arducam.py: the tolerance of 5 *)

Lemma sum_abs_diff_le (k : Z) (sel1 sel2 : Pixel -> Z) (ps : list Pixel) :
  Forall (fun p => Z.abs (sel1 p - sel2 p) <= k) ps ->
  TrueColorClassifier.sum_abs_diff sel1 sel2 ps
  <= k * Z.of_nat (length ps).
Proof.
  induction 1 as [| p ps Hp _ IH]; simpl length; simpl; lia.
Qed.

Lemma sum_abs_diff_ge (k : Z) (sel1 sel2 : Pixel -> Z) (ps : list Pixel) :
  Forall (fun p => k <= Z.abs (sel1 p - sel2 p)) ps ->
  k * Z.of_nat (length ps)
  <= TrueColorClassifier.sum_abs_diff sel1 sel2 ps.
Proof.
  induction 1 as [| p ps Hp _ IH]; simpl length; simpl; lia.
Qed.

(** The decision of [true_color_arducam.py] on a 3-channel frame with
    at least one pixel: channels within 4 of each other everywhere give
    "grayscale disguised as colour"; blue and green at least 5 apart
    everywhere give "true colour", whatever the pixels are. *)
Theorem tolerance_of_disguised_grayscale (f : ndarray) :
  is_bgr f = true -> pixels (data f) <> [] ->
  (Forall nearly_gray (pixels (data f)) ->
   TrueColorClassifier.connect_verdict f = GrayscaleDisguisedAsColor)
  /\ (Forall (fun p => 5 <= Z.abs (px_b p - px_g p)) (pixels (data f)) ->
      TrueColorClassifier.connect_verdict f = TrueColor).
Proof.
  intros Hbgr Hsome.
  assert (Hn : 0 < Z.of_nat (length (pixels (data f)))).
  { destruct (pixels (data f)); [contradiction | simpl length; lia]. }
  unfold TrueColorClassifier.connect_verdict,
    TrueColorClassifier._is_grayscale_disguised_as_color,
    TrueColorClassifier.mean_below_threshold.
  rewrite Hbgr. cbn [negb].
  replace (0 <? Z.of_nat (length (pixels (data f)))) with true
    by (symmetry; now apply Z.ltb_lt).
  split.
  - intros Hgray.
    assert (H1 := sum_abs_diff_le 4 px_b px_g (pixels (data f))).
    assert (H2 := sum_abs_diff_le 4 px_b px_r (pixels (data f))).
    assert (H3 := sum_abs_diff_le 4 px_g px_r (pixels (data f))).
    rewrite Forall_forall in Hgray.
    rewrite Forall_forall in H1, H2, H3.
    specialize (H1 (fun p Hp => proj1 (Hgray p Hp))).
    specialize (H2 (fun p Hp => proj1 (proj2 (Hgray p Hp)))).
    specialize (H3 (fun p Hp => proj2 (proj2 (Hgray p Hp)))).
    replace (_ <? _) with true by (symmetry; apply Z.ltb_lt; lia).
    replace (_ <? _) with true by (symmetry; apply Z.ltb_lt; lia).
    replace (_ <? _) with true by (symmetry; apply Z.ltb_lt; lia).
    reflexivity.
  - intros Hapart.
    pose proof (sum_abs_diff_ge 5 px_b px_g (pixels (data f)) Hapart) as H.
    replace (TrueColorClassifier.sum_abs_diff px_b px_g (pixels (data f))
             <? 5 * Z.of_nat (length (pixels (data f)))) with false
      by (symmetry; apply Z.ltb_ge; lia).
    reflexivity.
Qed.
(** ** Frames of one colour *)

Lemma nth_filled (a0 a1 a2 d : Z) (n : nat) :
  forall i, (i < n)%nat ->
    nth (3 * i) (concat (repeat [a0; a1; a2] n)) d = a0
    /\ nth (3 * i + 1) (concat (repeat [a0; a1; a2] n)) d = a1
    /\ nth (3 * i + 2) (concat (repeat [a0; a1; a2] n)) d = a2.
Proof.
  induction n as [| n IH]; intros i Hi; [lia |].
  destruct i as [| i].
  - simpl. repeat split.
  - destruct (IH i) as (H0 & H1 & H2); [lia |].
    replace (3 * S i)%nat with (S (S (S (3 * i)))) by lia.
    simpl repeat. simpl concat. cbn [app nth Nat.add].
    repeat split; assumption.
Qed.

Lemma getpixel_filled (h w : nat) (p : Pixel) (x y : Z) :
  in_bounds (Z.of_nat w) (Z.of_nat h) x y = true ->
  getpixel (filled h w p) y x = p.
Proof.
  unfold in_bounds.
  rewrite !andb_true_iff, !Z.leb_le, !Z.ltb_lt.
  intros (((Hx0 & Hxw) & Hy0) & Hyh).
  unfold getpixel, at_, filled, dim. simpl shape. simpl data. cbn [nth].
  set (i := Z.to_nat (y * Z.of_nat w + x)).
  assert (Hi : (i < h * w)%nat) by (unfold i; nia).
  destruct (nth_filled (px_b p) (px_g p) (px_r p) 0 (h * w) i Hi)
    as (H0 & H1 & H2).
  replace (Z.to_nat ((y * Z.of_nat w + x) * 3)) with (3 * i)%nat
    by (unfold i; nia).
  replace (Z.to_nat ((y * Z.of_nat w + x) * 3 + 1)) with (3 * i + 1)%nat
    by (unfold i; nia).
  replace (Z.to_nat ((y * Z.of_nat w + x) * 3 + 2)) with (3 * i + 2)%nat
    by (unfold i; nia).
  rewrite H0, H1, H2. now destruct p.
Qed.

Lemma count_points_filled (test : Pixel -> bool) (h w : nat) (p : Pixel)
    (pts : list (Z * Z)) :
  sampled (Z.of_nat w) (Z.of_nat h) pts = pts ->
  count_points test (filled h w p) (Z.of_nat w) (Z.of_nat h) pts
  = if test p then Z.of_nat (length pts) else 0.
Proof.
  unfold count_points, sampled.
  induction pts as [| [x y] pts IH]; simpl.
  - now destruct (test p).
  - destruct (in_bounds (Z.of_nat w) (Z.of_nat h) x y) eqn:Hin; simpl.
    + intros Hall. injection Hall as Hall. specialize (IH Hall).
      rewrite (getpixel_filled h w p x y Hin).
      destruct (test p); simpl length; lia.
    + intros Hall. exfalso.
      assert (Hlen : (length (filter
                (fun pt => in_bounds (Z.of_nat w) (Z.of_nat h) (fst pt) (snd pt))
                pts) <= length pts)%nat) by apply filter_length_le.
      rewrite Hall in Hlen. simpl in Hlen. lia.
Qed.

(** A frame of one colour, with at least one row and one column, is
    judged by its pixel: [_has_true_color] answers what its pixel test
    answers on that colour and the frame test of [test_true_color]
    what [max_diff > 25 and 50 < pixel_sum < 650] answers on it. *)
Theorem solid_frame_judged_by_its_pixel (h w : nat) (p : Pixel) :
  (1 <= h)%nat -> (1 <= w)%nat ->
  NativeColorClassifier._has_true_color (filled h w p)
  = NativeColorClassifier.pixel_has_color p
  /\ TrueColorTest.frame_is_true_color (filled h w p)
     = TrueColorTest.is_color_point p.
Proof.
  intros Hh Hw.
  assert (Hw' : 1 <= Z.of_nat w) by lia.
  assert (Hh' : 1 <= Z.of_nat h) by lia.
  unfold NativeColorClassifier._has_true_color,
    NativeColorClassifier._has_true_color_reads,
    TrueColorTest.frame_is_true_color, TrueColorTest.color_points.
  replace (is_bgr (filled h w p)) with true by reflexivity.
  cbn [negb fst].
  replace (dim (filled h w p) 0) with (Z.of_nat h) by reflexivity.
  replace (dim (filled h w p) 1) with (Z.of_nat w) by reflexivity.
  rewrite !count_points_filled
    by (now apply native_points_in_bounds || now apply test_points_in_bounds).
  split.
  - now destruct (NativeColorClassifier.pixel_has_color p).
  - now destruct (TrueColorTest.is_color_point p).
Qed.

(** ** native_color_arducam.py: the order of the writes *)

Section StrategyWrites.

Context {St : Type} (drv : Driver St).

Ltac prefix_goal Hev :=
  try eexists;
  rewrite ?writes_app, ?successful_opens_app; try rewrite Hev;
  rewrite ?writes_map_EvRead, ?successful_opens_map_EvRead;
  simpl; reflexivity.

Lemma try_strategy_writes (s : Strategy) (c : Controller St) :
  post (NativeColorArducam.try_strategy drv s c)
       (fun accepted _ ev =>
          writes ev
          = if accepted then strategy_writes s
            else match successful_opens ev with
                 | O => []
                 | S _ => firstn 5 (strategy_writes s)
                 end)
       (fun _ ev => exists rest, strategy_writes s = writes ev ++ rest).
Proof.
  unfold NativeColorArducam.try_strategy,
    NativeColorArducam._configure_focus, strategy_writes.
  repeat method_step; try (try eexists; simpl; reflexivity).
  eapply post_conseq; [apply probe_post; reflexivity | |]; cbv beta.
  - intros k cP eP (HcapP & Hev & Hlen & Hk).
    destruct (3 <=? k).
    + repeat method_step; try prefix_goal Hev.
      apply post_set_current_mode.
      repeat method_step; prefix_goal Hev.
    + repeat method_step. prefix_goal Hev.
  - intros cP eP (HcapP & Hev). prefix_goal Hev.
Qed.

(** The writes of one pass over a strategy are always the beginning of
    one fixed sequence: the format first, then width, height, 30 frames
    per second, a buffer of one, then autofocus off and focus 100.  A
    strategy that is accepted has made all seven; one that is given up
    has made the first five, or none if the device did not open, and
    has left the focus alone. *)
Theorem format_is_written_before_resolution (s : Strategy) (c : Controller St) :
  let o := NativeColorArducam.try_strategy drv s c in
  (exists rest, strategy_writes s = writes (events o) ++ rest)
  /\ (result o = Ok true -> writes (events o) = strategy_writes s)
  /\ (result o = Ok false ->
      writes (events o)
      = match successful_opens (events o) with
        | O => []
        | S _ => firstn 5 (strategy_writes s)
        end).
Proof.
  cbv zeta. pose proof (try_strategy_writes s c) as H. unfold post in H.
  destruct (result (NativeColorArducam.try_strategy drv s c)) as [[|] |].
  - rewrite H. split; [exists []; now rewrite app_nil_r |].
    split; [reflexivity | discriminate].
  - split.
    + rewrite H. destruct (successful_opens _).
      * now exists (strategy_writes s).
      * now exists [(CAP_PROP_AUTOFOCUS, 0); (CAP_PROP_FOCUS, 100)].
    + split; [discriminate | intros _; exact H].
  - split; [exact H | split; discriminate].
Qed.

End StrategyWrites.

(** ** true_color_test.py: the whole test *)

Lemma successfully_read_app (a b : list ReadResult) :
  Spec.successfully_read (a ++ b)
  = Spec.successfully_read a + Spec.successfully_read b.
Proof.
  unfold Spec.successfully_read. rewrite filter_app, length_app. lia.
Qed.

Lemma true_color_frames_app (a b : list ReadResult) :
  true_color_frames (a ++ b) = true_color_frames a + true_color_frames b.
Proof.
  unfold true_color_frames. rewrite filter_app, length_app. lia.
Qed.

Section TestRun.

Context {St : Type} (drv : Driver St).

Lemma frames_counted_step (n : nat) (total tcf total' tcf' : Z)
    (r : ReadResult) (sleeps : list Event) (counts : Z * Z * list Z)
    (c : Controller St) (ev : list Event) :
  total' = total + Spec.successfully_read [r] ->
  tcf' = tcf + true_color_frames [r] ->
  sleeps = [] \/ sleeps = [EvSleep 100] ->
  frames_counted n total' tcf' counts c ev ->
  frames_counted (S n) total tcf counts c ([EvRead r] ++ sleeps ++ ev).
Proof.
  intros Ht Hc Hsleeps (Hcap & Hop & Hsucc & Hrel & Hlen & Htotal & Htcf).
  unfold frames_counted.
  assert (Hreads : reads ([EvRead r] ++ sleeps ++ ev) = r :: reads ev).
  { destruct Hsleeps as [-> | ->]; reflexivity. }
  rewrite Hreads.
  change (r :: reads ev) with ([r] ++ reads ev).
  rewrite successfully_read_app, true_color_frames_app.
  rewrite !opens_app, !successful_opens_app, !releases_app, Hop, Hsucc, Hrel.
  repeat split; try assumption;
    try (destruct Hsleeps as [-> | ->]; reflexivity).
  - simpl length. lia.
  - lia.
  - lia.
Qed.

Lemma read_frames_post (n : nat) :
  forall (keys : list Z) (total tcf : Z) (c : Controller St),
    cap c = true ->
    post (TrueColorTestRun.read_frames drv n keys total tcf c)
         (frames_counted n total tcf) frames_raised.
Proof.
  induction n as [| n IH]; intros keys total tcf c Hcap.
  - apply post_ret. unfold frames_counted, Spec.successfully_read,
      true_color_frames. simpl. repeat split; try assumption; lia.
  - simpl TrueColorTestRun.read_frames.
    apply post_bind.
    apply post_cap_read; [assumption | intros f d _ | intros d _ | intros d _];
      cbv beta iota zeta.
    + destruct (Z.land (List.hd (-1) keys) 255 =? ord "q").
      * apply post_ret.
        unfold frames_counted, Spec.successfully_read, true_color_frames.
        simpl.
        destruct (TrueColorTest.frame_is_true_color f); simpl length;
          repeat split; try assumption; lia.
      * eapply post_conseq; [apply IH; exact Hcap | |]; cbv beta.
        -- intros counts c' ev H.
           apply frames_counted_step
             with (total' := total + 1)
                  (tcf' := if TrueColorTest.frame_is_true_color f
                           then tcf + 1 else tcf)
                  (sleeps := []);
             [reflexivity | | now left | exact H].
           unfold true_color_frames. simpl.
           destruct (TrueColorTest.frame_is_true_color f); simpl length; lia.
        -- intros c' ev (Hc & Hop & Hsucc & Hrel).
           unfold frames_raised.
           rewrite opens_app, successful_opens_app, releases_app,
             Hop, Hsucc, Hrel.
           repeat split; assumption.
    + apply post_bind. apply post_sleep. cbv beta.
      eapply post_conseq; [apply IH; exact Hcap | |]; cbv beta.
      * intros counts c' ev H.
        apply frames_counted_step
          with (total' := total) (tcf' := tcf) (sleeps := [EvSleep 100]);
          [| | now right | exact H].
        -- unfold Spec.successfully_read. simpl. lia.
        -- unfold true_color_frames. simpl. lia.
      * intros c' ev (Hc & Hop & Hsucc & Hrel).
        unfold frames_raised.
        rewrite !opens_app, !successful_opens_app, !releases_app,
          Hop, Hsucc, Hrel.
        repeat split; assumption.
    + unfold frames_raised. repeat split; assumption.
Qed.


Lemma post_open_camera (c : Controller St) Q R :
  Q tt (with_cap (with_dev c (drv_open drv 1 CAP_MSMF (dev c))) true)
    [EvOpen 1 CAP_MSMF] ->
  post (TrueColorTestRun.open_camera drv c) Q R.
Proof. exact (fun H => H). Qed.

Lemma test_format_post (fourcc : Z) (keys : list Z) (c : Controller St) :
  post (TrueColorTestRun.test_format drv fourcc keys c)
       format_tested
       (fun _ ev => opens ev = 1%nat /\ successful_opens ev = S (releases ev)).
Proof.
  unfold TrueColorTestRun.test_format.
  apply post_bind. apply post_open_camera. cbv beta.
  repeat body_step; try (split; reflexivity).
  - eapply post_conseq; [apply read_frames_post; reflexivity | |]; cbv beta.
    + intros counts cR eR (HcapR & Hop & Hsucc & Hrel & Hlen & Htotal & Htcf).
      simpl in Htotal, Htcf.
      assert (Hdone : forall passed keys',
                passed = (0 <? fst (fst counts))
                    && (7 * fst (fst counts) <=? 10 * snd (fst counts)) ->
                format_tested (passed, keys') (with_dev cR (drv_release drv (dev cR)))
                  ([EvOpen 1 CAP_MSMF] ++ [EvIsOpened true] ++
                   [EvSet CAP_PROP_FOURCC fourcc] ++ [EvSleep 500] ++
                   [EvSet CAP_PROP_FRAME_WIDTH 1280] ++
                   [EvSet CAP_PROP_FRAME_HEIGHT 720] ++
                   [EvSet CAP_PROP_FPS 30] ++ [EvSleep 2000] ++
                   eR ++ [EvRelease] ++ [])).
      { intros passed keys' Hb. unfold format_tested. cbn [fst].
        rewrite !opens_app, !successful_opens_app, !releases_app, !reads_app,
          Hop, Hsucc, Hrel.
        simpl. rewrite app_nil_r, <- Htotal, <- Htcf.
        repeat split; try reflexivity; assumption. }
      repeat body_step; apply Hdone; reflexivity.
    + intros cR eR (HcapR & Hop & Hsucc & Hrel).
      rewrite !opens_app, !successful_opens_app, !releases_app,
        Hop, Hsucc, Hrel.
      split; reflexivity.
  - unfold format_tested, Spec.successfully_read, true_color_frames.
    simpl. repeat split; try reflexivity; lia.
Qed.

(** What [test_true_color] has done after [n] formats. *)
Lemma test_with_post (l : list (string * Z)) :
  forall (keys : list Z) (c : Controller St),
    post (TrueColorTestRun.test_with drv l keys c)
         (fun b _ ev =>
            releases ev = successful_opens ev
            /\ (opens ev <= length l)%nat
            /\ (b = false -> opens ev = length l))
         (fun _ ev => successful_opens ev = S (releases ev)).
Proof.
  induction l as [| [name fourcc] rest IH]; intros keys c.
  - apply post_ret. repeat split; reflexivity.
  - simpl TrueColorTestRun.test_with.
    apply post_bind.
    eapply post_conseq; [apply test_format_post | |]; cbv beta.
    + intros [b keys'] c1 e1 (Hopens & Hrel & _ & _). cbn [fst snd].
      destruct b.
      * apply post_ret. rewrite app_nil_r. simpl length.
        split; [exact Hrel | split; [lia | discriminate]].
      * eapply post_conseq; [apply IH | |]; cbv beta.
        -- intros b c2 e2 (Hrel2 & Hopens2 & Hall).
           rewrite releases_app, successful_opens_app, opens_app,
             Hrel, Hrel2, Hopens.
           simpl length. split; [reflexivity | split; [lia |]].
           intros Hb. rewrite (Hall Hb). reflexivity.
        -- intros c2 e2 Hleak.
           rewrite releases_app, successful_opens_app, Hrel, Hleak. lia.
    + intros c1 e1 (_ & Hleak). exact Hleak.
Qed.

(** One format passes the test of [true_color_test.py] exactly when at
    least one frame was read and at least 70% of the frames read are
    true-colour frames; failed reads do not count, and a format with no
    frame read does not pass.  At most 30 reads are made, and the
    handle is released whether the format passes or not. *)
Theorem format_passes_at_seventy_percent
    (fourcc : Z) (keys : list Z) (c : Controller St)
    (r : bool * list Z) :
  result (TrueColorTestRun.test_format drv fourcc keys c) = Ok r ->
  let ev := events (TrueColorTestRun.test_format drv fourcc keys c) in
  let read := Spec.successfully_read (reads ev) in
  (fst r = true
   <-> 0 < read /\ 7 * read <= 10 * true_color_frames (reads ev))
  /\ (length (reads ev) <= 30)%nat
  /\ releases ev = successful_opens ev.
Proof.
  intros Hres.
  pose proof (post_result _ _ _ r (test_format_post fourcc keys c) Hres)
    as (_ & Hrel & Hlen & Hpass).
  cbv zeta. split; [| split; assumption].
  rewrite Hpass, andb_true_iff, Z.ltb_lt, Z.leb_le. reflexivity.
Qed.

(** [test_true_color] releases every handle it has opened before it
    returns, whatever it answers; it opens the device at most once per
    format, and once per format when it answers false.  Only an
    exception leaves a handle open. *)
Theorem test_releases_every_handle (keys : list Z) (c : Controller St) :
  let o := TrueColorTestRun.test_true_color drv keys c in
  match result o with
  | Ok passed =>
      releases (events o) = successful_opens (events o)
      /\ (opens (events o) <= 4)%nat
      /\ (passed = false -> opens (events o) = 4%nat)
  | Raised => successful_opens (events o) = S (releases (events o))
  end.
Proof.
  exact (test_with_post TrueColorTestRun.formats keys c).
Qed.

End TestRun.

(** ** arducam_color_force.py: the sampling grid *)

Lemma range_step_bounds (a b s v : Z) :
  0 < s -> In v (ArducamColorForce.range_step a b s) -> a <= v < b.
Proof.
  intros Hs Hin. unfold ArducamColorForce.range_step in Hin.
  apply in_map_iff in Hin. destruct Hin as (k & <- & Hk).
  apply in_seq in Hk.
  assert (Hq : Z.of_nat k + 1 <= (b - a + s - 1) / s) by lia.
  pose proof (Z.mul_div_le (b - a + s - 1) s Hs) as Hle.
  split; [nia |]. nia.
Qed.

Lemma range_step_length (a b s : Z) :
  0 < s -> s + 1 <= b - a ->
  (2 <= length (ArducamColorForce.range_step a b s))%nat.
Proof.
  intros Hs Hgap. unfold ArducamColorForce.range_step.
  rewrite length_map, length_seq.
  assert (2 <= (b - a + s - 1) / s)
    by (apply Z.div_le_lower_bound; lia).
  lia.
Qed.

Lemma quarters_of_eight (n : Z) :
  8 <= n ->
  0 < n / 8 /\ 0 <= n / 4 /\ 3 * n / 4 <= n
  /\ n / 8 + 1 <= 3 * n / 4 - n / 4.
Proof.
  intros Hn.
  pose proof (Z.div_mod n 8 ltac:(lia)).
  pose proof (Z.mod_pos_bound n 8 ltac:(lia)).
  pose proof (Z.div_mod n 4 ltac:(lia)).
  pose proof (Z.mod_pos_bound n 4 ltac:(lia)).
  pose proof (Z.div_mod (3 * n) 4 ltac:(lia)).
  pose proof (Z.mod_pos_bound (3 * n) 4 ltac:(lia)).
  lia.
Qed.

Lemma filter_all {A} (f : A -> bool) (l : list A) :
  (forall x, In x l -> f x = true) -> filter f l = l.
Proof.
  induction l as [| x l IH]; intros Hall; simpl.
  - reflexivity.
  - rewrite (Hall x (or_introl eq_refl)), IH; [reflexivity |].
    intros y Hy. apply Hall. now right.
Qed.

Lemma grid_inside (w h : Z) :
  8 <= w -> 8 <= h ->
  sampled w h (ArducamColorForce.grid w h) = ArducamColorForce.grid w h.
Proof.
  intros Hw Hh.
  destruct (quarters_of_eight w Hw) as (Ws & Wa & Wb & _).
  destruct (quarters_of_eight h Hh) as (Hs & Ha & Hb & _).
  unfold sampled. apply filter_all. intros [x y] Hin.
  unfold ArducamColorForce.grid in Hin.
  apply in_flat_map in Hin. destruct Hin as (y' & Hy & Hx).
  apply in_map_iff in Hx. destruct Hx as (x' & [= <- <-] & Hx).
  apply range_step_bounds in Hy; [| assumption].
  apply range_step_bounds in Hx; [| assumption].
  simpl. unfold in_bounds.
  rewrite !andb_true_iff, !Z.leb_le, !Z.ltb_lt. lia.
Qed.

Lemma length_flat_map_rows {A B C} (g : A -> B -> C) (xs : list A)
      (ys : list B) :
  length (flat_map (fun y => map (fun x => g x y) xs) ys)
  = (length ys * length xs)%nat.
Proof.
  induction ys as [| y ys IH]; simpl; [reflexivity |].
  now rewrite length_app, length_map, IH.
Qed.

Lemma grid_length (w h : Z) :
  8 <= w -> 8 <= h -> (4 <= length (ArducamColorForce.grid w h))%nat.
Proof.
  intros Hw Hh.
  destruct (quarters_of_eight w Hw) as (Ws & _ & _ & Wgap).
  destruct (quarters_of_eight h Hh) as (Hs & _ & _ & Hgap).
  pose proof (range_step_length (w / 4) (3 * w / 4) (w / 8) Ws Wgap) as Lx.
  pose proof (range_step_length (h / 4) (3 * h / 4) (h / 8) Hs Hgap) as Ly.
  unfold ArducamColorForce.grid.
  rewrite (length_flat_map_rows (fun x y => (x, y))). nia.
Qed.

(** [_check_color] raises exactly on the 3-channel frames with fewer
    than 8 rows or fewer than 8 columns.  On the others every point of
    its grid lies inside the frame, so that the bounds test it makes
    never fails, and the grid has at least four points. *)
Theorem check_color_raises_on_small_frames (f : ndarray) :
  is_bgr f = true -> 0 <= dim f 0 -> 0 <= dim f 1 ->
  let h := dim f 0 in
  let w := dim f 1 in
  (ArducamColorForce._check_color f = None <-> h < 8 \/ w < 8)
  /\ (8 <= h -> 8 <= w ->
      sampled w h (ArducamColorForce.grid w h) = ArducamColorForce.grid w h
      /\ (4 <= length (ArducamColorForce.grid w h))%nat).
Proof.
  intros Hbgr Hh0 Hw0. cbv zeta. split.
  - unfold ArducamColorForce._check_color. rewrite Hbgr. cbn [negb].
    assert (Hsmall : forall n, 0 <= n -> (n / 8 =? 0) = true <-> n < 8).
    { intros n Hn. rewrite Z.eqb_eq. split.
      - intros Hz. pose proof (Z.div_mod n 8 ltac:(lia)).
        pose proof (Z.mod_pos_bound n 8 ltac:(lia)). lia.
      - intros Hlt. apply Z.div_small. lia. }
    destruct ((dim f 0 / 8 =? 0) || (dim f 1 / 8 =? 0)) eqn:Hor.
    + apply orb_true_iff in Hor.
      split; [intros _ | reflexivity].
      destruct Hor as [H | H]; [left | right]; now apply Hsmall.
    + apply orb_false_iff in Hor. destruct Hor as [H1 H2].
      split; [discriminate |].
      intros [H | H]; apply Hsmall in H; try assumption; congruence.
  - intros Hh Hw. split; [now apply grid_inside | now apply grid_length].
Qed.

(** On a frame of one colour with at least 8 rows and 8 columns
    [_check_color] answers what its pixel test answers on that colour:
    all of the grid is sampled, and it has more than three points. *)
Theorem solid_frame_check_color (h w : nat) (p : Pixel) :
  (8 <= h)%nat -> (8 <= w)%nat ->
  ArducamColorForce._check_color (filled h w p)
  = Some (ArducamColorForce.pixel_has_color p).
Proof.
  intros Hh Hw.
  assert (Hh' : 8 <= Z.of_nat h) by lia.
  assert (Hw' : 8 <= Z.of_nat w) by lia.
  unfold ArducamColorForce._check_color.
  replace (is_bgr (filled h w p)) with true by reflexivity.
  cbn [negb].
  replace (dim (filled h w p) 0) with (Z.of_nat h) by reflexivity.
  replace (dim (filled h w p) 1) with (Z.of_nat w) by reflexivity.
  destruct (quarters_of_eight _ Hh') as (Hs & _).
  destruct (quarters_of_eight _ Hw') as (Ws & _).
  replace (Z.of_nat h / 8 =? 0) with false by (symmetry; apply Z.eqb_neq; lia).
  replace (Z.of_nat w / 8 =? 0) with false by (symmetry; apply Z.eqb_neq; lia).
  cbn [orb].
  rewrite count_points_filled by (now apply grid_inside).
  pose proof (grid_length _ _ Hw' Hh') as Hlen.
  destruct (ArducamColorForce.pixel_has_color p); [| reflexivity].
  f_equal. apply Z.leb_le. lia.
Qed.

(** ** Runs on the simulated device *)

(** A device that opens but never delivers a frame. *)
Lemma robust_connect_gives_up_released_witness :
  let o := RobustConnect.connect sim (sim_fresh 0 []) in
  result o = Ok false
  /\ opens (events o) = 3%nat
  /\ releases (events o) = successful_opens (events o)
  /\ frames_of (reads (events o)) = []
  /\ forall v, ~ In (CAP_PROP_AUTOFOCUS, v) (writes (events o))
               /\ ~ In (CAP_PROP_FOCUS, v) (writes (events o)).
Proof.
  exact (conj eq_refl
           (robust_connect_gives_up_released sim (sim_fresh 0 []) eq_refl)).
Defined.

(** A device whose first open fails and which then delivers a frame. *)
Lemma robust_connect_keeps_one_handle_witness :
  let o := RobustConnect.connect sim (sim_fresh 1 [ReadFrame gray_frame]) in
  result o = Ok true
  /\ (1 <= opens (events o) <= 3)%nat
  /\ successful_opens (events o) = S (releases (events o))
  /\ (exists f, frames_of (reads (events o)) = [f])
  /\ exists pre,
       writes (events o)
       = pre ++ [(CAP_PROP_AUTOFOCUS, 0); (CAP_PROP_FOCUS, 100)].
Proof.
  exact (conj eq_refl
           (robust_connect_keeps_one_handle sim
              (sim_fresh 1 [ReadFrame gray_frame]) eq_refl)).
Defined.

(** Three times [d] from 250, then [a], [s] and [q]. *)
Lemma main_loop_focus_in_range_witness :
  let keys := [ord "d"; ord "d"; ord "d"; ord "a"; ord "s"; ord "q"] in
  let o := RobustConnect.main_loop sim 10 keys 250 (sim_showing red_frame) in
  (exists f', result o = Ok f' /\ 0 <= f' <= 255)
  /\ Forall safe_write (writes (events o))
  /\ RobustConnect.on_key (-1) 250 = RobustConnect.Ignored.
Proof.
  apply (main_loop_focus_in_range sim 10
           [ord "d"; ord "d"; ord "d"; ord "a"; ord "s"; ord "q"] 250
           (sim_showing red_frame)).
  lia.
Defined.

Lemma faulted_after_ten_reads_without_frame_witness :
  let o := RobustArducam._capture_loop sim 12
             (sim_session 255 [ReadFrame red_frame]) in
  exists earlier run,
    reads (events o) = earlier ++ run
    /\ frames_of run = []
    /\ (10 <= length run)%nat.
Proof.
  apply (faulted_after_ten_reads_without_frame sim 12
           (sim_session 255 [ReadFrame red_frame])).
  reflexivity.
Defined.

Lemma stopped_controller_leaves_device_alone_witness :
  let c' := final (RobustArducam.stop sim (sim_session 255 [])) in
  RobustArducam.loop sim 4 0 c' = mkOutcome (Ok Stopped) c' []
  /\ RobustArducam.set_focus sim 50 c'
     = mkOutcome (Ok false) c' [EvIsOpened false].
Proof.
  apply (stopped_controller_leaves_device_alone sim 3 0 50
           (sim_session 255 [])).
  - reflexivity.
  - reflexivity.
Defined.

Lemma controller_loop_has_no_ceiling_witness :
  let o := ArducamControllerCapture._capture_loop sim 25
             (sim_session 255 []) in
  result o = Ok OutOfFuel
  /\ reads (events o) = repeat ReadFailed 25.
Proof.
  apply (controller_loop_has_no_ceiling sim 25 (sim_session 255 [])).
  - reflexivity.
  - reflexivity.
  - vm_compute; repeat split.
Defined.

(** A frame, then a read that raises; and a read that raises at
    once. *)
Lemma controller_loop_dies_by_raising_read_witness :
  let o := ArducamControllerCapture._capture_loop sim 5
             (sim_session 255 [ReadFrame red_frame; ReadRaised]) in
  let o1 := ArducamControllerCapture._capture_loop sim 5
              (sim_session 255 [ReadRaised; ReadFrame red_frame]) in
  (result o = Raised
   /\ exists earlier, events o = earlier ++ [EvRead ReadRaised])
  /\ result o1 = Raised
  /\ events o1 = [EvIsOpened true; EvRead ReadRaised].
Proof.
  pose proof (controller_loop_dies_by_raising_read sim 5
                (sim_session 255 [ReadFrame red_frame; ReadRaised]))
    as (_ & _ & Hiff & Hlast & _).
  assert (Hraised :
            result (ArducamControllerCapture._capture_loop sim 5
                      (sim_session 255 [ReadFrame red_frame; ReadRaised]))
            = Raised).
  { apply Hiff. vm_compute. right. left. reflexivity. }
  split; [split; [exact Hraised | exact (Hlast Hraised)] |].
  apply (controller_loop_dies_by_raising_read sim 4
           (sim_session 255 [ReadRaised; ReadFrame red_frame]));
    reflexivity.
Defined.

(** A controller whose handle has been closed behind its back. *)
Lemma force_loop_polls_closed_device_witness :
  let c := mkController 1 true (mkSim false O 255 1 0 (0, 0) []) true None
             EmptyString in
  ArducamColorForceController._capture_loop sim 3 c
  = mkOutcome (Ok OutOfFuel) c
      [EvIsOpened false; EvSleep 1; EvIsOpened false; EvSleep 1;
       EvIsOpened false; EvSleep 1].
Proof.
  apply (force_loop_polls_closed_device sim 3
           (mkController 1 true (mkSim false O 255 1 0 (0, 0) []) true None
              EmptyString)).
  - reflexivity.
  - reflexivity.
  - reflexivity.
Defined.

(** The second pair is the first to see colour: a gray frame, then a
    red one, both 16 x 16. *)
Lemma force_connect_enables_autofocus_witness :
  let script := [ReadFrame (filled 16 16 (mkPixel 128 128 128));
                 ReadFrame (filled 16 16 (mkPixel 0 0 200))] in
  let o := ArducamColorForceController.connect sim (sim_fresh 0 script) in
  result o = Ok true
  /\ no_focus_write (events o)
  /\ (1 <= opens (events o) <= 4)%nat
  /\ successful_opens (events o) = S (releases (events o))
  /\ exists pre, writes (events o) = pre ++ [(CAP_PROP_AUTOFOCUS, 1)].
Proof.
  split; [vm_compute; reflexivity |].
  apply (force_connect_enables_autofocus sim true
           (sim_fresh 0 [ReadFrame (filled 16 16 (mkPixel 128 128 128));
                         ReadFrame (filled 16 16 (mkPixel 0 0 200))])).
  vm_compute; reflexivity.
Defined.

(** A 2 x 2 frame makes [_check_color] raise. *)
Lemma force_connect_exception_keeps_handle_witness :
  let o := ArducamColorForceController.connect sim
             (sim_fresh 0 [ReadFrame red_frame]) in
  result o = Raised
  /\ successful_opens (events o) = S (releases (events o)).
Proof.
  split; [vm_compute; reflexivity |].
  apply (force_connect_exception_keeps_handle sim
           (sim_fresh 0 [ReadFrame red_frame])).
  vm_compute; reflexivity.
Defined.

(** Green above red by 250: the difference [r - g] is computed as 6,
    the other two as 0 and 250. *)
Lemma pixel_test_exact_witness :
  let p := mkPixel 0 250 0 in
  any_diff_gt 10 p = true
  <-> difference_counts 10 (px_r p) (px_g p)
      \/ difference_counts 10 (px_r p) (px_b p)
      \/ difference_counts 10 (px_g p) (px_b p).
Proof.
  apply (pixel_test_exact 10 (mkPixel 0 250 0)).
  - unfold u8_pixel, u8; simpl; lia.
  - lia.
Defined.

Lemma sample_points_inside_frame_witness :
  snd (NativeColorClassifier._has_true_color_reads red_frame)
  = NativeColorClassifier.sample_points 2 2
  /\ sampled 2 2 (TrueColorTest.sample_points 2 2)
     = TrueColorTest.sample_points 2 2.
Proof.
  apply (sample_points_inside_frame red_frame).
  - reflexivity.
  - vm_compute; discriminate.
  - vm_compute; discriminate.
Defined.

Lemma tolerance_of_disguised_grayscale_witness :
  TrueColorClassifier.connect_verdict (solid 100 104 102)
  = GrayscaleDisguisedAsColor
  /\ TrueColorClassifier.connect_verdict (solid 100 105 100) = TrueColor.
Proof.
  split.
  - apply (tolerance_of_disguised_grayscale (solid 100 104 102)).
    + reflexivity.
    + simpl; discriminate.
    + simpl; repeat constructor; simpl; lia.
  - apply (tolerance_of_disguised_grayscale (solid 100 105 100)).
    + reflexivity.
    + simpl; discriminate.
    + simpl; repeat constructor; simpl; lia.
Defined.

(** Saturated blue, 4 rows of 6. *)
Lemma solid_frame_judged_by_its_pixel_witness :
  let p := mkPixel 255 0 0 in
  NativeColorClassifier._has_true_color (filled 4 6 p)
  = NativeColorClassifier.pixel_has_color p
  /\ TrueColorTest.frame_is_true_color (filled 4 6 p)
     = TrueColorTest.is_color_point p.
Proof.
  apply (solid_frame_judged_by_its_pixel 4 6 (mkPixel 255 0 0)); lia.
Defined.

Lemma solid_frame_check_color_witness :
  ArducamColorForce._check_color (filled 8 16 (mkPixel 0 0 200))
  = Some (ArducamColorForce.pixel_has_color (mkPixel 0 0 200)).
Proof.
  apply (solid_frame_check_color 8 16 (mkPixel 0 0 200)); lia.
Defined.

(** 7 rows are too few, 8 rows and 8 columns are enough. *)
Lemma check_color_raises_on_small_frames_witness :
  ArducamColorForce._check_color (filled 7 16 (mkPixel 0 0 200)) = None
  /\ sampled 8 8 (ArducamColorForce.grid 8 8) = ArducamColorForce.grid 8 8.
Proof.
  split.
  - apply (check_color_raises_on_small_frames
             (filled 7 16 (mkPixel 0 0 200))).
    + reflexivity.
    + vm_compute; discriminate.
    + vm_compute; discriminate.
    + left. vm_compute; reflexivity.
  - apply (check_color_raises_on_small_frames
             (filled 8 8 (mkPixel 0 0 200))).
    + reflexivity.
    + vm_compute; discriminate.
    + vm_compute; discriminate.
    + vm_compute; discriminate.
    + vm_compute; discriminate.
Defined.

(** 21 red frames and 9 gray ones: the format passes at 21 of 30. *)
Lemma format_passes_at_seventy_percent_witness :
  let script := repeat (ReadFrame red_frame) 21
                ++ repeat (ReadFrame gray_frame) 9 in
  let o := TrueColorTestRun.test_format sim 5 [] (sim_fresh 0 script) in
  result o = Ok (true, [])
  /\ Spec.successfully_read (reads (events o)) = 30
  /\ true_color_frames (reads (events o)) = 21
  /\ releases (events o) = successful_opens (events o).
Proof.
  split; [vm_compute; reflexivity |].
  split; [vm_compute; reflexivity |].
  split; [vm_compute; reflexivity |].
  apply (format_passes_at_seventy_percent sim 5 []
           (sim_fresh 0 (repeat (ReadFrame red_frame) 21
                         ++ repeat (ReadFrame gray_frame) 9))
           (true, [])).
  vm_compute; reflexivity.
Defined.

(** No frame on the first format, colour on the second. *)
Lemma test_releases_every_handle_witness :
  let script := repeat ReadFailed 30 ++ repeat (ReadFrame red_frame) 30 in
  let o := TrueColorTestRun.test_true_color sim [] (sim_fresh 0 script) in
  result o = Ok true
  /\ releases (events o) = successful_opens (events o)
  /\ (opens (events o) <= 4)%nat.
Proof.
  split; [vm_compute; reflexivity |].
  pose proof (test_releases_every_handle sim []
                (sim_fresh 0 (repeat ReadFailed 30
                              ++ repeat (ReadFrame red_frame) 30))) as H.
  cbv zeta in H.
  replace (result _) with (@Ok bool true) in H by (vm_compute; reflexivity).
  split; apply H.
Defined.

(** An accepted strategy has made the seven writes, in order. *)
Lemma format_is_written_before_resolution_witness :
  let script := repeat (ReadFrame red_frame) 5 in
  writes (events (NativeColorArducam.try_strategy sim vga
                    (sim_fresh 0 script)))
  = strategy_writes vga.
Proof.
  apply (format_is_written_before_resolution sim vga
           (sim_fresh 0 (repeat (ReadFrame red_frame) 5))).
  vm_compute; reflexivity.
Defined.
